(** * Rotation arithmetic of the cleaning-schedule API

    A shallow embedding of the helpers of [server.js] that carry the
    whole scheduling logic ([getMondayOfWeek], [addDays],
    [getCurrentRotation], [getUpcomingRotations]) together with the part of
    the ECMAScript [Date] object they call.

    Modelling conventions.
    - A JavaScript number is [NaN] or an integer [Num z].  Every number the
      helpers compute is an integer or the argument of [Math.floor]; a
      quotient is never observed before it is floored, so the pair
      "[/] then [Math.floor]" is one operation here.  A double holds every
      integer up to 2^53 and, beyond, only those with 53 significant bits:
      the difference [now - startMonday] of two instants more than 2^53
      milliseconds (some 285 000 years) apart is rounded to the nearest of
      them ([roundDouble]).  The quotients of such a difference by the
      milliseconds of a day, and of a number of days by 14 or 7, are never
      rounded up to the next integer, so their floor is that of the exact
      quotient; sums and products stay below 2^53 or end in a date out of
      range.  Negative zero is not distinguished from zero: both index
      element 0 of an array and both print as 0.
    - A [Date] object is its time value: milliseconds since the epoch, or
      [NaN] for an invalid date.  The helpers copy a date before they
      mutate it, so no two names ever share a mutated object and dates are
      passed by value.
    - [new Date()] reads the wall clock of the host; a computation that
      does so is a function of the [World] it runs in. *)

From Stdlib Require Import ZArith List String Lia Bool.
From Equations Require Import Equations.
Import ListNotations.
Open Scope Z_scope.

(** ** Numbers *)

Inductive Number : Type :=
| NaN : Number
| Num (z : Z) : Number.

(** The multiple of [q] nearest to [x], the even one of the two when [x] is
    half way (round to nearest, ties to even). *)
Definition roundToMultiple (x q : Z) : Z :=
  let k := x / q in
  let r := x mod q in
  if 2 * r <? q then k * q
  else if q <? 2 * r then (k + 1) * q
  else if Z.even k then k * q
  else (k + 1) * q.

(** The double nearest to a positive integer: the integer itself when it
    has at most 53 significant bits, and else the nearest multiple of the
    power of two that leaves 53 of them. *)
Definition roundPositive (x : Z) : Z :=
  let e := Z.log2 x - 52 in
  if e <=? 0 then x else roundToMultiple x (2 ^ e).

(** The double nearest to an integer (of a magnitude below 2^1024). *)
Definition roundDouble (x : Z) : Z := Z.sgn x * roundPositive (Z.abs x).

Module Op.

Definition lift2 (f : Z -> Z -> Z) (a b : Number) : Number :=
  match a, b with
  | Num x, Num y => Num (f x y)
  | _, _ => NaN
  end.

(** [a + b] and [a * b] on integers. *)
Definition add : Number -> Number -> Number := lift2 Z.add.
Definition mul : Number -> Number -> Number := lift2 Z.mul.

(** [a - b] on integers: the double nearest to the difference. *)
Definition sub (a b : Number) : Number :=
  match a, b with
  | Num x, Num y => Num (roundDouble (x - y))
  | _, _ => NaN
  end.

(** [Math.floor(a / b)] for a positive literal divisor [b]: the floor of
    the exact quotient. *)
Definition floor_div (a : Number) (b : Z) : Number :=
  match a with
  | Num x => Num (x / b)
  | NaN => NaN
  end.

(** [a % b]: the remainder takes the sign of the dividend, and a zero
    divisor gives [NaN]. *)
Definition rem (a b : Number) : Number :=
  match a, b with
  | Num x, Num y => if y =? 0 then NaN else Num (Z.rem x y)
  | _, _ => NaN
  end.

(** [a <= b] and [a >= b]: false as soon as one side is [NaN]. *)
Definition le (a b : Number) : bool :=
  match a, b with
  | Num x, Num y => x <=? y
  | _, _ => false
  end.

Definition ge (a b : Number) : bool := le b a.

(** [a === 0]. *)
Definition is_zero (a : Number) : bool :=
  match a with
  | Num x => x =? 0
  | NaN => false
  end.

End Op.

(** ** ECMAScript time values (ECMA-262, "Time Values and Time Range") *)

Module Time.

Definition msPerDay : Z := 86400000.
Definition msPerHour : Z := 3600000.
Definition msPerMinute : Z := 60000.
Definition msPerSecond : Z := 1000.

(** The largest magnitude of a time value: 100 000 000 days. *)
Definition maxTime : Z := 8640000000000000.

Definition Day (t : Z) : Z := t / msPerDay.
Definition TimeWithinDay (t : Z) : Z := t mod msPerDay.

Definition isLeap (y : Z) : bool :=
  if negb (y mod 4 =? 0) then false
  else if negb (y mod 100 =? 0) then true
  else if negb (y mod 400 =? 0) then false
  else true.

Definition DaysInYear (y : Z) : Z := if isLeap y then 366 else 365.

Definition DayFromYear (y : Z) : Z :=
  365 * (y - 1970) + (y - 1969) / 4 - (y - 1901) / 100 + (y - 1601) / 400.

Definition TimeFromYear (y : Z) : Z := msPerDay * DayFromYear y.

(** The largest [y] with [TimeFromYear y <= t] (lemma [YearFromTime_spec]):
    an estimate from the mean length of a year, off by one at most. *)
Definition YearFromTime (t : Z) : Z :=
  let d := Day t in
  let y0 := 1970 + (d * 400) / 146097 in
  if d <? DayFromYear y0 then y0 - 1
  else if DayFromYear (y0 + 1) <=? d then y0 + 1
  else y0.

Definition InLeapYear (t : Z) : Z :=
  if isLeap (YearFromTime t) then 1 else 0.

Definition DayWithinYear (t : Z) : Z := Day t - DayFromYear (YearFromTime t).

(** Number of days of the year before the first of month [m] (0 to 11);
    [leap] is 1 in a leap year and 0 otherwise. *)
Definition DaysBeforeMonth (m leap : Z) : Z :=
  if m =? 0 then 0
  else if m =? 1 then 31
  else if m =? 2 then 59 + leap
  else if m =? 3 then 90 + leap
  else if m =? 4 then 120 + leap
  else if m =? 5 then 151 + leap
  else if m =? 6 then 181 + leap
  else if m =? 7 then 212 + leap
  else if m =? 8 then 243 + leap
  else if m =? 9 then 273 + leap
  else if m =? 10 then 304 + leap
  else 334 + leap.

Definition MonthFromTime (t : Z) : Z :=
  let d := DayWithinYear t in
  let leap := InLeapYear t in
  if d <? 31 then 0
  else if d <? 59 + leap then 1
  else if d <? 90 + leap then 2
  else if d <? 120 + leap then 3
  else if d <? 151 + leap then 4
  else if d <? 181 + leap then 5
  else if d <? 212 + leap then 6
  else if d <? 243 + leap then 7
  else if d <? 273 + leap then 8
  else if d <? 304 + leap then 9
  else if d <? 334 + leap then 10
  else 11.

Definition DateFromTime (t : Z) : Z :=
  DayWithinYear t - DaysBeforeMonth (MonthFromTime t) (InLeapYear t) + 1.

Definition WeekDay (t : Z) : Z := (Day t + 4) mod 7.

Definition MakeTime (hour min sec ms : Z) : Z :=
  hour * msPerHour + min * msPerMinute + sec * msPerSecond + ms.

(** [MakeDay]: the day number of the first of month [month mod 12] of year
    [year + floor(month / 12)], plus [date - 1]
    (lemma [MakeDay_first_of_month]). *)
Definition MakeDay (year month date : Z) : Z :=
  let ym := year + month / 12 in
  let mn := month mod 12 in
  DayFromYear ym + DaysBeforeMonth mn (if isLeap ym then 1 else 0) + date - 1.

Definition MakeDate (day time : Z) : Z := day * msPerDay + time.

Definition TimeClip (time : Z) : Number :=
  if maxTime <? Z.abs time then NaN else Num time.

(** [MakeFullYear]: a year from 0 to 99 names a year of the twentieth
    century. *)
Definition MakeFullYear (y : Z) : Z :=
  if (0 <=? y) && (y <=? 99) then 1900 + y else y.

End Time.

(** ** The [Date] object *)

Module Date.

Import Time.

(** A date is its time value; [NaN] is the invalid date. *)
Definition t : Type := Number.

(** [new Date(date)] on a date: a fresh object with the same time value. *)
Definition copy (date : t) : t := date.

Definition lift (f : Z -> Z) (d : t) : Number :=
  match d with
  | Num tv => Num (f tv)
  | NaN => NaN
  end.

Definition getUTCDay : t -> Number := lift WeekDay.
Definition getUTCDate : t -> Number := lift DateFromTime.
Definition getUTCMonth : t -> Number := lift MonthFromTime.
Definition getUTCFullYear : t -> Number := lift YearFromTime.

(** [Date.UTC(year, month, date, hours, minutes, seconds, ms)]. *)
Definition UTC (year month date hours minutes seconds ms : Number) : Number :=
  match year, month, date, hours, minutes, seconds, ms with
  | Num y, Num m, Num dt, Num h, Num mi, Num s, Num milli =>
      TimeClip (MakeDate (MakeDay (MakeFullYear y) m dt) (MakeTime h mi s milli))
  | _, _, _, _, _, _, _ => NaN
  end.

(** [d.setUTCDate(date)]: the time value of [d] afterwards. *)
Definition setUTCDate (d : t) (date : Number) : t :=
  match d, date with
  | Num tv, Num dt =>
      TimeClip (MakeDate (MakeDay (YearFromTime tv) (MonthFromTime tv) dt)
                         (TimeWithinDay tv))
  | _, _ => NaN
  end.

(** [d.setUTCHours(hour, min, sec, ms)]: the time value of [d] afterwards. *)
Definition setUTCHours (d : t) (hour min sec ms : Z) : t :=
  match d with
  | Num tv => TimeClip (MakeDate (Day tv) (MakeTime hour min sec ms))
  | NaN => NaN
  end.

(** The instant at midnight UTC of a calendar day, month counted from 0;
    used to write down the dates of examples. *)
Definition ymd (y m d : Z) : t := Num (MakeDate (MakeDay y m d) 0).

(** The instant at a given time of a calendar day. *)
Definition ymd_hms (y m d h mi s milli : Z) : t :=
  Num (MakeDate (MakeDay y m d) (MakeTime h mi s milli)).

End Date.

(** ** Effects: the wall clock and exceptions *)

(** What a computation can observe of its host. *)
Record World : Type := mkWorld {
  wallClock : Z;      (* milliseconds since the epoch, read by [new Date()] *)
  timeZoneOffset : Z  (* minutes; read by the local-time methods of a date *)
}.

Inductive Error : Type :=
| TypeError : Error.

Inductive Completion (A : Type) : Type :=
| Normal (v : A) : Completion A
| Throw (e : Error) : Completion A.
Arguments Normal {A} v.
Arguments Throw {A} e.

Definition JS (A : Type) : Type := World -> Completion A.

Definition ret {A} (a : A) : JS A := fun _ => Normal a.

Definition bind {A B} (m : JS A) (k : A -> JS B) : JS B :=
  fun w => match m w with
           | Normal a => k a w
           | Throw e => Throw e
           end.

Definition liftC {A} (c : Completion A) : JS A := fun _ => c.

Notation "x <- m ;; k" := (bind m (fun x => k))
  (at level 61, m at next level, right associativity).

(** [new Date()]: the current instant. *)
Definition newDate : JS Date.t := fun w => Normal (Num (wallClock w)).

(** ** Values passed as [people] *)

Inductive Value : Type :=
| Undefined : Value
| Array (items : list string) : Value.

(** [people.length]; reading a property of [undefined] throws. *)
Definition length_of (people : Value) : Completion Number :=
  match people with
  | Array items => Normal (Num (Z.of_nat (List.length items)))
  | Undefined => Throw TypeError
  end.

(** [items[index]] on the elements of an array: [None] is [undefined], the
    value of an absent property (a negative, too large or [NaN] index). *)
Definition element (items : list string) (index : Number) : option string :=
  match index with
  | Num z => if z <? 0 then None else nth_error items (Z.to_nat z)
  | NaN => None
  end.

(** [people[index]]; reading a property of [undefined] throws. *)
Definition get_index (people : Value) (index : Number) : Completion (option string) :=
  match people with
  | Array items => Normal (element items index)
  | Undefined => Throw TypeError
  end.

(** ** The helpers of [server.js] *)

(** Helper function to get Monday of a given date (in UTC). *)
Definition getMondayOfWeek (date : Date.t) : Date.t :=
  let d := Date.copy date in
  let day := Date.getUTCDay d in
  let diff := Op.add (Op.sub (Date.getUTCDate d) day)
                     (if Op.is_zero day then Num (-6) else Num 1) in
  let monday := Date.UTC (Date.getUTCFullYear d) (Date.getUTCMonth d) diff
                         (Num 0) (Num 0) (Num 0) (Num 0) in
  monday.

(** Helper function to add days to a date (in UTC). *)
Definition addDays (date : Date.t) (days : Number) : Date.t :=
  let result := Date.copy date in
  Date.setUTCDate result (Op.add (Date.getUTCDate result) days).

Record CurrentRotation : Type := mkCurrentRotation {
  currentPerson : option string;
  currentPersonIndex : Number;
  rotationNumber : Number;
  periodStart : Date.t;
  periodEnd : Date.t;
  weeksSinceStart : Number;
  daysSinceStart : Number;
  isActive : bool
}.

(** Helper function to calculate current rotation. *)
Definition getCurrentRotation (startDate : Date.t) (people : Value)
  : JS CurrentRotation :=
  now <- newDate ;;
  let start := Date.copy startDate in
  let startMonday := getMondayOfWeek start in
  let daysSinceStart := Op.floor_div (Op.sub now startMonday) (1000 * 60 * 60 * 24) in
  let rotationNumber := Op.floor_div daysSinceStart 14 in
  len <- liftC (length_of people) ;;
  let personIndex := Op.rem rotationNumber len in
  let rotationStart := addDays startMonday (Op.mul rotationNumber (Num 14)) in
  let rotationEnd := addDays rotationStart (Num 13) in
  let rotationEnd := Date.setUTCHours rotationEnd 23 59 59 999 in
  who <- liftC (get_index people personIndex) ;;
  ret {| currentPerson := who;
         currentPersonIndex := personIndex;
         rotationNumber := Op.add rotationNumber (Num 1);
         periodStart := rotationStart;
         periodEnd := rotationEnd;
         weeksSinceStart := Op.floor_div daysSinceStart 7;
         daysSinceStart := daysSinceStart;
         isActive := Op.ge now rotationStart && Op.le now rotationEnd |}.

Module Upcoming.

Record t : Type := mk {
  person : option string;
  rotationNumber : Number;
  periodStart : Date.t;
  periodEnd : Date.t;
  isCurrent : bool
}.

End Upcoming.

(** The body of the loop of [getUpcomingRotations] at counter [i]. *)
Definition upcomingEntry (startMonday : Date.t) (currentRotationNumber : Number)
  (people : Value) (i : Z) : Completion Upcoming.t :=
  let rotationNumber := Op.add currentRotationNumber (Num i) in
  match length_of people with
  | Throw e => Throw e
  | Normal len =>
      let personIndex := Op.rem rotationNumber len in
      let rotationStart := addDays startMonday (Op.mul rotationNumber (Num 14)) in
      let rotationEnd := addDays rotationStart (Num 13) in
      let rotationEnd := Date.setUTCHours rotationEnd 23 59 59 999 in
      match get_index people personIndex with
      | Throw e => Throw e
      | Normal who =>
          Normal {| Upcoming.person := who;
                    Upcoming.rotationNumber := Op.add rotationNumber (Num 1);
                    Upcoming.periodStart := rotationStart;
                    Upcoming.periodEnd := rotationEnd;
                    Upcoming.isCurrent := false |}
      end
  end.

(** [for (let i = ...; i <= count; i++) rotations.push(...)], from the
    current value of [i]. *)
Equations? upcomingLoop (startMonday : Date.t) (currentRotationNumber : Number)
  (people : Value) (count i : Z) (rotations : list Upcoming.t)
  : Completion (list Upcoming.t) by wf (Z.to_nat (count + 1 - i)) lt :=
  upcomingLoop startMonday currentRotationNumber people count i rotations
    with Z_le_dec i count := {
    | right _ := Normal rotations;
    | left _ with upcomingEntry startMonday currentRotationNumber people i := {
      | Throw e := Throw e;
      | Normal entry :=
          upcomingLoop startMonday currentRotationNumber people count (i + 1)
                       (rotations ++ [entry]) } }.
Proof. lia. Qed.

(** Helper function to get upcoming rotations; [count] is [None] when the
    caller leaves the argument out. *)
Definition getUpcomingRotations (startDate : Date.t) (people : Value)
  (count : option Z) : JS (list Upcoming.t) :=
  let count := match count with Some c => c | None => 5 end in
  let start := Date.copy startDate in
  now <- newDate ;;
  let startMonday := getMondayOfWeek start in
  let daysSinceStart := Op.floor_div (Op.sub now startMonday) (1000 * 60 * 60 * 24) in
  let currentRotationNumber := Op.floor_div daysSinceStart 14 in
  liftC (upcomingLoop startMonday currentRotationNumber people count 1 []).

(** ** The HTTP layer of [server.js]

    A handler is modelled with what it receives from outside: the parsed
    request, the answers the database gives to its calls (each handler
    makes each call at most once), and the host at each reading of the
    clock.  It returns the database calls it made, in order, and the
    response it sent. *)

(** A value of the parsed JSON body.  A number is an integer here; the
    handlers only test numbers for truth. *)
#[warnings="-register-all"] Inductive Json : Type :=
| JNull : Json
| JBool (b : bool) : Json
| JNumber (n : Z) : Json
| JString (s : string) : Json
| JArray (items : list Json) : Json
| JObject (fields : list (string * Json)) : Json.

(** The truth value of a property of the body; [None] is a property that is
    absent, so [undefined]. *)
Definition truthy (v : option Json) : bool :=
  match v with
  | None => false
  | Some JNull => false
  | Some (JBool b) => b
  | Some (JNumber n) => negb (n =? 0)
  | Some (JString s) => negb (String.eqb s EmptyString)
  | Some (JArray _) => true
  | Some (JObject _) => true
  end.

(** [Array.isArray(v)]. *)
Definition isArray (v : option Json) : bool :=
  match v with
  | Some (JArray _) => true
  | _ => false
  end.

(** The elements of an array. *)
Definition elements (v : option Json) : list Json :=
  match v with
  | Some (JArray items) => items
  | _ => []
  end.

(** What the handlers read of a request.  [express.json()] leaves an object
    in [req.body]; a property it does not have is [undefined]. *)
Record Request : Type := mkRequest {
  header_X_API_Key : option string;   (* [req.header("X-API-Key")] *)
  body_people : option Json;          (* [req.body.people] *)
  body_startDate : option Json        (* [req.body.startDate] *)
}.

(** [process.env]. *)
Record Env : Type := mkEnv {
  API_KEY : option string
}.

Module Schedule.

Record t : Type := mk {
  people : list string;
  startDate : Date.t;
  createdAt : Date.t;
  updatedAt : Date.t
}.

End Schedule.

(** The outcome of an awaited database call. *)
Inductive DbResult (A : Type) : Type :=
| Resolved (a : A) : DbResult A
| Rejected (message : string) : DbResult A.
Arguments Resolved {A} a.
Arguments Rejected {A} message.

(** How the database answers during one request. *)
Record Db : Type := mkDb {
  findOne : DbResult (option Schedule.t);  (* [Schedule.findOne().sort({ createdAt: -1 })] *)
  deleteMany : DbResult Z;                 (* [Schedule.deleteMany({})]: [deletedCount] *)
  save : Schedule.t -> DbResult unit       (* [schedule.save()] *)
}.

Inductive DbCall : Type :=
| FindOne : DbCall
| DeleteMany : DbCall
| Save (doc : Schedule.t) : DbCall.

(** What a [catch] block receives. *)
Inductive Exception : Type :=
| JsError (e : Error) : Exception
| DbError (message : string) : Exception.

Inductive ResponseBody : Type :=
| ErrorBody (error : string) : ResponseBody             (* [{ error: "..." }] *)
| ExceptionBody (error : Exception) : ResponseBody      (* [{ error: error.message }] *)
| MessageBody (message : string) : ResponseBody         (* [{ message }] *)
| CurrentBody (currentPerson : option string) (rotationNumber : Number)
              (periodStart periodEnd : Date.t) (isActive : bool) : ResponseBody
| ScheduleBody (schedule : Schedule.t) (currentRotation : CurrentRotation)
               (upcomingRotations : list Upcoming.t) : ResponseBody
| SavedBody (message : string) (schedule : Schedule.t)
            (currentRotation : CurrentRotation) : ResponseBody.

Record Response : Type := mkResponse {
  status : Z;
  body : ResponseBody
}.

Inductive Middleware : Type :=
| Responded (r : Response) : Middleware
| Next : Middleware.

(** API Key middleware for protected routes. *)
Definition requireApiKey (req : Request) (env : Env) : Middleware :=
  let apiKey := header_X_API_Key req in
  match apiKey with
  | None => Responded (mkResponse 401 (ErrorBody "API key required"))
  | Some key =>
      if String.eqb key EmptyString
      then Responded (mkResponse 401 (ErrorBody "API key required"))
      else match API_KEY env with
           | Some expected =>
               if String.eqb key expected then Next
               else Responded (mkResponse 403 (ErrorBody "Invalid API key"))
           | None => Responded (mkResponse 403 (ErrorBody "Invalid API key"))
           end
  end.

Section Handlers.

(** [new Date(value)] on a value of the body, and [String.prototype.trim]:
    both belong to the JavaScript engine. *)
Variable newDateOf : Json -> Date.t.
Variable trim : string -> string.

(** [value.trim()]: only a string has the method. *)
Definition callTrim (value : Json) : Completion string :=
  match value with
  | JString s => Normal (trim s)
  | _ => Throw TypeError
  end.

(** [people.map((person) => person.trim())]. *)
Fixpoint mapTrim (people : list Json) : Completion (list string) :=
  match people with
  | [] => Normal []
  | person :: rest =>
      match callTrim person with
      | Throw e => Throw e
      | Normal s =>
          match mapTrim rest with
          | Throw e => Throw e
          | Normal ss => Normal (s :: ss)
          end
      end
  end.

(** [new Date(startDate)] on a truthy property. *)
Definition parseStartDate (startDate : option Json) : Date.t :=
  match startDate with
  | Some v => newDateOf v
  | None => NaN
  end.

(** [isNaN(date.getTime())]. *)
Definition isInvalidDate (date : Date.t) : bool :=
  match date with
  | NaN => true
  | Num _ => false
  end.

(** GET /api/current. *)
Definition getCurrent (db : Db) (w : World) : list DbCall * Response :=
  match findOne db with
  | Rejected msg => ([FindOne], mkResponse 500 (ExceptionBody (DbError msg)))
  | Resolved None => ([FindOne], mkResponse 404 (ErrorBody "No schedule found"))
  | Resolved (Some schedule) =>
      match getCurrentRotation (Schedule.startDate schedule)
                               (Array (Schedule.people schedule)) w with
      | Throw e => ([FindOne], mkResponse 500 (ExceptionBody (JsError e)))
      | Normal currentRotation =>
          ([FindOne],
           mkResponse 200 (CurrentBody (currentPerson currentRotation)
                                       (rotationNumber currentRotation)
                                       (periodStart currentRotation)
                                       (periodEnd currentRotation)
                                       (isActive currentRotation)))
      end
  end.

(** GET /api/schedule; the two helpers read the clock one after the
    other. *)
Definition getSchedule (db : Db) (wCurrent wUpcoming : World)
  : list DbCall * Response :=
  match findOne db with
  | Rejected msg => ([FindOne], mkResponse 500 (ExceptionBody (DbError msg)))
  | Resolved None => ([FindOne], mkResponse 404 (ErrorBody "No schedule found"))
  | Resolved (Some schedule) =>
      match getCurrentRotation (Schedule.startDate schedule)
                               (Array (Schedule.people schedule)) wCurrent with
      | Throw e => ([FindOne], mkResponse 500 (ExceptionBody (JsError e)))
      | Normal currentRotation =>
          match getUpcomingRotations (Schedule.startDate schedule)
                                     (Array (Schedule.people schedule)) None
                                     wUpcoming with
          | Throw e => ([FindOne], mkResponse 500 (ExceptionBody (JsError e)))
          | Normal upcomingRotations =>
              ([FindOne],
               mkResponse 200 (ScheduleBody schedule currentRotation upcomingRotations))
          end
      end
  end.

(** POST /api/schedule, after the middleware.  The clock is read for
    [updatedAt], then for the default of [createdAt], then by
    [getCurrentRotation]. *)
Definition postSchedule (req : Request) (db : Db)
  (wUpdated wCreated wRotation : World) : list DbCall * Response :=
  let people := body_people req in
  let startDate := body_startDate req in
  if negb (truthy people) || negb (isArray people)
     || (Z.of_nat (List.length (elements people)) =? 0)
  then ([], mkResponse 400 (ErrorBody "People array is required and cannot be empty"))
  else if negb (truthy startDate)
  then ([], mkResponse 400 (ErrorBody "Start date is required"))
  else
    let parsedStartDate := parseStartDate startDate in
    if isInvalidDate parsedStartDate
    then ([], mkResponse 400 (ErrorBody "Invalid start date format"))
    else
      match deleteMany db with
      | Rejected msg => ([DeleteMany], mkResponse 500 (ExceptionBody (DbError msg)))
      | Resolved _ =>
          match mapTrim (elements people) with
          | Throw e => ([DeleteMany], mkResponse 500 (ExceptionBody (JsError e)))
          | Normal trimmed =>
              let schedule :=
                {| Schedule.people := trimmed;
                   Schedule.startDate := parsedStartDate;
                   Schedule.createdAt := Num (wallClock wCreated);
                   Schedule.updatedAt := Num (wallClock wUpdated) |} in
              match save db schedule with
              | Rejected msg =>
                  ([DeleteMany; Save schedule],
                   mkResponse 500 (ExceptionBody (DbError msg)))
              | Resolved _ =>
                  match getCurrentRotation (Schedule.startDate schedule)
                                           (Array (Schedule.people schedule))
                                           wRotation with
                  | Throw e =>
                      ([DeleteMany; Save schedule],
                       mkResponse 500 (ExceptionBody (JsError e)))
                  | Normal currentRotation =>
                      ([DeleteMany; Save schedule],
                       mkResponse 201 (SavedBody "Schedule created successfully"
                                                 schedule currentRotation))
                  end
              end
          end
      end.

(** PUT /api/schedule, after the middleware.  The clock is read for
    [updatedAt], then by [getCurrentRotation]. *)
Definition putSchedule (req : Request) (db : Db) (wUpdated wRotation : World)
  : list DbCall * Response :=
  let people := body_people req in
  let startDate := body_startDate req in
  match findOne db with
  | Rejected msg => ([FindOne], mkResponse 500 (ExceptionBody (DbError msg)))
  | Resolved None =>
      ([FindOne], mkResponse 404 (ErrorBody "No schedule found to update"))
  | Resolved (Some schedule) =>
      match (if truthy people && isArray people
                && (0 <? Z.of_nat (List.length (elements people)))
             then mapTrim (elements people)
             else Normal (Schedule.people schedule)) with
      | Throw e => ([FindOne], mkResponse 500 (ExceptionBody (JsError e)))
      | Normal newPeople =>
          if truthy startDate && isInvalidDate (parseStartDate startDate)
          then ([FindOne], mkResponse 400 (ErrorBody "Invalid start date format"))
          else
            let schedule :=
              {| Schedule.people := newPeople;
                 Schedule.startDate :=
                   if truthy startDate then parseStartDate startDate
                   else Schedule.startDate schedule;
                 Schedule.createdAt := Schedule.createdAt schedule;
                 Schedule.updatedAt := Num (wallClock wUpdated) |} in
            match save db schedule with
            | Rejected msg =>
                ([FindOne; Save schedule], mkResponse 500 (ExceptionBody (DbError msg)))
            | Resolved _ =>
                match getCurrentRotation (Schedule.startDate schedule)
                                         (Array (Schedule.people schedule))
                                         wRotation with
                | Throw e =>
                    ([FindOne; Save schedule],
                     mkResponse 500 (ExceptionBody (JsError e)))
                | Normal currentRotation =>
                    ([FindOne; Save schedule],
                     mkResponse 200 (SavedBody "Schedule updated successfully"
                                               schedule currentRotation))
                end
            end
      end
  end.

(** DELETE /api/schedule, after the middleware. *)
Definition deleteSchedule (db : Db) : list DbCall * Response :=
  match deleteMany db with
  | Rejected msg => ([DeleteMany], mkResponse 500 (ExceptionBody (DbError msg)))
  | Resolved deletedCount =>
      if deletedCount =? 0
      then ([DeleteMany], mkResponse 404 (ErrorBody "No schedule found to delete"))
      else ([DeleteMany], mkResponse 200 (MessageBody "Schedule deleted successfully"))
  end.

(** A route behind [requireApiKey]: the handler runs only when the
    middleware calls [next()]. *)
Definition protected (req : Request) (env : Env)
  (handler : list DbCall * Response) : list DbCall * Response :=
  match requireApiKey req env with
  | Responded r => ([], r)
  | Next => handler
  end.

(** The three routes that are registered with [requireApiKey] before their
    handler: POST, PUT and DELETE /api/schedule. *)
Definition postScheduleRoute (req : Request) (env : Env) (db : Db)
  (wUpdated wCreated wRotation : World) : list DbCall * Response :=
  protected req env (postSchedule req db wUpdated wCreated wRotation).

Definition putScheduleRoute (req : Request) (env : Env) (db : Db)
  (wUpdated wRotation : World) : list DbCall * Response :=
  protected req env (putSchedule req db wUpdated wRotation).

Definition deleteScheduleRoute (req : Request) (env : Env) (db : Db)
  : list DbCall * Response :=
  protected req env (deleteSchedule db).

End Handlers.

(** ** Vocabulary of the statements *)

(** Instants at least one rotation period away from both ends of the range
    of time values, so that the bounds of the period around them are
    dates. *)
Definition inRange (t : Z) : Prop :=
  Z.abs t <= Time.maxTime - 14 * Time.msPerDay.

(** Instants whose distance from the anchor Monday [m] is an integer that a
    double holds, so that [now - startMonday] is not rounded. *)
Definition exactDifference (m now : Z) : Prop := Z.abs (now - m) <= 2 ^ 53.

(** A computation that ends by throwing. *)
Definition signals_error {A} (c : Completion A) : Prop :=
  exists e, c = Throw e.

(** The host at instant [now], in the UTC time zone. *)
Definition hostAt (now : Z) : World :=
  {| wallClock := now; timeZoneOffset := 0 |}.

(** The sample schedule: anchored on Sunday 2024-01-07, whose Monday is
    2024-01-01, and observed at noon of 2024-01-20 or of 2024-03-05. *)
Definition sampleStart : Date.t := Num (Time.MakeDate (Time.MakeDay 2024 0 7) 0).
Definition sampleMonday : Z := Time.MakeDate (Time.MakeDay 2024 0 1) 0.
Definition sampleWorld : World :=
  {| wallClock := Time.MakeDate (Time.MakeDay 2024 0 20) (Time.MakeTime 12 0 0 0);
     timeZoneOffset := 0 |}.
Definition sampleWorldLater : World :=
  {| wallClock := Time.MakeDate (Time.MakeDay 2024 2 5) (Time.MakeTime 12 0 0 0);
     timeZoneOffset := 60 |}.

(** The participants of the examples. *)
Definition abc : list string := ["A"; "B"; "C"]%string.

(** Milliseconds since the epoch at midnight UTC of a calendar day, month
    counted from 0. *)
Definition utcMidnight (y m d : Z) : Z := Time.MakeDate (Time.MakeDay y m d) 0.

(** Milliseconds since the epoch at a time of a calendar day (UTC). *)
Definition utcInstant (y m d h mi s milli : Z) : Z :=
  Time.MakeDate (Time.MakeDay y m d) (Time.MakeTime h mi s milli).

(** The current rotation of the sample schedule at [sampleWorld]: the second
    period, from 2024-01-15 to the end of 2024-01-28. *)
Definition sampleRotation : CurrentRotation :=
  {| currentPerson := Some "B"%string;
     currentPersonIndex := Num 1;
     rotationNumber := Num 2;
     periodStart := Num (utcMidnight 2024 0 15);
     periodEnd := Num (utcInstant 2024 0 28 23 59 59 999);
     weeksSinceStart := Num 2;
     daysSinceStart := Num 19;
     isActive := true |}.

(** Sample data of the HTTP layer: a stored schedule, a database that holds
    it and accepts every call, and stand-ins for the two functions of the
    engine (only numbers become dates, nothing is trimmed). *)
Definition sampleSchedule : Schedule.t :=
  {| Schedule.people := abc;
     Schedule.startDate := sampleStart;
     Schedule.createdAt := Num sampleMonday;
     Schedule.updatedAt := Num sampleMonday |}.

Definition sampleDb : Db :=
  {| findOne := Resolved (Some sampleSchedule);
     deleteMany := Resolved 1;
     save := fun _ => Resolved tt |}.

Definition dateOfNumber (v : Json) : Date.t :=
  match v with
  | JNumber n => Time.TimeClip n
  | _ => NaN
  end.

Definition noTrim (s : string) : string := s.

(** Sample requests: one that creates a schedule for A and B anchored on
    2024-01-07, one whose second participant is a number, and one that
    updates nothing. *)
Definition sampleCreate : Request :=
  {| header_X_API_Key := Some "secret"%string;
     body_people := Some (JArray [JString "A"; JString "B"]);
     body_startDate := Some (JNumber 1704585600000) |}.

Definition sampleCreateNumber : Request :=
  {| header_X_API_Key := Some "secret"%string;
     body_people := Some (JArray [JString "A"; JNumber 7]);
     body_startDate := Some (JNumber 1704585600000) |}.

Definition sampleUpdateNothing : Request :=
  {| header_X_API_Key := Some "secret"%string;
     body_people := Some (JArray []);
     body_startDate := None |}.

(** The document the update above saves. *)
Definition sampleUpdated : Schedule.t :=
  {| Schedule.people := abc;
     Schedule.startDate := sampleStart;
     Schedule.createdAt := Num sampleMonday;
     Schedule.updatedAt := Num (wallClock sampleWorld) |}.

(** A request with a key that is not the configured one, and the
    configuration it is sent to. *)
Definition sampleGuess : Request :=
  {| header_X_API_Key := Some "guess"%string;
     body_people := Some (JArray [JString "A"]);
     body_startDate := Some (JNumber 1704585600000) |}.

Definition sampleEnv : Env := {| API_KEY := Some "secret"%string |}.

(** The document that [sampleCreate], sent as an update, saves. *)
Definition sampleReplaced : Schedule.t :=
  {| Schedule.people := ["A"; "B"]%string;
     Schedule.startDate := Num 1704585600000;
     Schedule.createdAt := Num sampleMonday;
     Schedule.updatedAt := Num (wallClock sampleWorld) |}.

(** * Properties *)

(** ** Rounding to a double *)

Section RoundFacts.

(** Rounding to a multiple of [q] is one of the two multiples around [x]. *)
Lemma roundToMultiple_cases (x q : Z) :
  0 < q ->
  (roundToMultiple x q = (x / q) * q /\ 2 * (x mod q) <= q)
  \/ (roundToMultiple x q = (x / q + 1) * q /\ q <= 2 * (x mod q)).
Proof.
  intros Hq. unfold roundToMultiple. cbv zeta.
  destruct (Z.ltb_spec (2 * (x mod q)) q); [left; split; [reflexivity | lia] | ].
  destruct (Z.ltb_spec q (2 * (x mod q))); [right; split; [reflexivity | lia] | ].
  destruct (Z.even (x / q)); [left | right]; split; (reflexivity || lia).
Qed.

Lemma roundToMultiple_fixed (k q : Z) : 0 < q -> roundToMultiple (k * q) q = k * q.
Proof.
  intros Hq. unfold roundToMultiple. cbv zeta.
  rewrite Z.mod_mul, Z.div_mul by lia.
  destruct (Z.ltb_spec (2 * 0) q); [reflexivity | lia].
Qed.

Lemma roundToMultiple_mono (x y q : Z) :
  0 < q -> x <= y -> roundToMultiple x q <= roundToMultiple y q.
Proof.
  intros Hq Hxy.
  pose proof (Z.div_mod x q ltac:(lia)) as Ex.
  pose proof (Z.div_mod y q ltac:(lia)) as Ey.
  pose proof (Z.mod_pos_bound x q Hq) as Bx.
  pose proof (Z.mod_pos_bound y q Hq) as By.
  pose proof (Z.div_le_mono x y q Hq Hxy) as Hk.
  destruct (Z.eq_dec (x / q) (y / q)) as [Heq | Hne].
  - assert (Hr : x mod q <= y mod q) by (rewrite Heq in Ex; nia).
    unfold roundToMultiple. cbv zeta. rewrite Heq.
    destruct (Z.ltb_spec (2 * (x mod q)) q);
      destruct (Z.ltb_spec (2 * (y mod q)) q);
      destruct (Z.ltb_spec q (2 * (x mod q)));
      destruct (Z.ltb_spec q (2 * (y mod q)));
      destruct (Z.even (y / q)); nia.
  - assert (Hlt : x / q + 1 <= y / q) by lia.
    assert (Hmul : (x / q + 1) * q <= (y / q) * q) by nia.
    destruct (roundToMultiple_cases x q Hq) as [[-> _] | [-> _]];
      destruct (roundToMultiple_cases y q Hq) as [[-> _] | [-> _]]; nia.
Qed.

Lemma roundToMultiple_near (x q : Z) :
  0 < q -> 2 * Z.abs (roundToMultiple x q - x) <= q.
Proof.
  intros Hq.
  pose proof (Z.div_mod x q ltac:(lia)) as Ex.
  pose proof (Z.mod_pos_bound x q Hq) as Bx.
  destruct (roundToMultiple_cases x q Hq) as [[-> H] | [-> H]]; nia.
Qed.

Lemma roundToMultiple_divide (x q : Z) : 0 < q -> (q | roundToMultiple x q).
Proof.
  intros Hq.
  destruct (roundToMultiple_cases x q Hq) as [[-> _] | [-> _]];
    apply Z.divide_factor_r.
Qed.

(** A positive integer rounds into its own binade, ends included. *)
Lemma roundPositive_binade (x : Z) :
  0 < x -> 2 ^ Z.log2 x <= roundPositive x <= 2 ^ (Z.log2 x + 1).
Proof.
  intros Hx. pose proof (Z.log2_spec x Hx) as [Hlo Hhi].
  rewrite <- Z.add_1_r in Hhi.
  unfold roundPositive. cbv zeta.
  destruct (Z.leb_spec (Z.log2 x - 52) 0) as [He | He]; [lia | ].
  set (p := Z.log2 x) in *. set (q := 2 ^ (p - 52)).
  assert (Hq : 0 < q) by (apply Z.pow_pos_nonneg; lia).
  assert (Hp : 2 ^ p = 2 ^ 52 * q).
  { unfold q. rewrite <- Z.pow_add_r by lia. f_equal. lia. }
  assert (Hp1 : 2 ^ (p + 1) = 2 ^ 53 * q).
  { unfold q. rewrite <- Z.pow_add_r by lia. f_equal. lia. }
  split.
  - rewrite Hp, <- (roundToMultiple_fixed (2 ^ 52) q Hq).
    apply roundToMultiple_mono; lia.
  - rewrite Hp1, <- (roundToMultiple_fixed (2 ^ 53) q Hq).
    apply roundToMultiple_mono; lia.
Qed.

Lemma roundPositive_mono (x y : Z) :
  0 < x -> x <= y -> roundPositive x <= roundPositive y.
Proof.
  intros Hx Hxy.
  pose proof (Z.log2_le_mono x y Hxy) as Hlog.
  destruct (Z.eq_dec (Z.log2 x) (Z.log2 y)) as [Heq | Hne].
  - unfold roundPositive. cbv zeta. rewrite Heq.
    destruct (Z.leb_spec (Z.log2 y - 52) 0); [exact Hxy | ].
    apply roundToMultiple_mono; [apply Z.pow_pos_nonneg; lia | exact Hxy].
  - pose proof (roundPositive_binade x Hx) as [_ Hhi].
    pose proof (roundPositive_binade y ltac:(lia)) as [Hlo _].
    assert (Hpow : 2 ^ (Z.log2 x + 1) <= 2 ^ Z.log2 y).
    { apply Z.pow_le_mono_r; [lia | ]. lia. }
    lia.
Qed.

Lemma roundPositive_pos (x : Z) : 0 < x -> 0 < roundPositive x.
Proof.
  intros Hx. pose proof (roundPositive_binade x Hx) as [Hlo _].
  pose proof (Z.pow_pos_nonneg 2 (Z.log2 x) ltac:(lia) (Z.log2_nonneg x)). lia.
Qed.

(** Rounding to a double keeps the sign. *)
Lemma roundDouble_sign (x : Z) :
  (0 < x -> 0 < roundDouble x) /\ (x < 0 -> roundDouble x < 0)
  /\ (x = 0 -> roundDouble x = 0).
Proof.
  unfold roundDouble. repeat split; intros H.
  - rewrite Z.sgn_pos, Z.abs_eq by lia. pose proof (roundPositive_pos x H). lia.
  - rewrite Z.sgn_neg, Z.abs_neq by lia.
    pose proof (roundPositive_pos (- x) ltac:(lia)). lia.
  - subst x. reflexivity.
Qed.

(** Rounding to a double is monotone. *)
Lemma roundDouble_mono (x y : Z) : x <= y -> roundDouble x <= roundDouble y.
Proof.
  intros Hxy.
  destruct (roundDouble_sign x) as (Hxp & Hxn & Hx0).
  destruct (roundDouble_sign y) as (Hyp & Hyn & Hy0).
  destruct (Z_lt_le_dec y 0) as [Hy | Hy].
  - unfold roundDouble. rewrite !Z.sgn_neg, !Z.abs_neq by lia.
    pose proof (roundPositive_mono (- y) (- x) ltac:(lia) ltac:(lia)). lia.
  - destruct (Z_lt_le_dec 0 x) as [Hx | Hx].
    + unfold roundDouble. rewrite !Z.sgn_pos, !Z.abs_eq by lia.
      pose proof (roundPositive_mono x y ltac:(lia) ltac:(lia)). lia.
    + assert (Hlo : roundDouble x <= 0).
      { destruct (Z.eq_dec x 0) as [E | E]; [rewrite (Hx0 E); lia | ].
        pose proof (Hxn ltac:(lia)). lia. }
      assert (Hhi : 0 <= roundDouble y).
      { destruct (Z.eq_dec y 0) as [E | E]; [rewrite (Hy0 E); lia | ].
        pose proof (Hyp ltac:(lia)). lia. }
      lia.
Qed.

(** An integer of magnitude at most 2^53 is a double. *)
Lemma roundDouble_exact (x : Z) : Z.abs x <= 2 ^ 53 -> roundDouble x = x.
Proof.
  intros Hx.
  assert (Hpos : forall a, 0 < a -> a <= 2 ^ 53 -> roundPositive a = a).
  { intros a Ha Hle. unfold roundPositive. cbv zeta.
    destruct (Z.leb_spec (Z.log2 a - 52) 0) as [He | He]; [reflexivity | ].
    assert (Hlog : Z.log2 a = 53).
    { pose proof (Z.log2_le_mono a (2 ^ 53) Hle) as H.
      rewrite Z.log2_pow2 in H by lia. lia. }
    pose proof (Z.log2_spec a Ha) as [Hlo _]. rewrite Hlog in Hlo.
    assert (a = 2 ^ 53) by lia. subst a. rewrite Hlog.
    change (2 ^ (53 - 52)) with 2. reflexivity. }
  unfold roundDouble.
  destruct (Z.lt_trichotomy x 0) as [Hn | [-> | Hp]]; [ | reflexivity | ].
  - rewrite Z.sgn_neg, Z.abs_neq by lia. rewrite Hpos by lia. lia.
  - rewrite Z.sgn_pos, Z.abs_eq by lia. rewrite Hpos by lia. lia.
Qed.

(** Below 2^54 the doubles are the even integers at least: rounding moves an
    integer by one at most, and only to an even one. *)
Lemma roundDouble_near (x : Z) :
  Z.abs x < 2 ^ 54 ->
  Z.abs (roundDouble x - x) <= 1
  /\ (roundDouble x <> x -> Z.even (roundDouble x) = true)
  /\ (Z.even x = true -> roundDouble x = x).
Proof.
  intros Hx.
  assert (Hpos : forall a, 0 < a -> a < 2 ^ 54 ->
            Z.abs (roundPositive a - a) <= 1
            /\ (roundPositive a <> a -> Z.even (roundPositive a) = true)
            /\ (Z.even a = true -> roundPositive a = a)).
  { intros a Ha Hlt. unfold roundPositive. cbv zeta.
    destruct (Z.leb_spec (Z.log2 a - 52) 0) as [He | He];
      [split; [lia | split; [congruence | reflexivity]] | ].
    assert (Hlog : Z.log2 a = 53).
    { pose proof (proj1 (Z.log2_lt_pow2 a 54 Ha) Hlt). lia. }
    rewrite Hlog. change (2 ^ (53 - 52)) with 2.
    pose proof (roundToMultiple_near a 2 ltac:(lia)) as Hnear.
    destruct (roundToMultiple_divide a 2 ltac:(lia)) as [c Hc].
    split; [lia | split].
    - intros _. rewrite Hc, Z.even_mul. apply orb_true_r.
    - intros Hev. apply Z.even_spec in Hev as [b Hb]. subst a.
      rewrite Z.mul_comm. apply roundToMultiple_fixed. lia. }
  unfold roundDouble.
  destruct (Z.lt_trichotomy x 0) as [Hn | [-> | Hp]].
  - rewrite Z.abs_neq in Hx by lia.
    rewrite Z.sgn_neg, (Z.abs_neq x) by lia.
    destruct (Hpos (- x) ltac:(lia) Hx) as (H1 & H2 & H3).
    split; [lia | split].
    + intros Hne. replace (-1 * roundPositive (- x)) with (- roundPositive (- x)) by lia.
      rewrite Z.even_opp. apply H2. lia.
    + intros Hev. rewrite H3 by (rewrite Z.even_opp; exact Hev). lia.
  - cbn. split; [lia | split; [congruence | reflexivity]].
  - rewrite Z.abs_eq in Hx by lia.
    rewrite Z.sgn_pos, (Z.abs_eq x) by lia.
    destruct (Hpos x ltac:(lia) Hx) as (H1 & H2 & H3).
    split; [lia | split].
    + intros Hne. replace (1 * roundPositive x) with (roundPositive x) by lia.
      apply H2. lia.
    + intros Hev. rewrite H3 by exact Hev. lia.
Qed.

End RoundFacts.

(** ** Calendar arithmetic *)

Module TimeFacts.

Import Time.

Lemma YearFromTime_spec (t : Z) :
  DayFromYear (YearFromTime t) <= Day t < DayFromYear (YearFromTime t + 1).
Proof.
  unfold YearFromTime; cbv zeta.
  generalize (Day t); intros d.
  destruct (Z.ltb_spec d (DayFromYear (1970 + d * 400 / 146097))) as [Hlt | Hge].
  - unfold DayFromYear in *. Z.div_mod_to_equations. lia.
  - destruct (Z.leb_spec (DayFromYear (1970 + d * 400 / 146097 + 1)) d) as [Hle | Hgt].
    + unfold DayFromYear in *. Z.div_mod_to_equations. lia.
    + lia.
Qed.

Lemma DayFromYear_succ (y : Z) : DayFromYear (y + 1) = DayFromYear y + DaysInYear y.
Proof.
  unfold DayFromYear, DaysInYear, isLeap.
  destruct (Z.eqb_spec (y mod 4) 0); cbn [negb];
    [ destruct (Z.eqb_spec (y mod 100) 0); cbn [negb];
      [ destruct (Z.eqb_spec (y mod 400) 0); cbn [negb] | ] | ];
    Z.div_mod_to_equations; lia.
Qed.

Lemma DayFromYear_mono (a b : Z) : a <= b -> DayFromYear a <= DayFromYear b.
Proof.
  intros Hab. unfold DayFromYear. Z.div_mod_to_equations. lia.
Qed.

(** [YearFromTime] is the only year whose days contain [Day t]. *)
Lemma YearFromTime_unique (t y : Z) :
  DayFromYear y <= Day t < DayFromYear (y + 1) -> YearFromTime t = y.
Proof.
  intros [Hlo Hhi].
  pose proof (YearFromTime_spec t) as [Hlo' Hhi'].
  destruct (Z.lt_trichotomy (YearFromTime t) y) as [Hlt | [Heq | Hgt]]; [ | exact Heq | ].
  - pose proof (DayFromYear_mono (YearFromTime t + 1) y). lia.
  - pose proof (DayFromYear_mono (y + 1) (YearFromTime t)). lia.
Qed.

Lemma InLeapYear_cases (t : Z) : InLeapYear t = 0 \/ InLeapYear t = 1.
Proof. unfold InLeapYear. destruct (isLeap _); auto. Qed.

Lemma DayWithinYear_range (t : Z) :
  0 <= DayWithinYear t < 365 + InLeapYear t.
Proof.
  pose proof (YearFromTime_spec t) as H.
  rewrite DayFromYear_succ in H.
  unfold DayWithinYear, InLeapYear, DaysInYear in *.
  destruct (isLeap _); lia.
Qed.

Lemma MonthFromTime_range (t : Z) : 0 <= MonthFromTime t <= 11.
Proof.
  unfold MonthFromTime; cbv zeta.
  repeat match goal with
         | |- context [if ?b then _ else _] => destruct b
         end; lia.
Qed.

(** The date of the month lies between 1 and 31. *)
Lemma DateFromTime_range (t : Z) : 1 <= DateFromTime t <= 31.
Proof.
  pose proof (DayWithinYear_range t) as Hd.
  pose proof (InLeapYear_cases t) as Hl.
  unfold DateFromTime, MonthFromTime; cbv zeta.
  generalize dependent (DayWithinYear t). generalize dependent (InLeapYear t).
  intros leap Hl d Hd.
  repeat match goal with
         | |- context [if ?a <? ?b then _ else _] => destruct (Z.ltb_spec a b)
         end; unfold DaysBeforeMonth; cbn [Z.eqb Pos.eqb]; lia.
Qed.

Lemma WeekDay_range (t : Z) : 0 <= WeekDay t <= 6.
Proof. unfold WeekDay. pose proof (Z.mod_pos_bound (Day t + 4) 7). lia. Qed.

Lemma MakeDate_Day (t : Z) : MakeDate (Day t) (TimeWithinDay t) = t.
Proof.
  unfold MakeDate, Day, TimeWithinDay.
  pose proof (Z.div_mod t msPerDay). unfold msPerDay in *. lia.
Qed.

Lemma Day_MakeDate (d r : Z) : 0 <= r < msPerDay -> Day (MakeDate d r) = d.
Proof.
  intros Hr. unfold Day, MakeDate.
  rewrite Z.add_comm, Z.div_add by (unfold msPerDay; lia).
  rewrite Z.div_small by exact Hr. reflexivity.
Qed.

Lemma TimeWithinDay_MakeDate (d r : Z) :
  0 <= r < msPerDay -> TimeWithinDay (MakeDate d r) = r.
Proof.
  intros Hr. unfold TimeWithinDay, MakeDate.
  rewrite Z.add_comm, Z.mod_add by (unfold msPerDay; lia).
  apply Z.mod_small. exact Hr.
Qed.

(** Rebuilding a day from the calendar fields of [t], with the date of
    the month moved by [k]: the day [k] days after that of [t]. *)
Lemma MakeDay_fields (t k : Z) :
  MakeDay (YearFromTime t) (MonthFromTime t) (DateFromTime t + k) = Day t + k.
Proof.
  pose proof (MonthFromTime_range t) as Hm.
  unfold MakeDay; cbv zeta.
  rewrite Z.div_small, Z.mod_small, Z.add_0_r by lia.
  unfold DateFromTime, DayWithinYear, InLeapYear. lia.
Qed.

(** [MakeDay] finds the first of the month it is asked for, as ECMA-262
    defines it: the day whose year, month and date are [y], [m] and 1. *)
Lemma MakeDay_first_of_month (y m : Z) :
  0 <= m <= 11 ->
  let t := MakeDate (MakeDay y m 1) 0 in
  YearFromTime t = y /\ MonthFromTime t = m /\ DateFromTime t = 1.
Proof.
  intros Hm t.
  assert (Hday : Day t = DayFromYear y + DaysBeforeMonth m (if isLeap y then 1 else 0)).
  { unfold t. rewrite Day_MakeDate by (unfold msPerDay; lia).
    unfold MakeDay; cbv zeta.
    rewrite Z.div_small, Z.mod_small, Z.add_0_r by lia. lia. }
  assert (Hy : YearFromTime t = y).
  { apply YearFromTime_unique. rewrite Hday, DayFromYear_succ.
    unfold DaysInYear, DaysBeforeMonth.
    destruct (isLeap y);
      repeat match goal with
             | |- context [if ?a =? ?b then _ else _] => destruct (Z.eqb_spec a b)
             end; lia. }
  assert (Hw : DayWithinYear t = DaysBeforeMonth m (if isLeap y then 1 else 0)).
  { unfold DayWithinYear. rewrite Hy, Hday. lia. }
  assert (Hmo : MonthFromTime t = m).
  { unfold MonthFromTime, InLeapYear; cbv zeta. rewrite Hw, Hy.
    assert (Hcases : m = 0 \/ m = 1 \/ m = 2 \/ m = 3 \/ m = 4 \/ m = 5 \/ m = 6
                     \/ m = 7 \/ m = 8 \/ m = 9 \/ m = 10 \/ m = 11) by lia.
    destruct (isLeap y);
      repeat (destruct Hcases as [-> | Hcases]; [reflexivity | ]);
      subst m; reflexivity. }
  split; [exact Hy | split; [exact Hmo | ]].
  unfold DateFromTime, InLeapYear. rewrite Hmo, Hw, Hy. lia.
Qed.

End TimeFacts.

(** ** The date helpers *)

Section DateHelpers.

Import Time TimeFacts.

Lemma TimeClip_inv (x m : Z) :
  TimeClip x = Num m -> x = m /\ Z.abs m <= maxTime.
Proof.
  unfold TimeClip. destruct (Z.ltb_spec maxTime (Z.abs x)); [discriminate | ].
  intros [= <-]. split; [reflexivity | assumption].
Qed.

Lemma TimeClip_valid (x : Z) : Z.abs x <= maxTime -> TimeClip x = Num x.
Proof.
  intros Hx. unfold TimeClip.
  destruct (Z.ltb_spec maxTime (Z.abs x)); [lia | reflexivity].
Qed.

(** [addDays] moves a date by whole days and keeps its time of day. *)
Lemma addDays_Num (tv k : Z) :
  addDays (Num tv) (Num k) = TimeClip (tv + k * msPerDay).
Proof.
  unfold addDays, Date.copy, Date.setUTCDate, Date.getUTCDate, Date.lift, Op.add, Op.lift2.
  rewrite MakeDay_fields. f_equal.
  pose proof (MakeDate_Day tv) as H. unfold MakeDate in *. lia.
Qed.

Lemma addDays_NaN_l (days : Number) : addDays NaN days = NaN.
Proof. reflexivity. Qed.

Lemma addDays_NaN_r (date : Date.t) : addDays date NaN = NaN.
Proof. destruct date; reflexivity. Qed.

Lemma getMondayOfWeek_unfold (tv : Z) :
  getMondayOfWeek (Num tv) =
  TimeClip (MakeDate
              (MakeDay (MakeFullYear (YearFromTime tv)) (MonthFromTime tv)
                       (DateFromTime tv - WeekDay tv
                        + (if WeekDay tv =? 0 then -6 else 1)))
              0).
Proof.
  unfold getMondayOfWeek, Date.copy, Date.UTC, Date.getUTCDay, Date.getUTCDate,
    Date.getUTCFullYear, Date.getUTCMonth, Date.lift, Op.is_zero, Op.add, Op.sub, Op.lift2.
  rewrite (roundDouble_exact (DateFromTime tv - WeekDay tv)).
  - destruct (WeekDay tv =? 0); reflexivity.
  - pose proof (DateFromTime_range tv). pose proof (WeekDay_range tv).
    change (2 ^ 53) with 9007199254740992. lia.
Qed.

(** Whatever date [getMondayOfWeek] returns is at midnight UTC. *)
Lemma getMondayOfWeek_midnight (date : Date.t) (m : Z) :
  getMondayOfWeek date = Num m -> TimeWithinDay m = 0.
Proof.
  destruct date as [ | tv]; [discriminate | ].
  rewrite getMondayOfWeek_unfold. intros H.
  apply TimeClip_inv in H as [<- _].
  apply TimeWithinDay_MakeDate. unfold msPerDay. lia.
Qed.

(** Outside the years 0 to 99, which [Date.UTC] moves to the twentieth
    century, the result is [(WeekDay + 6) mod 7] days before the day of
    the argument, when that day is a date. *)
Lemma getMondayOfWeek_Num (tv : Z) :
  ~ (0 <= YearFromTime tv <= 99) ->
  getMondayOfWeek (Num tv) = TimeClip ((Day tv - (WeekDay tv + 6) mod 7) * msPerDay).
Proof.
  intros Hy. rewrite getMondayOfWeek_unfold. f_equal.
  assert (Hfull : MakeFullYear (YearFromTime tv) = YearFromTime tv).
  { unfold MakeFullYear.
    destruct (Z.leb_spec 0 (YearFromTime tv)); destruct (Z.leb_spec (YearFromTime tv) 99);
      cbn [andb]; lia. }
  rewrite Hfull.
  replace (DateFromTime tv - WeekDay tv + (if WeekDay tv =? 0 then -6 else 1))
    with (DateFromTime tv + (- WeekDay tv + (if WeekDay tv =? 0 then -6 else 1))) by lia.
  rewrite MakeDay_fields. unfold MakeDate.
  pose proof (WeekDay_range tv) as Hw.
  destruct (Z.eqb_spec (WeekDay tv) 0) as [H0 | Hn0].
  - rewrite H0. cbn. lia.
  - rewrite (Z.mod_eq (WeekDay tv + 6) 7) by lia.
    replace ((WeekDay tv + 6) / 7) with 1 by (Z.div_mod_to_equations; lia).
    lia.
Qed.

(** The week alignment is right for every date outside the years 0 to 99
    whose Monday is a date: a Monday at midnight UTC, on or before the
    argument and less than seven days before it. *)
Lemma getMondayOfWeek_correct (tv m : Z) :
  ~ (0 <= YearFromTime tv <= 99) ->
  getMondayOfWeek (Num tv) = Num m ->
  WeekDay m = 1 /\ TimeWithinDay m = 0 /\ m <= tv /\ tv - m < 7 * msPerDay
  /\ Day m = Day tv - (WeekDay tv + 6) mod 7.
Proof.
  intros Hy H. rewrite (getMondayOfWeek_Num tv Hy) in H.
  apply TimeClip_inv in H as [<- _].
  pose proof (Z.mod_pos_bound (WeekDay tv + 6) 7 ltac:(lia)) as Hk.
  set (k := (WeekDay tv + 6) mod 7) in *.
  assert (HD : Day ((Day tv - k) * msPerDay) = Day tv - k).
  { unfold Day at 1. apply Z.div_mul. unfold msPerDay. lia. }
  split; [ | split; [ | split; [ | split ]]].
  - unfold WeekDay at 1. rewrite HD. unfold k, WeekDay.
    Z.div_mod_to_equations. lia.
  - unfold TimeWithinDay. apply Z.mod_mul. unfold msPerDay. lia.
  - pose proof (MakeDate_Day tv) as E.
    pose proof (Z.mod_pos_bound tv msPerDay ltac:(unfold msPerDay; lia)) as Hr.
    unfold MakeDate, TimeWithinDay in *. unfold msPerDay in *. lia.
  - pose proof (MakeDate_Day tv) as E.
    pose proof (Z.mod_pos_bound tv msPerDay ltac:(unfold msPerDay; lia)) as Hr.
    unfold MakeDate, TimeWithinDay in *. unfold msPerDay in *. lia.
  - exact HD.
Qed.

Lemma DaysBeforeMonth_range (m leap : Z) :
  0 <= leap <= 1 -> 0 <= DaysBeforeMonth m leap <= 335.
Proof.
  intros Hl. unfold DaysBeforeMonth.
  repeat match goal with
         | |- context [if ?a =? ?b then _ else _] => destruct (Z.eqb_spec a b)
         end; lia.
Qed.

(** Every date at least fourteen days inside the range of time values has
    an anchor Monday that is a date; only the invalid date and the first
    days of the range have none. *)
Lemma getMondayOfWeek_is_date (tv : Z) :
  inRange tv -> exists m, getMondayOfWeek (Num tv) = Num m.
Proof.
  intros Hr. unfold inRange in Hr.
  pose proof (WeekDay_range tv) as Hw.
  destruct (Z_le_dec 0 (YearFromTime tv)) as [Hy0 | Hy0];
    [destruct (Z_le_dec (YearFromTime tv) 99) as [Hy1 | Hy1] | ].
  - eexists. rewrite getMondayOfWeek_unfold. apply TimeClip_valid.
    pose proof (DateFromTime_range tv) as Hd.
    pose proof (MonthFromTime_range tv) as Hmo.
    assert (Hfull : MakeFullYear (YearFromTime tv) = 1900 + YearFromTime tv).
    { unfold MakeFullYear.
      destruct (Z.leb_spec 0 (YearFromTime tv)); destruct (Z.leb_spec (YearFromTime tv) 99);
        cbn [andb]; lia. }
    rewrite Hfull. unfold MakeDate, MakeDay; cbv zeta.
    rewrite Z.div_small, Z.mod_small by lia. rewrite !Z.add_0_r.
    pose proof (DaysBeforeMonth_range (MonthFromTime tv)
                  (if isLeap (1900 + YearFromTime tv) then 1 else 0)
                  ltac:(destruct (isLeap _); lia)) as Hb.
    assert (Hdiff : -11 <= DateFromTime tv - WeekDay tv
                           + (if WeekDay tv =? 0 then -6 else 1) <= 32)
      by (destruct (WeekDay tv =? 0); lia).
    pose proof (DayFromYear_mono 1900 (1900 + YearFromTime tv) ltac:(lia)) as Hlo.
    pose proof (DayFromYear_mono (1900 + YearFromTime tv) 1999 ltac:(lia)) as Hhi.
    change (DayFromYear 1900) with (-25567) in Hlo.
    change (DayFromYear 1999) with 10592 in Hhi.
    unfold msPerDay, maxTime. lia.
  - eexists. rewrite getMondayOfWeek_Num by lia. apply TimeClip_valid.
    pose proof (Z.mod_pos_bound (WeekDay tv + 6) 7 ltac:(lia)) as Hk.
    pose proof (MakeDate_Day tv) as E.
    pose proof (Z.mod_pos_bound tv msPerDay ltac:(unfold msPerDay; lia)) as Hrem.
    unfold MakeDate, TimeWithinDay in *. unfold msPerDay, maxTime in *. lia.
  - eexists. rewrite getMondayOfWeek_Num by lia. apply TimeClip_valid.
    pose proof (Z.mod_pos_bound (WeekDay tv + 6) 7 ltac:(lia)) as Hk.
    pose proof (MakeDate_Day tv) as E.
    pose proof (Z.mod_pos_bound tv msPerDay ltac:(unfold msPerDay; lia)) as Hrem.
    unfold MakeDate, TimeWithinDay in *. unfold msPerDay, maxTime in *. lia.
Qed.

End DateHelpers.

(** ** The arithmetic of rotation periods *)

Section Rotation.

Import Time TimeFacts.

(** The period that [floor(floor((now - m) / msPerDay) / 14)] names
    contains [now]. *)
Lemma period_contains (m now : Z) :
  let n := (now - m) / msPerDay / 14 in
  m + n * 14 * msPerDay <= now < m + n * 14 * msPerDay + 14 * msPerDay.
Proof.
  cbv zeta. unfold msPerDay. Z.div_mod_to_equations. lia.
Qed.

Lemma midnight_multiple (m : Z) : TimeWithinDay m = 0 -> m = Day m * msPerDay.
Proof.
  intros H. pose proof (MakeDate_Day m) as E. unfold MakeDate in E. lia.
Qed.

Lemma rotationStart_eval (m n : Z) :
  Z.abs (m + n * 14 * msPerDay) <= maxTime ->
  addDays (Num m) (Op.mul (Num n) (Num 14)) = Num (m + n * 14 * msPerDay).
Proof.
  intros H. cbn [Op.mul Op.lift2]. rewrite addDays_Num.
  apply TimeClip_valid. exact H.
Qed.

Lemma rotationEnd_eval (s : Z) :
  TimeWithinDay s = 0 ->
  - maxTime <= s -> s + 14 * msPerDay <= maxTime ->
  Date.setUTCHours (addDays (Num s) (Num 13)) 23 59 59 999
  = Num (s + 13 * msPerDay + MakeTime 23 59 59 999).
Proof.
  intros Hmid Hlo Hhi.
  rewrite addDays_Num, TimeClip_valid by (unfold msPerDay, maxTime in *; lia).
  cbn [Date.setUTCHours].
  assert (HD : Day (s + 13 * msPerDay) = Day s + 13).
  { unfold Day. apply Z.div_add. unfold msPerDay. lia. }
  rewrite HD. unfold MakeDate.
  rewrite Z.mul_add_distr_r, <- (midnight_multiple s Hmid).
  apply TimeClip_valid. unfold MakeTime, msPerHour, msPerMinute, msPerSecond, msPerDay, maxTime in *.
  lia.
Qed.

(** The anchor Monday is a time value. *)
Lemma anchor_in_range (date : Date.t) (m : Z) :
  getMondayOfWeek date = Num m -> Z.abs m <= maxTime.
Proof.
  destruct date as [ | tv]; [discriminate | ].
  rewrite getMondayOfWeek_unfold. intros H.
  apply TimeClip_inv in H as [_ H]. exact H.
Qed.

Lemma difference_below_2_54 (a b : Z) :
  Z.abs a <= maxTime -> Z.abs b <= maxTime -> Z.abs (a - b) < 2 ^ 54.
Proof.
  intros Ha Hb. change (2 ^ 54) with 18014398509481984.
  unfold maxTime in *. lia.
Qed.

(** The period that the rounded difference names contains the clock, or
    begins one millisecond after it. *)
Lemma rounded_period (m now : Z) :
  Z.abs (now - m) < 2 ^ 54 ->
  let n := roundDouble (now - m) / msPerDay / 14 in
  m + n * 14 * msPerDay <= now + 1
  /\ now < m + n * 14 * msPerDay + 14 * msPerDay.
Proof.
  intros Hx. cbv zeta.
  destruct (roundDouble_near (now - m) Hx) as (Hnear & Heven & _).
  pose proof (period_contains m (roundDouble (now - m) + m)) as Hp. cbv zeta in Hp.
  replace (roundDouble (now - m) + m - m) with (roundDouble (now - m)) in Hp by lia.
  set (n := roundDouble (now - m) / msPerDay / 14) in *.
  split; [lia | ].
  destruct (Z.eq_dec (roundDouble (now - m)) (now - m)) as [E | E]; [lia | ].
  specialize (Heven E). apply Z.even_spec in Heven as [c Hc].
  unfold msPerDay in *. lia.
Qed.

Lemma period_in_range (now s : Z) :
  inRange now -> TimeWithinDay s = 0 ->
  s <= now + 1 -> now < s + 14 * msPerDay ->
  - maxTime <= s /\ s + 14 * msPerDay <= maxTime /\ Z.abs s <= maxTime.
Proof.
  unfold inRange, TimeWithinDay, msPerDay, maxTime. intros Hr Hmid H1 H2.
  Z.div_mod_to_equations. lia.
Qed.

(** A whole number of periods between two time values is not rounded. *)
Lemma period_start_exact (m now n : Z) :
  Z.abs now <= maxTime -> Z.abs m <= maxTime ->
  now = m + 14 * n * msPerDay ->
  roundDouble (now - m) = now - m /\ roundDouble (now - m) / msPerDay / 14 = n.
Proof.
  intros Hnow Hm E.
  destruct (roundDouble_near (now - m) (difference_below_2_54 _ _ Hnow Hm))
    as (_ & _ & Hev).
  assert (Hexact : roundDouble (now - m) = now - m).
  { apply Hev. replace (now - m) with (2 * (7 * n * msPerDay)) by lia.
    rewrite Z.even_mul. reflexivity. }
  split; [exact Hexact | ]. rewrite Hexact, E.
  unfold msPerDay. Z.div_mod_to_equations. lia.
Qed.

Lemma inRange_time_value (t : Z) : inRange t -> Z.abs t <= maxTime.
Proof. unfold inRange, maxTime, msPerDay. lia. Qed.

Lemma Op_sub_Num (x y : Z) : Op.sub (Num x) (Num y) = Num (roundDouble (x - y)).
Proof. reflexivity. Qed.

(** What [getCurrentRotation] returns for an array of participants, when
    the anchor Monday is a date and the clock is [inRange]. *)
Lemma getCurrentRotation_eval (startDate : Date.t) (items : list string)
  (w : World) (m : Z) :
  getMondayOfWeek startDate = Num m ->
  inRange (wallClock w) ->
  let now := wallClock w in
  let d := roundDouble (now - m) / msPerDay in
  let n := d / 14 in
  let index := Op.rem (Num n) (Num (Z.of_nat (List.length items))) in
  getCurrentRotation startDate (Array items) w =
  Normal {| currentPerson := element items index;
            currentPersonIndex := index;
            rotationNumber := Num (n + 1);
            periodStart := Num (m + n * 14 * msPerDay);
            periodEnd := Num (m + n * 14 * msPerDay + 13 * msPerDay
                              + MakeTime 23 59 59 999);
            weeksSinceStart := Num (d / 7);
            daysSinceStart := Num d;
            isActive := (m + n * 14 * msPerDay <=? now) |}.
Proof.
  intros Hm Hr now d n index.
  pose proof (anchor_in_range _ _ Hm) as Hmr.
  unfold inRange in Hr. fold now in Hr.
  assert (Hx : Z.abs (now - m) < 2 ^ 54)
    by (apply difference_below_2_54; [unfold maxTime, msPerDay in *; lia | exact Hmr]).
  pose proof (rounded_period m now Hx) as Hp. cbv zeta in Hp. fold d n in Hp.
  pose proof (getMondayOfWeek_midnight _ _ Hm) as Hmid.
  destruct Hp as [Hp1 Hp2].
  assert (Hsmid : TimeWithinDay (m + n * 14 * msPerDay) = 0).
  { unfold TimeWithinDay in *.
    replace (n * 14 * msPerDay) with ((n * 14) * msPerDay) by lia.
    rewrite Z.mod_add by (unfold msPerDay; lia). exact Hmid. }
  destruct (period_in_range now (m + n * 14 * msPerDay) Hr Hsmid Hp1 Hp2)
    as (Hlo & Hhi' & Hs).
  unfold getCurrentRotation, bind, newDate, liftC, ret, Date.copy.
  cbn [length_of get_index]. rewrite Hm.
  change (1000 * 60 * 60 * 24) with msPerDay.
  rewrite Op_sub_Num. cbn [Op.lift2 Op.floor_div Op.add].
  fold now. fold d. fold n. fold index.
  rewrite (rotationStart_eval m n Hs).
  rewrite (rotationEnd_eval _ Hsmid Hlo Hhi').
  do 2 f_equal.
  unfold Op.ge, Op.le.
  replace (now <=? m + n * 14 * msPerDay + 13 * msPerDay + MakeTime 23 59 59 999)
    with true; [apply andb_true_r | ].
  symmetry. apply Z.leb_le.
  change (13 * msPerDay + MakeTime 23 59 59 999) with (14 * msPerDay - 1) || idtac.
  replace (m + n * 14 * msPerDay + 13 * msPerDay + MakeTime 23 59 59 999)
    with (m + n * 14 * msPerDay + 14 * msPerDay - 1)
    by (unfold MakeTime, msPerHour, msPerMinute, msPerSecond, msPerDay; lia).
  lia.
Qed.

End Rotation.

(** ** The remainder that selects the participant *)

Section PersonIndex.

(** For a period index that is not negative, [%] is the mathematical
    modulo and selects an element of a non-empty list. *)
Lemma personIndex_nonneg (items : list string) (n : Z) :
  items <> [] -> 0 <= n ->
  let len := Z.of_nat (List.length items) in
  Op.rem (Num n) (Num len) = Num (n mod len)
  /\ 0 <= n mod len < len
  /\ exists who, element items (Num (n mod len)) = Some who.
Proof.
  intros Hne Hn len.
  assert (Hlen : 0 < len) by (unfold len; destruct items; [congruence | cbn; lia]).
  pose proof (Z.mod_pos_bound n len Hlen) as Hb.
  split; [ | split; [exact Hb | ]].
  - unfold Op.rem. destruct (Z.eqb_spec len 0); [lia | ].
    rewrite Z.rem_mod_nonneg by lia. reflexivity.
  - unfold element. destruct (Z.ltb_spec (n mod len) 0); [lia | ].
    destruct (nth_error items (Z.to_nat (n mod len))) eqn:E; [eauto | ].
    apply nth_error_None in E. unfold len in *. lia.
Qed.

Lemma rem_of_negative (n len : Z) :
  0 < len -> n < 0 -> n mod len <> 0 -> Z.rem n len = n mod len - len.
Proof.
  intros Hlen Hn Hmod.
  replace n with (- (- n)) in * by lia.
  set (p := - n) in *. assert (Hp : 0 < p) by (unfold p; lia). clearbody p.
  assert (Hneg : p mod len <> 0).
  { intros H0. apply Hmod. apply Z.mod_opp_l_z; [lia | exact H0]. }
  rewrite Z.rem_opp_l by lia.
  rewrite Z.rem_mod_nonneg by lia.
  rewrite Z.mod_opp_l_nz by (lia || exact Hneg).
  lia.
Qed.

(** For a negative period index that is not a multiple of the length,
    [%] is the mathematical modulo less the length: a negative index,
    which selects nobody. *)
Lemma personIndex_negative (items : list string) (n : Z) :
  let len := Z.of_nat (List.length items) in
  items <> [] -> n < 0 -> n mod len <> 0 ->
  Op.rem (Num n) (Num len) = Num (n mod len - len)
  /\ n mod len - len < 0
  /\ element items (Op.rem (Num n) (Num len)) = None.
Proof.
  intros len Hne Hn Hmod.
  assert (Hlen : 0 < len) by (unfold len; destruct items; [congruence | cbn; lia]).
  pose proof (Z.mod_pos_bound n len Hlen) as Hb.
  assert (Hrem : Z.rem n len = n mod len - len) by (apply rem_of_negative; assumption).
  assert (Hop : Op.rem (Num n) (Num len) = Num (n mod len - len)).
  { unfold Op.rem. destruct (Z.eqb_spec len 0); [lia | ]. rewrite Hrem. reflexivity. }
  split; [exact Hop | split; [lia | ]].
  rewrite Hop. unfold element.
  destruct (Z.ltb_spec (n mod len - len) 0); [reflexivity | lia].
Qed.

End PersonIndex.

(** ** The forecast loop *)

Section Forecast.

Import Time TimeFacts.

(** On an array the body of the loop never throws. *)
Lemma upcomingEntry_Array (startMonday : Date.t) (cur : Number)
  (items : list string) (i : Z) :
  let rotationNumber := Op.add cur (Num i) in
  let index := Op.rem rotationNumber (Num (Z.of_nat (List.length items))) in
  let rotationStart := addDays startMonday (Op.mul rotationNumber (Num 14)) in
  upcomingEntry startMonday cur (Array items) i =
  Normal {| Upcoming.person := element items index;
            Upcoming.rotationNumber := Op.add rotationNumber (Num 1);
            Upcoming.periodStart := rotationStart;
            Upcoming.periodEnd :=
              Date.setUTCHours (addDays rotationStart (Num 13)) 23 59 59 999;
            Upcoming.isCurrent := false |}.
Proof. reflexivity. Qed.

(** Once the counter is past [count] the loop is over, whatever [people]
    is. *)
Lemma upcomingLoop_done (startMonday : Date.t) (cur : Number) (people : Value)
  (count i : Z) (rotations : list Upcoming.t) :
  count < i ->
  upcomingLoop startMonday cur people count i rotations = Normal rotations.
Proof.
  intros Hlt. rewrite upcomingLoop_equation_1.
  destruct (Z_le_dec i count) as [Hle | Hgt]; [lia | ].
  apply upcomingLoop_clause_1_equation_2.
Qed.

(** On an array the loop ends normally; it pushes one entry per value of
    the counter from [i] to [count], in that order. *)
Lemma upcomingLoop_Array (startMonday : Date.t) (cur : Number) (people : Value)
  (count i : Z) (rotations : list Upcoming.t) :
  (exists items, people = Array items) ->
  exists entries,
    upcomingLoop startMonday cur people count i rotations
    = Normal (rotations ++ entries)
    /\ List.length entries = Z.to_nat (count + 1 - i)
    /\ forall k e, nth_error entries k = Some e ->
                   upcomingEntry startMonday cur people (i + Z.of_nat k) = Normal e.
Proof.
  intros Harr.
  funelim (upcomingLoop startMonday cur people count i rotations).
  - exists []. rewrite app_nil_r. split; [reflexivity | split].
    + cbn. lia.
    + intros [ | k] e; discriminate.
  - match goal with
    | IH : (exists _, _) -> exists _, _ |- _ => destruct (IH Harr) as (rest & Hrun & Hlen & Hnth)
    end.
    exists (entry :: rest). split; [ | split].
    + rewrite Hrun, <- app_assoc. reflexivity.
    + cbn [List.length]. rewrite Hlen. lia.
    + intros [ | k] e Hk.
      * cbn in Hk. injection Hk as <-. rewrite Z.add_0_r. assumption.
      * cbn in Hk. apply Hnth in Hk.
        replace (i + Z.of_nat (S k)) with (i + 1 + Z.of_nat k) by lia. exact Hk.
  - destruct Harr as [items ->]. discriminate.
Qed.

(** The forecast for an array: it ends normally with [max 0 count]
    entries, the one of rank [k] built by the body of the loop at counter
    [1 + k] from the anchor Monday and the index of the current period. *)
Lemma getUpcomingRotations_Array (startDate : Date.t) (items : list string)
  (count : option Z) (w : World) :
  let c := match count with Some c => c | None => 5 end in
  let startMonday := getMondayOfWeek startDate in
  let cur := Op.floor_div
               (Op.floor_div (Op.sub (Num (wallClock w)) startMonday) msPerDay) 14 in
  exists entries,
    getUpcomingRotations startDate (Array items) count w = Normal entries
    /\ List.length entries = Z.to_nat c
    /\ forall k e, nth_error entries k = Some e ->
                   upcomingEntry startMonday cur (Array items) (1 + Z.of_nat k)
                   = Normal e.
Proof.
  intros c startMonday cur.
  destruct (upcomingLoop_Array startMonday cur (Array items) c 1 [])
    as (entries & Hrun & Hlen & Hnth); [eauto | ].
  exists entries. split; [ | split].
  - unfold getUpcomingRotations, bind, newDate, liftC, Date.copy.
    change (1000 * 60 * 60 * 24) with msPerDay.
    fold c. fold startMonday. fold cur. exact Hrun.
  - rewrite Hlen. f_equal. lia.
  - exact Hnth.
Qed.

(** The record [getCurrentRotation] builds for an array, as the source
    writes it. *)
Lemma getCurrentRotation_Array (startDate : Date.t) (items : list string)
  (w : World) :
  let now := Num (wallClock w) in
  let startMonday := getMondayOfWeek startDate in
  let daysSinceStart := Op.floor_div (Op.sub now startMonday) msPerDay in
  let rotationNumber := Op.floor_div daysSinceStart 14 in
  let index := Op.rem rotationNumber (Num (Z.of_nat (List.length items))) in
  let rotationStart := addDays startMonday (Op.mul rotationNumber (Num 14)) in
  let rotationEnd := Date.setUTCHours (addDays rotationStart (Num 13)) 23 59 59 999 in
  getCurrentRotation startDate (Array items) w =
  Normal {| currentPerson := element items index;
            currentPersonIndex := index;
            rotationNumber := Op.add rotationNumber (Num 1);
            periodStart := rotationStart;
            periodEnd := rotationEnd;
            weeksSinceStart := Op.floor_div daysSinceStart 7;
            daysSinceStart := daysSinceStart;
            isActive := Op.ge now rotationStart && Op.le now rotationEnd |}.
Proof. reflexivity. Qed.

End Forecast.

(** * The claims of the specification *)

Section Claims.

Import Time TimeFacts.
Open Scope string_scope.

(** ** Participant selection *)

(** C1.  The participant index is not the mathematical modulo when the
    period index is negative.  With participants A, B, C and anchor Monday
    2024-01-01, on 2023-12-31 (one day before the anchor Monday) the
    period index is -1 (rotation number 0); the modulo of -1 by 3 is 2,
    the index of the last participant C, but [%] gives -1 and
    [people[-1]] is [undefined]. *)
Theorem currentRotation_day_before_anchor :
  exists r,
    getCurrentRotation (Num (utcMidnight 2024 0 1)) (Array abc)
                       (hostAt (utcMidnight 2023 11 31)) = Normal r
    /\ rotationNumber r = Num (-1 + 1)
    /\ currentPersonIndex r = Num (-1)
    /\ currentPerson r = None
    /\ (-1) mod Z.of_nat (List.length abc) = 2
    /\ element abc (Num 2) = Some "C".
Proof.
  eexists. split; [vm_compute; reflexivity | ].
  repeat split; reflexivity.
Qed.

(** At the start of a period that is not before the anchor, the current
    rotation has that period's index and the participant the modulo
    selects. *)
Lemma rotation_at_period_start (startDate : Date.t) (items : list string)
  (w : World) (m n : Z) :
  getMondayOfWeek startDate = Num m ->
  wallClock w = m + 14 * n * msPerDay ->
  inRange (wallClock w) ->
  items <> [] -> 0 <= n ->
  exists r who,
    getCurrentRotation startDate (Array items) w = Normal r
    /\ rotationNumber r = Num (n + 1)
    /\ currentPersonIndex r = Num (n mod Z.of_nat (List.length items))
    /\ nth_error items (Z.to_nat (n mod Z.of_nat (List.length items))) = Some who
    /\ currentPerson r = Some who.
Proof.
  intros Hm Hnow Hr Hne Hn.
  pose proof (getCurrentRotation_eval startDate items w m Hm Hr) as Hrun.
  cbv zeta in Hrun.
  destruct (period_start_exact m (wallClock w) n (inRange_time_value _ Hr)
              (anchor_in_range _ _ Hm) Hnow) as [_ Hidx].
  rewrite Hidx in Hrun.
  destruct (personIndex_nonneg items n Hne Hn) as (Hrem & Hb & who & Hwho).
  cbv zeta in Hrem, Hb, Hwho. rewrite Hrem in Hrun.
  eexists. exists who. split; [exact Hrun | ]. cbn.
  split; [reflexivity | split; [reflexivity | ]].
  unfold element in Hwho.
  destruct (Z.ltb_spec (n mod Z.of_nat (List.length items)) 0); [lia | ].
  split; [exact Hwho | exact Hwho].
Qed.

(** The period index at [anchorMonday + 14 n days] is [n], for negative
    [n] as well, when the clock is a time value. *)
Lemma periodIndex_at_period_start (startDate : Date.t) (items : list string)
  (w : World) (m n : Z) :
  getMondayOfWeek startDate = Num m ->
  Z.abs (wallClock w) <= maxTime ->
  wallClock w = m + 14 * n * msPerDay ->
  exists r,
    getCurrentRotation startDate (Array items) w = Normal r
    /\ rotationNumber r = Num (n + 1).
Proof.
  intros Hm Hw Hnow. eexists. split; [apply getCurrentRotation_Array | ].
  destruct (period_start_exact m (wallClock w) n Hw (anchor_in_range _ _ Hm) Hnow)
    as [_ Hidx].
  cbn [rotationNumber]. rewrite Hm, Op_sub_Num.
  cbn [Op.add Op.lift2 Op.floor_div]. rewrite Hidx. reflexivity.
Qed.

(** The cycling example: participants A, B, C, anchor Monday 2024-01-01. *)
Lemma cycling_example :
  let run now := getCurrentRotation (Num (utcMidnight 2024 0 1)) (Array abc)
                                    (hostAt now) in
  (exists r, run (utcMidnight 2024 0 1) = Normal r
             /\ currentPerson r = Some "A" /\ rotationNumber r = Num 1
             /\ periodEnd r = Date.ymd_hms 2024 0 14 23 59 59 999)
  /\ (exists r, run (utcMidnight 2024 0 15) = Normal r
                /\ currentPerson r = Some "B" /\ rotationNumber r = Num 2)
  /\ (exists r, run (utcMidnight 2024 1 12) = Normal r
                /\ currentPerson r = Some "A" /\ rotationNumber r = Num (3 + 1)).
Proof.
  cbv zeta. repeat split; eexists; (split; [vm_compute; reflexivity | ]);
    repeat split; reflexivity.
Qed.

(** C4.  At [now = anchorMonday + 14 n days] the period index is [n], but
    for a negative [n] the participant is not [people[n mod len]]: with
    participants A, B, C and anchor Monday 2024-01-01, at
    [now = 2023-12-18], that is [n = -1], the rotation number is [n + 1]
    and the participant is [undefined], where [people[(-1) mod 3]] is C. *)
Theorem rotation_one_period_before_anchor :
  utcMidnight 2023 11 18 = utcMidnight 2024 0 1 + 14 * (-1) * msPerDay
  /\ exists r,
      getCurrentRotation (Num (utcMidnight 2024 0 1)) (Array abc)
                         (hostAt (utcMidnight 2023 11 18)) = Normal r
      /\ rotationNumber r = Num (-1 + 1)
      /\ currentPerson r = None
      /\ nth_error abc (Z.to_nat ((-1) mod Z.of_nat (List.length abc))) = Some "C".
Proof.
  split; [reflexivity | ].
  eexists. split; [vm_compute; reflexivity | ].
  repeat split; reflexivity.
Qed.

(** ** Week alignment *)

(** C2.  The week alignment is wrong for a date in the years 0 to 99:
    [Date.UTC] reads such a year as a year of the twentieth century.  For
    0050-01-01, a Saturday, [getMondayOfWeek] returns 1949-12-27, a
    Tuesday nineteen centuries after its argument. *)
Theorem getMondayOfWeek_year_50 :
  Date.getUTCFullYear (Num (utcMidnight 50 0 1)) = Num 50
  /\ Date.getUTCDay (Num (utcMidnight 50 0 1)) = Num 6
  /\ getMondayOfWeek (Num (utcMidnight 50 0 1)) = Num (utcMidnight 1949 11 27)
  /\ Date.getUTCDay (Num (utcMidnight 1949 11 27)) = Num 2
  /\ utcMidnight 50 0 1 < utcMidnight 1949 11 27.
Proof. repeat split; vm_compute; reflexivity. Qed.

(** A Sunday is aligned to the Monday six days before it, and the Sunday
    anchor 2024-01-07 to Monday 2024-01-01. *)
Lemma getMondayOfWeek_sunday (tv m : Z) :
  ~ (0 <= YearFromTime tv <= 99) ->
  WeekDay tv = 0 ->
  getMondayOfWeek (Num tv) = Num m ->
  Day m = Day tv - 6.
Proof.
  intros Hy Hsun Hm.
  destruct (getMondayOfWeek_correct tv m Hy Hm) as (_ & _ & _ & _ & HD).
  rewrite HD, Hsun. reflexivity.
Qed.

Lemma getMondayOfWeek_sunday_anchor :
  Date.getUTCDay (Num (utcMidnight 2024 0 7)) = Num 0
  /\ getMondayOfWeek (Num (utcMidnight 2024 0 7)) = Num (utcMidnight 2024 0 1).
Proof. split; vm_compute; reflexivity. Qed.

(** ** Period bounds *)

Lemma sample_anchor : getMondayOfWeek sampleStart = Num sampleMonday.
Proof. vm_compute. reflexivity. Defined.

Lemma sample_inRange : inRange (wallClock sampleWorld).
Proof. unfold inRange. vm_compute. discriminate. Defined.

Lemma sample_exactDifference : exactDifference sampleMonday (wallClock sampleWorld).
Proof. unfold exactDifference. vm_compute. discriminate. Defined.

(** C3.  The current rotation starts at the anchor Monday plus 14 days per
    period index, at midnight UTC, and ends on the thirteenth day after
    its start at 23:59:59.999 UTC.  The period index is the one the helper
    computes, [floor(floor((now - anchorMonday) / msPerDay) / 14)] with the
    difference a double. *)
Theorem period_bounds (startDate : Date.t) (items : list string) (w : World)
  (m : Z) :
  getMondayOfWeek startDate = Num m ->
  inRange (wallClock w) ->
  exists r n s e,
    getCurrentRotation startDate (Array items) w = Normal r
    /\ n = roundDouble (wallClock w - m) / msPerDay / 14
    /\ rotationNumber r = Num (n + 1)
    /\ periodStart r = Num s
    /\ s = m + n * 14 * msPerDay
    /\ TimeWithinDay s = 0
    /\ periodEnd r = Num e
    /\ Day e = Day s + 13
    /\ TimeWithinDay e = MakeTime 23 59 59 999.
Proof.
  intros Hm Hr.
  pose proof (getCurrentRotation_eval startDate items w m Hm Hr) as Hrun.
  cbv zeta in Hrun.
  set (n := roundDouble (wallClock w - m) / msPerDay / 14) in *.
  set (s := m + n * 14 * msPerDay) in *.
  pose proof (getMondayOfWeek_midnight _ _ Hm) as Hmid.
  assert (Hsmid : TimeWithinDay s = 0).
  { unfold s, TimeWithinDay in *.
    replace (n * 14 * msPerDay) with ((n * 14) * msPerDay) by lia.
    rewrite Z.mod_add by (unfold msPerDay; lia). exact Hmid. }
  assert (Hbound : 0 <= MakeTime 23 59 59 999 < msPerDay) by (vm_compute; split; congruence).
  assert (He : s + 13 * msPerDay + MakeTime 23 59 59 999
               = MakeDate (Day s + 13) (MakeTime 23 59 59 999)).
  { unfold MakeDate. rewrite (midnight_multiple s Hsmid) at 1. lia. }
  eexists. exists n, s. eexists.
  split; [exact Hrun | ]. cbn [rotationNumber periodStart periodEnd].
  repeat (split; [reflexivity || exact Hsmid | ]).
  rewrite He. split.
  - apply Day_MakeDate. exact Hbound.
  - apply TimeWithinDay_MakeDate. exact Hbound.
Qed.

Lemma period_bounds_witness :
  getMondayOfWeek sampleStart = Num sampleMonday
  /\ inRange (wallClock sampleWorld)
  /\ exists r n s e,
      getCurrentRotation sampleStart (Array abc) sampleWorld = Normal r
      /\ n = roundDouble (wallClock sampleWorld - sampleMonday) / msPerDay / 14
      /\ rotationNumber r = Num (n + 1)
      /\ periodStart r = Num s
      /\ s = sampleMonday + n * 14 * msPerDay
      /\ TimeWithinDay s = 0
      /\ periodEnd r = Num e
      /\ Day e = Day s + 13
      /\ TimeWithinDay e = MakeTime 23 59 59 999.
Proof.
  exact (conj sample_anchor
           (conj sample_inRange
              (period_bounds sampleStart abc sampleWorld sampleMonday
                 sample_anchor sample_inRange))).
Defined.

(** The claim C10 fails.  For the anchor Monday -8000000121600000 and the
    clock 7899999551999999, both in range, the difference
    15899999673599999 is no double: it is rounded to 15899999673600000, a
    whole number of days, so the helper counts the last millisecond of a
    period in the next one, which starts after the clock, and [isActive] is
    false.  It is false as well for the first date of the range, whose
    Monday is no date. *)
Lemma isActive_false_far_from_anchor :
  getMondayOfWeek (Num (-8000000121600000)) = Num (-8000000121600000)
  /\ inRange 7899999551999999
  /\ (exists r,
        getCurrentRotation (Num (-8000000121600000)) (Array abc)
                           (hostAt 7899999551999999) = Normal r
        /\ rotationNumber r = Num 13144842
        /\ daysSinceStart r = Num 184027774
        /\ periodStart r = Num 7899999552000000
        /\ isActive r = false)
  /\ (exists r,
        getCurrentRotation (Num (- maxTime)) (Array abc) sampleWorld = Normal r
        /\ isActive r = false).
Proof.
  split; [vm_compute; reflexivity | ].
  split; [unfold inRange; vm_compute; discriminate | ].
  split; eexists; (split; [vm_compute; reflexivity | ]); repeat split; reflexivity.
Qed.

(** C10, amended.  When the anchor Monday is a date, the clock is at least a
    period inside the range of time values and less than 2^53 milliseconds
    from the anchor Monday, the [isActive] field of the current rotation is
    [true]: the clock lies between the start and the end of the period,
    both included. *)
Theorem isActive_true_within_exact_range (startDate : Date.t)
  (items : list string) (w : World) (m : Z) :
  getMondayOfWeek startDate = Num m ->
  inRange (wallClock w) ->
  exactDifference m (wallClock w) ->
  exists r s e,
    getCurrentRotation startDate (Array items) w = Normal r
    /\ isActive r = true
    /\ periodStart r = Num s /\ periodEnd r = Num e
    /\ s <= wallClock w <= e
    /\ e = s + 14 * msPerDay - 1.
Proof.
  intros Hm Hr Hx.
  pose proof (getCurrentRotation_eval startDate items w m Hm Hr) as Hrun.
  cbv zeta in Hrun. rewrite (roundDouble_exact _ Hx) in Hrun.
  pose proof (period_contains m (wallClock w)) as Hp. cbv zeta in Hp.
  set (n := (wallClock w - m) / msPerDay / 14) in *.
  assert (Hact : Z.leb (m + n * 14 * msPerDay) (wallClock w) = true)
    by (apply Z.leb_le; lia).
  rewrite Hact in Hrun.
  do 3 eexists. split; [exact Hrun | ].
  cbn [isActive periodStart periodEnd].
  repeat (split; [reflexivity | ]).
  clear Hrun Hact.
  unfold MakeTime, msPerHour, msPerMinute, msPerSecond, msPerDay in *.
  split; lia.
Qed.

Lemma isActive_true_within_exact_range_witness :
  getMondayOfWeek sampleStart = Num sampleMonday
  /\ inRange (wallClock sampleWorld)
  /\ exactDifference sampleMonday (wallClock sampleWorld)
  /\ exists r s e,
      getCurrentRotation sampleStart (Array abc) sampleWorld = Normal r
      /\ isActive r = true
      /\ periodStart r = Num s /\ periodEnd r = Num e
      /\ s <= wallClock sampleWorld <= e
      /\ e = s + 14 * msPerDay - 1.
Proof.
  exact (conj sample_anchor
           (conj sample_inRange
              (conj sample_exactDifference
                 (isActive_true_within_exact_range sampleStart abc sampleWorld
                    sampleMonday sample_anchor sample_inRange
                    sample_exactDifference)))).
Defined.

(** ** Monotonicity *)

(** C7.  For a fixed anchor and list the period index the code computes
    (from the difference between the clock and the anchor Monday, rounded
    as a double), and so the rotation number, does not decrease when the
    clock advances. *)
Theorem rotationNumber_monotone (startDate : Date.t) (items : list string)
  (w1 w2 : World) (m : Z) :
  getMondayOfWeek startDate = Num m ->
  wallClock w1 <= wallClock w2 ->
  exists r1 r2 n1 n2,
    getCurrentRotation startDate (Array items) w1 = Normal r1
    /\ getCurrentRotation startDate (Array items) w2 = Normal r2
    /\ rotationNumber r1 = Num (n1 + 1)
    /\ rotationNumber r2 = Num (n2 + 1)
    /\ n1 = roundDouble (wallClock w1 - m) / msPerDay / 14
    /\ n2 = roundDouble (wallClock w2 - m) / msPerDay / 14
    /\ n1 <= n2.
Proof.
  intros Hm Hle.
  do 4 eexists.
  split; [apply getCurrentRotation_Array | ].
  split; [apply getCurrentRotation_Array | ].
  cbn [rotationNumber]. rewrite Hm, !Op_sub_Num.
  cbn [Op.add Op.lift2 Op.floor_div].
  repeat (split; [reflexivity | ]).
  apply Z.div_le_mono; [lia | ].
  apply Z.div_le_mono; [unfold msPerDay; lia | ].
  apply roundDouble_mono. lia.
Qed.

Lemma rotationNumber_monotone_witness :
  getMondayOfWeek sampleStart = Num sampleMonday
  /\ wallClock sampleWorld <= wallClock sampleWorldLater
  /\ exists r1 r2 n1 n2,
      getCurrentRotation sampleStart (Array abc) sampleWorld = Normal r1
      /\ getCurrentRotation sampleStart (Array abc) sampleWorldLater = Normal r2
      /\ rotationNumber r1 = Num (n1 + 1)
      /\ rotationNumber r2 = Num (n2 + 1)
      /\ n1 = roundDouble (wallClock sampleWorld - sampleMonday) / msPerDay / 14
      /\ n2 = roundDouble (wallClock sampleWorldLater - sampleMonday)
              / msPerDay / 14
      /\ n1 <= n2.
Proof.
  assert (Hle : wallClock sampleWorld <= wallClock sampleWorldLater)
    by (vm_compute; discriminate).
  exact (conj sample_anchor
           (conj Hle
              (rotationNumber_monotone sampleStart abc sampleWorld sampleWorldLater
                 sampleMonday sample_anchor Hle))).
Defined.

(** ** The forecast *)

(** C8.  For an array of participants the forecast ends normally with
    exactly [count] entries when [count] is positive and none when it is
    not, [count] being 5 when the caller leaves it out. *)
Theorem forecast_length (startDate : Date.t) (items : list string)
  (count : option Z) (w : World) :
  exists entries,
    getUpcomingRotations startDate (Array items) count w = Normal entries
    /\ Z.of_nat (List.length entries)
       = Z.max 0 (match count with Some c => c | None => 5 end).
Proof.
  destruct (getUpcomingRotations_Array startDate items count w)
    as (entries & Hrun & Hlen & _).
  cbv zeta in Hrun, Hlen.
  exists entries. split; [exact Hrun | ]. rewrite Hlen. lia.
Qed.

(** The forecast made by default has five entries, and a count that is
    not positive gives none. *)
Lemma forecast_length_default (startDate : Date.t) (items : list string)
  (w : World) :
  exists entries,
    getUpcomingRotations startDate (Array items) None w = Normal entries
    /\ List.length entries = 5%nat.
Proof.
  destruct (getUpcomingRotations_Array startDate items None w)
    as (entries & Hrun & Hlen & _).
  exists entries. split; [exact Hrun | exact Hlen].
Qed.

Lemma forecast_empty (startDate : Date.t) (items : list string) (c : Z)
  (w : World) :
  c <= 0 -> getUpcomingRotations startDate (Array items) (Some c) w = Normal [].
Proof.
  intros Hc.
  destruct (getUpcomingRotations_Array startDate items (Some c) w)
    as (entries & Hrun & Hlen & _).
  cbv zeta in Hrun, Hlen.
  rewrite Hrun. destruct entries; [reflexivity | cbn [List.length] in Hlen; lia].
Qed.

(** C5.  The forecast has [max 0 count] entries, all after the current
    period: the entry of rank [k] (from 0) exists for every [k] below that
    number, has the rotation number of the current rotation plus [1 + k],
    is not marked current, and starts [k + 1] periods after the current
    period starts, an instant after the end of the current period and after
    the clock (the start is an invalid date when that instant is no time
    value).  When the count is positive the first entry has the current
    rotation number plus one. *)
Theorem forecast_follows_current (startDate : Date.t) (items : list string)
  (count : option Z) (w : World) (m : Z) :
  getMondayOfWeek startDate = Num m ->
  inRange (wallClock w) ->
  exists cur ups c cs ce,
    getCurrentRotation startDate (Array items) w = Normal cur
    /\ getUpcomingRotations startDate (Array items) count w = Normal ups
    /\ rotationNumber cur = Num c
    /\ periodStart cur = Num cs
    /\ periodEnd cur = Num ce
    /\ List.length ups
       = Z.to_nat (match count with Some c => c | None => 5 end)
    /\ (0 < match count with Some c => c | None => 5 end ->
        exists e, nth_error ups 0 = Some e
                  /\ Upcoming.rotationNumber e
                     = Op.add (rotationNumber cur) (Num 1))
    /\ (forall k, (k < List.length ups)%nat ->
          exists e s,
            nth_error ups k = Some e
            /\ Upcoming.rotationNumber e = Num (c + 1 + Z.of_nat k)
            /\ Upcoming.isCurrent e = false
            /\ s = cs + (1 + Z.of_nat k) * 14 * msPerDay
            /\ Upcoming.periodStart e = TimeClip s
            /\ ce < s /\ wallClock w < s).
Proof.
  intros Hm Hr.
  pose proof (getCurrentRotation_eval startDate items w m Hm Hr) as Hcur.
  cbv zeta in Hcur.
  destruct (getUpcomingRotations_Array startDate items count w)
    as (ups & Hups & Hlen & Hnth).
  cbv zeta in Hups, Hlen, Hnth. rewrite Hm, Op_sub_Num in Hnth.
  cbn [Op.lift2 Op.floor_div] in Hnth.
  assert (Hx : Z.abs (wallClock w - m) < 2 ^ 54)
    by (apply difference_below_2_54;
        [apply inRange_time_value, Hr | apply (anchor_in_range _ _ Hm)]).
  pose proof (rounded_period m (wallClock w) Hx) as Hp. cbv zeta in Hp.
  set (n := roundDouble (wallClock w - m) / msPerDay / 14) in *.
  assert (Hentry : forall k, (k < List.length ups)%nat ->
            exists e, nth_error ups k = Some e
            /\ Upcoming.rotationNumber e = Num (n + 1 + 1 + Z.of_nat k)
            /\ Upcoming.isCurrent e = false
            /\ Upcoming.periodStart e
               = TimeClip (m + n * 14 * msPerDay
                           + (1 + Z.of_nat k) * 14 * msPerDay)).
  { intros k Hk.
    destruct (nth_error ups k) as [e | ] eqn:He;
      [ | apply nth_error_None in He; lia].
    exists e. split; [reflexivity | ].
    apply Hnth in He.
    remember (1 + Z.of_nat k) as i eqn:Hi.
    rewrite upcomingEntry_Array in He. cbv zeta in He.
    injection He as <-.
    unfold Upcoming.rotationNumber, Upcoming.isCurrent, Upcoming.periodStart,
      Op.add, Op.mul, Op.lift2.
    rewrite addDays_Num.
    split; [f_equal; lia | split; [reflexivity | f_equal; lia]]. }
  do 5 eexists. split; [exact Hcur | ]. split; [exact Hups | ].
  cbn [rotationNumber periodStart periodEnd].
  split; [reflexivity | ]. split; [reflexivity | ]. split; [reflexivity | ].
  split; [exact Hlen | ]. split.
  - intros Hc. destruct (Hentry 0%nat) as (e & He & Hn & _); [rewrite Hlen; lia | ].
    exists e. split; [exact He | ].
    rewrite Hn. cbn [Op.add Op.lift2]. f_equal. lia.
  - intros k Hk. destruct (Hentry k Hk) as (e & He & Hn & Hc & Hs).
    exists e. eexists.
    split; [exact He | ]. split; [exact Hn | ]. split; [exact Hc | ].
    split; [reflexivity | ]. split; [exact Hs | ].
    unfold MakeTime, msPerHour, msPerMinute, msPerSecond, msPerDay in *.
    split; lia.
Qed.

Lemma forecast_follows_current_witness :
  getMondayOfWeek sampleStart = Num sampleMonday
  /\ inRange (wallClock sampleWorld)
  /\ exists cur ups c cs ce,
      getCurrentRotation sampleStart (Array abc) sampleWorld = Normal cur
      /\ getUpcomingRotations sampleStart (Array abc) (Some 3) sampleWorld
         = Normal ups
      /\ rotationNumber cur = Num c
      /\ periodStart cur = Num cs
      /\ periodEnd cur = Num ce
      /\ List.length ups = Z.to_nat 3
      /\ (0 < 3 ->
          exists e, nth_error ups 0 = Some e
                    /\ Upcoming.rotationNumber e
                       = Op.add (rotationNumber cur) (Num 1))
      /\ (forall k, (k < List.length ups)%nat ->
            exists e s,
              nth_error ups k = Some e
              /\ Upcoming.rotationNumber e = Num (c + 1 + Z.of_nat k)
              /\ Upcoming.isCurrent e = false
              /\ s = cs + (1 + Z.of_nat k) * 14 * msPerDay
              /\ Upcoming.periodStart e = TimeClip s
              /\ ce < s /\ wallClock sampleWorld < s).
Proof.
  exact (conj sample_anchor
           (conj sample_inRange
              (forecast_follows_current sampleStart abc (Some 3) sampleWorld
                 sampleMonday sample_anchor sample_inRange))).
Defined.

(** The forecast of the cycling example, made on 2024-01-01 for two
    periods: B from 2024-01-15, then C from 2024-01-29. *)
Lemma forecast_example :
  getUpcomingRotations (Num (utcMidnight 2024 0 1)) (Array abc) (Some 2)
                       (hostAt (utcMidnight 2024 0 1))
  = Normal [ {| Upcoming.person := Some "B";
                Upcoming.rotationNumber := Num 2;
                Upcoming.periodStart := Date.ymd 2024 0 15;
                Upcoming.periodEnd := Date.ymd_hms 2024 0 28 23 59 59 999;
                Upcoming.isCurrent := false |};
             {| Upcoming.person := Some "C";
                Upcoming.rotationNumber := Num 3;
                Upcoming.periodStart := Date.ymd 2024 0 29;
                Upcoming.periodEnd := Date.ymd_hms 2024 1 11 23 59 59 999;
                Upcoming.isCurrent := false |} ].
Proof. vm_compute. reflexivity. Qed.

(** ** Arguments outside the contract *)

(** The claim C6 fails: with an empty list of participants both helpers
    end normally, and so does the forecast with a negative count. *)
Lemma empty_people_signal_no_error :
  ~ signals_error (getCurrentRotation (Num (utcMidnight 2024 0 1)) (Array [])
                                      (hostAt (utcMidnight 2024 0 1)))
  /\ ~ signals_error (getUpcomingRotations (Num (utcMidnight 2024 0 1)) (Array [])
                                           (Some 2) (hostAt (utcMidnight 2024 0 1)))
  /\ ~ signals_error (getUpcomingRotations (Num (utcMidnight 2024 0 1)) (Array abc)
                                           (Some (-1)) (hostAt (utcMidnight 2024 0 1))).
Proof.
  repeat split; intros [e He]; vm_compute in He; discriminate He.
Qed.

(** C6, amended.  Neither helper checks its arguments.  With an empty list
    the current rotation is returned with an [undefined] participant and
    the index [NaN], and the forecast is returned with its [max 0 count]
    entries, each with an [undefined] participant; with a negative count
    the forecast is the empty sequence, whatever [people] is. *)
Theorem no_argument_validation (startDate : Date.t) (count : option Z)
  (people : Value) (p : positive) (w : World) :
  (exists r, getCurrentRotation startDate (Array []) w = Normal r
             /\ currentPerson r = None /\ currentPersonIndex r = NaN)
  /\ (exists entries,
        getUpcomingRotations startDate (Array []) count w = Normal entries
        /\ Z.of_nat (List.length entries)
           = Z.max 0 (match count with Some c => c | None => 5 end)
        /\ Forall (fun e => Upcoming.person e = None) entries)
  /\ getUpcomingRotations startDate people (Some (Z.neg p)) w = Normal [].
Proof.
  split; [ | split].
  - eexists. split; [apply getCurrentRotation_Array | ].
    cbn [currentPerson currentPersonIndex List.length Z.of_nat].
    assert (Hnan : forall x, Op.rem x (Num 0) = NaN) by (intros [ | z]; reflexivity).
    rewrite Hnan. split; reflexivity.
  - destruct (getUpcomingRotations_Array startDate [] count w)
      as (entries & Hrun & Hlen & Hnth).
    cbv zeta in Hrun, Hlen, Hnth.
    exists entries. split; [exact Hrun | split; [lia | ]].
    apply Forall_forall. intros e Hin.
    apply In_nth_error in Hin as [k Hk]. apply Hnth in Hk.
    rewrite upcomingEntry_Array in Hk. cbv zeta in Hk.
    injection Hk as <-. cbn [Upcoming.person List.length Z.of_nat].
    assert (Hnan : forall x, Op.rem x (Num 0) = NaN) by (intros [ | z]; reflexivity).
    rewrite Hnan. reflexivity.
  - unfold getUpcomingRotations, bind, newDate, liftC.
    apply upcomingLoop_done. lia.
Qed.

(** An error arises only when [people] is not an array and one of its
    properties is read. *)
Lemma undefined_people_throws (startDate : Date.t) (w : World) :
  getCurrentRotation startDate Undefined w = Throw TypeError
  /\ getUpcomingRotations startDate Undefined (Some 1) w = Throw TypeError.
Proof. split; reflexivity. Qed.

(** ** The clock *)

(** The claim C9 fails: the instant is not an argument.  Called twice with
    the same anchor and the same participants, on 2024-01-01 and on
    2024-01-15, each helper gives two different results. *)
Lemma clock_is_read_internally :
  getCurrentRotation (Num (utcMidnight 2024 0 1)) (Array abc)
                     (hostAt (utcMidnight 2024 0 1))
  <> getCurrentRotation (Num (utcMidnight 2024 0 1)) (Array abc)
                        (hostAt (utcMidnight 2024 0 15))
  /\ getUpcomingRotations (Num (utcMidnight 2024 0 1)) (Array abc) None
                          (hostAt (utcMidnight 2024 0 1))
     <> getUpcomingRotations (Num (utcMidnight 2024 0 1)) (Array abc) None
                             (hostAt (utcMidnight 2024 0 15)).
Proof.
  split; intros H; vm_compute in H; discriminate H.
Qed.

(** C9, amended.  Each helper is a function of its arguments and of the
    instant [new Date()] reads inside it, and of nothing else of the host:
    two calls with the same arguments that read the same instant give the
    same result. *)
Theorem determined_by_clock_reading (startDate : Date.t) (people : Value)
  (count : option Z) (w1 w2 : World) :
  wallClock w1 = wallClock w2 ->
  getCurrentRotation startDate people w1 = getCurrentRotation startDate people w2
  /\ getUpcomingRotations startDate people count w1
     = getUpcomingRotations startDate people count w2.
Proof.
  intros Hclock.
  unfold getCurrentRotation, getUpcomingRotations, bind, newDate, liftC, ret.
  rewrite Hclock. split; reflexivity.
Qed.

Lemma determined_by_clock_reading_witness :
  wallClock sampleWorld = wallClock (mkWorld (wallClock sampleWorld) 120)
  /\ getCurrentRotation sampleStart (Array abc) sampleWorld
     = getCurrentRotation sampleStart (Array abc) (mkWorld (wallClock sampleWorld) 120)
  /\ getUpcomingRotations sampleStart (Array abc) None sampleWorld
     = getUpcomingRotations sampleStart (Array abc) None
                            (mkWorld (wallClock sampleWorld) 120).
Proof.
  exact (conj eq_refl
           (determined_by_clock_reading sampleStart (Array abc) None sampleWorld
              (mkWorld (wallClock sampleWorld) 120) eq_refl)).
Defined.

End Claims.


(** * Further properties of the helpers *)

(** ** Adding days *)

Section AddingDays.

Import Time TimeFacts.

(** X1.  [addDays] moves a date by exactly [days] calendar days, across the ends
    of months and years, and keeps its time of day. *)
Theorem addDays_shifts_day (tv k r : Z) :
  addDays (Num tv) (Num k) = Num r ->
  r = tv + k * msPerDay
  /\ Day r = Day tv + k
  /\ TimeWithinDay r = TimeWithinDay tv
  /\ WeekDay r = (WeekDay tv + k) mod 7.
Proof.
  intros H. rewrite addDays_Num in H. apply TimeClip_inv in H as [<- _].
  assert (HD : Day (tv + k * msPerDay) = Day tv + k).
  { unfold Day. apply Z.div_add. unfold msPerDay. lia. }
  split; [reflexivity | split; [exact HD | split]].
  - unfold TimeWithinDay. apply Z.mod_add. unfold msPerDay. lia.
  - unfold WeekDay. rewrite HD.
    rewrite Z.add_mod_idemp_l by lia. f_equal. lia.
Qed.

Lemma addDays_shifts_day_witness :
  addDays (Num (utcInstant 2023 11 25 12 0 0 0)) (Num 14)
  = Num (utcInstant 2024 0 8 12 0 0 0)
  /\ utcInstant 2024 0 8 12 0 0 0 = utcInstant 2023 11 25 12 0 0 0 + 14 * msPerDay
  /\ Day (utcInstant 2024 0 8 12 0 0 0) = Day (utcInstant 2023 11 25 12 0 0 0) + 14
  /\ TimeWithinDay (utcInstant 2024 0 8 12 0 0 0)
     = TimeWithinDay (utcInstant 2023 11 25 12 0 0 0)
  /\ WeekDay (utcInstant 2024 0 8 12 0 0 0)
     = (WeekDay (utcInstant 2023 11 25 12 0 0 0) + 14) mod 7.
Proof.
  assert (H : addDays (Num (utcInstant 2023 11 25 12 0 0 0)) (Num 14)
              = Num (utcInstant 2024 0 8 12 0 0 0)) by (vm_compute; reflexivity).
  exact (conj H (addDays_shifts_day _ 14 _ H)).
Defined.

(** X2.  Two calls of [addDays] in a row add up. *)
Theorem addDays_twice (tv a b t1 : Z) :
  addDays (Num tv) (Num a) = Num t1 ->
  addDays (addDays (Num tv) (Num a)) (Num b) = addDays (Num tv) (Num (a + b)).
Proof.
  intros H. rewrite H. rewrite addDays_Num in H. apply TimeClip_inv in H as [<- _].
  rewrite !addDays_Num. f_equal. lia.
Qed.

Lemma addDays_twice_witness :
  addDays (Num (utcMidnight 2024 0 1)) (Num 14) = Num (utcMidnight 2024 0 15)
  /\ addDays (addDays (Num (utcMidnight 2024 0 1)) (Num 14)) (Num 13)
     = addDays (Num (utcMidnight 2024 0 1)) (Num (14 + 13)).
Proof.
  assert (H : addDays (Num (utcMidnight 2024 0 1)) (Num 14) = Num (utcMidnight 2024 0 15))
    by (vm_compute; reflexivity).
  exact (conj H (addDays_twice _ 14 13 _ H)).
Defined.

(** X3.  Going [k] days forth and [k] days back returns the date one started
    from. *)
Theorem addDays_back_and_forth (tv k r : Z) :
  Z.abs tv <= maxTime ->
  addDays (Num tv) (Num k) = Num r ->
  addDays (Num r) (Num (- k)) = Num tv.
Proof.
  intros Htv H. rewrite addDays_Num in H. apply TimeClip_inv in H as [<- _].
  rewrite addDays_Num.
  replace (tv + k * msPerDay + - k * msPerDay) with tv by lia.
  apply TimeClip_valid. exact Htv.
Qed.

Lemma addDays_back_and_forth_witness :
  Z.abs (utcInstant 2024 1 20 8 30 0 0) <= maxTime
  /\ addDays (Num (utcInstant 2024 1 20 8 30 0 0)) (Num 14)
     = Num (utcInstant 2024 2 5 8 30 0 0)
  /\ addDays (Num (utcInstant 2024 2 5 8 30 0 0)) (Num (- 14))
     = Num (utcInstant 2024 1 20 8 30 0 0).
Proof.
  assert (Htv : Z.abs (utcInstant 2024 1 20 8 30 0 0) <= maxTime)
    by (vm_compute; discriminate).
  assert (H : addDays (Num (utcInstant 2024 1 20 8 30 0 0)) (Num 14)
              = Num (utcInstant 2024 2 5 8 30 0 0)) by (vm_compute; reflexivity).
  exact (conj Htv (conj H (addDays_back_and_forth _ 14 _ Htv H))).
Defined.

(** An invalid date stays invalid, and so does a date moved by [NaN] days
    or out of the range of time values. *)
Lemma addDays_invalid (tv k : Z) :
  addDays NaN (Num k) = NaN
  /\ addDays (Num tv) NaN = NaN
  /\ (maxTime < Z.abs (tv + k * msPerDay) -> addDays (Num tv) (Num k) = NaN).
Proof.
  split; [reflexivity | split; [reflexivity | ]].
  intros H. rewrite addDays_Num. unfold TimeClip.
  destruct (Z.ltb_spec maxTime (Z.abs (tv + k * msPerDay))); [reflexivity | lia].
Qed.

End AddingDays.

(** ** The week of a date *)

Section Weeks.

Import Time TimeFacts.

Lemma monday_of_week_member (tv tv' m : Z) :
  ~ (0 <= YearFromTime tv <= 99) ->
  ~ (0 <= YearFromTime tv' <= 99) ->
  getMondayOfWeek (Num tv) = Num m ->
  m <= tv' < m + 7 * msPerDay ->
  getMondayOfWeek (Num tv') = Num m.
Proof.
  intros Hy Hy' Hm Hin.
  destruct (getMondayOfWeek_correct tv m Hy Hm) as (Hmon & Hmid & _ & _ & _).
  pose proof Hm as Hvalid. rewrite (getMondayOfWeek_Num tv Hy) in Hvalid.
  apply TimeClip_inv in Hvalid as [_ Hvalid].
  rewrite (getMondayOfWeek_Num tv' Hy').
  pose proof (midnight_multiple m Hmid) as Hmul.
  assert (Hday : Day m <= Day tv' <= Day m + 6).
  { unfold Day in *. unfold msPerDay in *. Z.div_mod_to_equations. lia. }
  assert (Hk : (WeekDay tv' + 6) mod 7 = Day tv' - Day m).
  { unfold WeekDay in *. Z.div_mod_to_equations. lia. }
  rewrite Hk.
  replace (Day tv' - (Day tv' - Day m)) with (Day m) by lia.
  rewrite <- Hmul. apply TimeClip_valid. exact Hvalid.
Qed.

(** X4.  Every date of the seven days that start at the Monday of [tv] has that
    same Monday: [getMondayOfWeek] depends on the week only, and a Monday
    at midnight is its own Monday.  (Dates of the years 0 to 99 apart.) *)
Theorem getMondayOfWeek_same_week (tv tv' m : Z) :
  ~ (0 <= YearFromTime tv <= 99) ->
  ~ (0 <= YearFromTime tv' <= 99) ->
  getMondayOfWeek (Num tv) = Num m ->
  m <= tv' < m + 7 * msPerDay ->
  getMondayOfWeek (Num tv') = Num m.
Proof. exact (monday_of_week_member tv tv' m). Qed.

Lemma getMondayOfWeek_same_week_witness :
  ~ (0 <= YearFromTime (utcInstant 2024 0 7 18 0 0 0) <= 99)
  /\ ~ (0 <= YearFromTime (utcInstant 2024 0 3 9 15 0 0) <= 99)
  /\ getMondayOfWeek (Num (utcInstant 2024 0 7 18 0 0 0)) = Num (utcMidnight 2024 0 1)
  /\ utcMidnight 2024 0 1 <= utcInstant 2024 0 3 9 15 0 0
     < utcMidnight 2024 0 1 + 7 * msPerDay
  /\ getMondayOfWeek (Num (utcInstant 2024 0 3 9 15 0 0)) = Num (utcMidnight 2024 0 1).
Proof.
  assert (Hy : ~ (0 <= YearFromTime (utcInstant 2024 0 7 18 0 0 0) <= 99))
    by (intros [_ H]; vm_compute in H; apply H; reflexivity).
  assert (Hy' : ~ (0 <= YearFromTime (utcInstant 2024 0 3 9 15 0 0) <= 99))
    by (intros [_ H]; vm_compute in H; apply H; reflexivity).
  assert (Hm : getMondayOfWeek (Num (utcInstant 2024 0 7 18 0 0 0))
               = Num (utcMidnight 2024 0 1)) by (vm_compute; reflexivity).
  assert (Hin : utcMidnight 2024 0 1 <= utcInstant 2024 0 3 9 15 0 0
                < utcMidnight 2024 0 1 + 7 * msPerDay)
    by (split; [vm_compute; discriminate | vm_compute; reflexivity]).
  exact (conj Hy (conj Hy' (conj Hm (conj Hin
           (getMondayOfWeek_same_week _ _ _ Hy Hy' Hm Hin))))).
Defined.

(** X5.  The schedule depends on the anchor only through its week: two anchors
    of one week give the same current rotation and the same forecast. *)
Theorem schedule_same_for_anchors_of_one_week (tv tv' m : Z) (people : Value)
  (count : option Z) (w : World) :
  ~ (0 <= YearFromTime tv <= 99) ->
  ~ (0 <= YearFromTime tv' <= 99) ->
  getMondayOfWeek (Num tv) = Num m ->
  m <= tv' < m + 7 * msPerDay ->
  getCurrentRotation (Num tv') people w = getCurrentRotation (Num tv) people w
  /\ getUpcomingRotations (Num tv') people count w
     = getUpcomingRotations (Num tv) people count w.
Proof.
  intros Hy Hy' Hm Hin.
  pose proof (monday_of_week_member tv tv' m Hy Hy' Hm Hin) as Hm'.
  unfold getCurrentRotation, getUpcomingRotations, bind, newDate, liftC, ret, Date.copy.
  rewrite Hm, Hm'. split; reflexivity.
Qed.

Lemma schedule_same_for_anchors_of_one_week_witness :
  ~ (0 <= YearFromTime (utcInstant 2024 0 7 18 0 0 0) <= 99)
  /\ ~ (0 <= YearFromTime (utcInstant 2024 0 3 9 15 0 0) <= 99)
  /\ getMondayOfWeek (Num (utcInstant 2024 0 7 18 0 0 0)) = Num (utcMidnight 2024 0 1)
  /\ utcMidnight 2024 0 1 <= utcInstant 2024 0 3 9 15 0 0
     < utcMidnight 2024 0 1 + 7 * msPerDay
  /\ getCurrentRotation (Num (utcInstant 2024 0 3 9 15 0 0)) (Array abc) sampleWorld
     = getCurrentRotation (Num (utcInstant 2024 0 7 18 0 0 0)) (Array abc) sampleWorld
  /\ getUpcomingRotations (Num (utcInstant 2024 0 3 9 15 0 0)) (Array abc) None sampleWorld
     = getUpcomingRotations (Num (utcInstant 2024 0 7 18 0 0 0)) (Array abc) None
                            sampleWorld.
Proof.
  assert (Hy : ~ (0 <= YearFromTime (utcInstant 2024 0 7 18 0 0 0) <= 99))
    by (intros [_ H]; vm_compute in H; apply H; reflexivity).
  assert (Hy' : ~ (0 <= YearFromTime (utcInstant 2024 0 3 9 15 0 0) <= 99))
    by (intros [_ H]; vm_compute in H; apply H; reflexivity).
  assert (Hm : getMondayOfWeek (Num (utcInstant 2024 0 7 18 0 0 0))
               = Num (utcMidnight 2024 0 1)) by (vm_compute; reflexivity).
  assert (Hin : utcMidnight 2024 0 1 <= utcInstant 2024 0 3 9 15 0 0
                < utcMidnight 2024 0 1 + 7 * msPerDay)
    by (split; [vm_compute; discriminate | vm_compute; reflexivity]).
  exact (conj Hy (conj Hy' (conj Hm (conj Hin
           (schedule_same_for_anchors_of_one_week _ _ _ (Array abc) None sampleWorld
              Hy Hy' Hm Hin))))).
Defined.

End Weeks.

(** ** The current rotation, period by period *)

Section Periods.

Import Time TimeFacts.

Lemma periodEnd_eval (s : Z) :
  TimeWithinDay s = 0 ->
  - maxTime <= s -> s + 14 * msPerDay - 1 <= maxTime ->
  Date.setUTCHours (addDays (Num s) (Num 13)) 23 59 59 999
  = Num (s + 14 * msPerDay - 1).
Proof.
  intros Hmid Hlo Hhi.
  rewrite addDays_Num, TimeClip_valid by (unfold msPerDay, maxTime in *; lia).
  cbn [Date.setUTCHours].
  assert (HD : Day (s + 13 * msPerDay) = Day s + 13).
  { unfold Day. apply Z.div_add. unfold msPerDay. lia. }
  rewrite HD. unfold MakeDate.
  rewrite Z.mul_add_distr_r, <- (midnight_multiple s Hmid).
  replace (s + 13 * msPerDay + MakeTime 23 59 59 999) with (s + 14 * msPerDay - 1)
    by (unfold MakeTime, msPerHour, msPerMinute, msPerSecond, msPerDay; lia).
  apply TimeClip_valid. unfold msPerDay, maxTime in *. lia.
Qed.

(** The end of a period is a date only if its start is one, and then it is
    the last millisecond of the fourteen days. *)
Lemma periodEnd_inv (s e : Z) :
  TimeWithinDay s = 0 ->
  Date.setUTCHours (addDays (TimeClip s) (Num 13)) 23 59 59 999 = Num e ->
  TimeClip s = Num s /\ e = s + 14 * msPerDay - 1
  /\ - maxTime <= s /\ e <= maxTime.
Proof.
  intros Hmid H.
  unfold TimeClip at 1 in H.
  destruct (Z.ltb_spec maxTime (Z.abs s)) as [Hbad | Hok]; [discriminate | ].
  rewrite addDays_Num in H.
  unfold TimeClip at 1 in H.
  destruct (Z.ltb_spec maxTime (Z.abs (s + 13 * msPerDay))) as [Hbad | Hok13];
    [discriminate | ].
  cbn [Date.setUTCHours] in H. apply TimeClip_inv in H as [He Hv].
  assert (HD : Day (s + 13 * msPerDay) = Day s + 13).
  { unfold Day. apply Z.div_add. unfold msPerDay. lia. }
  rewrite HD in He. unfold MakeDate in He.
  rewrite Z.mul_add_distr_r, <- (midnight_multiple s Hmid) in He.
  assert (Hee : e = s + 14 * msPerDay - 1)
    by (unfold MakeTime, msPerHour, msPerMinute, msPerSecond, msPerDay in *; lia).
  split; [apply TimeClip_valid; exact Hok | ].
  split; [exact Hee | ]. lia.
Qed.

Lemma period_start_midnight (m n : Z) :
  TimeWithinDay m = 0 -> TimeWithinDay (m + n * 14 * msPerDay) = 0.
Proof.
  intros Hmid. unfold TimeWithinDay in *.
  replace (n * 14 * msPerDay) with ((n * 14) * msPerDay) by lia.
  rewrite Z.mod_add by (unfold msPerDay; lia). exact Hmid.
Qed.

(** The index of the period that contains an instant. *)
Lemma period_index_unique (m now n : Z) :
  m + n * 14 * msPerDay <= now < m + n * 14 * msPerDay + 14 * msPerDay ->
  (now - m) / msPerDay / 14 = n.
Proof.
  intros H. unfold msPerDay in *. Z.div_mod_to_equations. lia.
Qed.

(** The index that the code computes, from the rounded difference, for an
    instant of period [n]: it is [n] before the last millisecond of the
    period, and at the last millisecond when the difference is exact. *)
Lemma rounded_index_within (m now n : Z) :
  Z.abs (now - m) < 2 ^ 54 ->
  m + n * 14 * msPerDay <= now <= m + n * 14 * msPerDay + 14 * msPerDay - 1 ->
  now < m + n * 14 * msPerDay + 14 * msPerDay - 1 \/ exactDifference m now ->
  roundDouble (now - m) / msPerDay / 14 = n.
Proof.
  intros Hx Hin [Hlt | Hex].
  - destruct (roundDouble_near (now - m) Hx) as (Hnear & Heven & _).
    replace (roundDouble (now - m)) with (roundDouble (now - m) + m - m) by lia.
    apply period_index_unique.
    destruct (Z.eq_dec (roundDouble (now - m)) (now - m)) as [E | E]; [lia | ].
    specialize (Heven E). apply Z.even_spec in Heven as [c Hc].
    unfold msPerDay in *. lia.
  - rewrite (roundDouble_exact _ Hex). apply period_index_unique. lia.
Qed.

(** The current rotation at an instant of period [n] for which the code
    computes the index [n], when the bounds of that period are dates. *)
Lemma getCurrentRotation_within (startDate : Date.t) (items : list string)
  (w : World) (m n : Z) :
  getMondayOfWeek startDate = Num m ->
  - maxTime <= m + n * 14 * msPerDay ->
  m + n * 14 * msPerDay + 14 * msPerDay - 1 <= maxTime ->
  m + n * 14 * msPerDay <= wallClock w < m + n * 14 * msPerDay + 14 * msPerDay ->
  roundDouble (wallClock w - m) / msPerDay / 14 = n ->
  getCurrentRotation startDate (Array items) w =
  Normal {| currentPerson :=
              element items (Op.rem (Num n) (Num (Z.of_nat (List.length items))));
            currentPersonIndex := Op.rem (Num n) (Num (Z.of_nat (List.length items)));
            rotationNumber := Num (n + 1);
            periodStart := Num (m + n * 14 * msPerDay);
            periodEnd := Num (m + n * 14 * msPerDay + 14 * msPerDay - 1);
            weeksSinceStart := Num (roundDouble (wallClock w - m) / msPerDay / 7);
            daysSinceStart := Num (roundDouble (wallClock w - m) / msPerDay);
            isActive := true |}.
Proof.
  intros Hm Hlo Hhi Hin Hn.
  pose proof (getMondayOfWeek_midnight _ _ Hm) as Hmid.
  pose proof (period_start_midnight m n Hmid) as Hsmid.
  rewrite getCurrentRotation_Array. cbv zeta. rewrite Hm, Op_sub_Num.
  cbn [Op.add Op.mul Op.lift2 Op.floor_div]. rewrite Hn.
  rewrite addDays_Num, TimeClip_valid by (unfold msPerDay, maxTime in *; lia).
  rewrite (periodEnd_eval _ Hsmid Hlo Hhi).
  do 2 f_equal.
  unfold Op.ge, Op.le. apply andb_true_intro. split; apply Z.leb_le; lia.
Qed.

(** What the dates of a current rotation say about the clock it was
    computed at. *)
Lemma getCurrentRotation_dates_inv (startDate : Date.t) (items : list string)
  (w : World) (m s e : Z) (r : CurrentRotation) :
  getMondayOfWeek startDate = Num m ->
  getCurrentRotation startDate (Array items) w = Normal r ->
  periodStart r = Num s -> periodEnd r = Num e ->
  let n := roundDouble (wallClock w - m) / msPerDay / 14 in
  s = m + n * 14 * msPerDay /\ e = s + 14 * msPerDay - 1
  /\ - maxTime <= s /\ e <= maxTime
  /\ rotationNumber r = Num (n + 1)
  /\ currentPersonIndex r = Op.rem (Num n) (Num (Z.of_nat (List.length items)))
  /\ currentPerson r
     = element items (Op.rem (Num n) (Num (Z.of_nat (List.length items)))).
Proof.
  intros Hm Hrun Hs He n.
  pose proof (getMondayOfWeek_midnight _ _ Hm) as Hmid.
  rewrite getCurrentRotation_Array in Hrun. cbv zeta in Hrun.
  rewrite Hm, Op_sub_Num in Hrun.
  cbn [Op.add Op.mul Op.lift2 Op.floor_div] in Hrun. fold n in Hrun.
  rewrite addDays_Num in Hrun.
  injection Hrun as <-. cbn [periodStart periodEnd rotationNumber currentPersonIndex
                               currentPerson] in *.
  pose proof (period_start_midnight m n Hmid) as Hsmid.
  destruct (periodEnd_inv _ _ Hsmid He) as (Hv & Hee & Hlo & Hhi).
  rewrite Hv in Hs. injection Hs as <-.
  repeat split; try reflexivity; assumption.
Qed.

(** X6.  Every instant of the current period gives the same assignment: the
    participant, the rotation number and the bounds of the period do not
    change between [periodStart] and [periodEnd], the last millisecond of
    the period being included when its distance from the anchor Monday is
    at most 2^53 milliseconds, so that the difference is not rounded. *)
Theorem rotation_constant_within_period (startDate : Date.t) (items : list string)
  (w1 w2 : World) (m s e : Z) (r1 : CurrentRotation) :
  getMondayOfWeek startDate = Num m ->
  getCurrentRotation startDate (Array items) w1 = Normal r1 ->
  periodStart r1 = Num s -> periodEnd r1 = Num e ->
  s <= wallClock w2 <= e ->
  wallClock w2 < e \/ exactDifference m (wallClock w2) ->
  exists r2,
    getCurrentRotation startDate (Array items) w2 = Normal r2
    /\ currentPerson r2 = currentPerson r1
    /\ currentPersonIndex r2 = currentPersonIndex r1
    /\ rotationNumber r2 = rotationNumber r1
    /\ periodStart r2 = periodStart r1
    /\ periodEnd r2 = periodEnd r1
    /\ isActive r2 = true.
Proof.
  intros Hm Hrun Hs He Hin Hex.
  destruct (getCurrentRotation_dates_inv _ _ _ _ _ _ _ Hm Hrun Hs He)
    as (Hsv & Hev & Hlo & Hhi & Hn & Hi & Hp).
  set (n := roundDouble (wallClock w1 - m) / msPerDay / 14) in *.
  pose proof (anchor_in_range _ _ Hm) as Hmr.
  assert (Hx : Z.abs (wallClock w2 - m) < 2 ^ 54)
    by (apply difference_below_2_54; [unfold msPerDay, maxTime in *; lia | exact Hmr]).
  assert (Hn2 : roundDouble (wallClock w2 - m) / msPerDay / 14 = n).
  { apply rounded_index_within; [exact Hx | lia | ].
    destruct Hex as [Hlt | Hex]; [left; lia | right; exact Hex]. }
  eexists. split.
  - apply (getCurrentRotation_within startDate items w2 m n Hm); [lia | lia | lia | exact Hn2].
  - cbn [currentPerson currentPersonIndex rotationNumber periodStart periodEnd isActive].
    rewrite Hp, Hi, Hn, Hs, He. subst s e.
    repeat split; reflexivity.
Qed.

Lemma sample_rotation :
  getCurrentRotation sampleStart (Array abc) sampleWorld = Normal sampleRotation.
Proof. vm_compute. reflexivity. Defined.

Lemma rotation_constant_within_period_witness :
  getMondayOfWeek sampleStart = Num sampleMonday
  /\ getCurrentRotation sampleStart (Array abc) sampleWorld = Normal sampleRotation
  /\ periodStart sampleRotation = Num (utcMidnight 2024 0 15)
  /\ periodEnd sampleRotation = Num (utcInstant 2024 0 28 23 59 59 999)
  /\ utcMidnight 2024 0 15 <= wallClock (hostAt (utcInstant 2024 0 28 23 59 59 999))
     <= utcInstant 2024 0 28 23 59 59 999
  /\ (wallClock (hostAt (utcInstant 2024 0 28 23 59 59 999))
      < utcInstant 2024 0 28 23 59 59 999
      \/ exactDifference sampleMonday
           (wallClock (hostAt (utcInstant 2024 0 28 23 59 59 999))))
  /\ exists r2,
      getCurrentRotation sampleStart (Array abc)
                         (hostAt (utcInstant 2024 0 28 23 59 59 999)) = Normal r2
      /\ currentPerson r2 = currentPerson sampleRotation
      /\ currentPersonIndex r2 = currentPersonIndex sampleRotation
      /\ rotationNumber r2 = rotationNumber sampleRotation
      /\ periodStart r2 = periodStart sampleRotation
      /\ periodEnd r2 = periodEnd sampleRotation
      /\ isActive r2 = true.
Proof.
  assert (Hin : utcMidnight 2024 0 15
                <= wallClock (hostAt (utcInstant 2024 0 28 23 59 59 999))
                <= utcInstant 2024 0 28 23 59 59 999)
    by (split; vm_compute; discriminate).
  assert (Hex : wallClock (hostAt (utcInstant 2024 0 28 23 59 59 999))
                < utcInstant 2024 0 28 23 59 59 999
                \/ exactDifference sampleMonday
                     (wallClock (hostAt (utcInstant 2024 0 28 23 59 59 999))))
    by (right; unfold exactDifference; vm_compute; discriminate).
  exact (conj sample_anchor (conj sample_rotation (conj eq_refl (conj eq_refl (conj Hin
          (conj Hex
           (rotation_constant_within_period sampleStart abc sampleWorld
              (hostAt (utcInstant 2024 0 28 23 59 59 999)) sampleMonday _ _
              sampleRotation
              sample_anchor sample_rotation eq_refl eq_refl Hin Hex))))))).
Defined.

(** X7.  One millisecond after [periodEnd] the next period has begun: the
    rotation number is one more, the new period starts at that instant, and
    the participant index is the old rotation number [%] the number of
    participants. *)
Theorem rotation_hands_over_after_periodEnd (startDate : Date.t)
  (items : list string) (w1 w2 : World) (m e : Z) (r1 : CurrentRotation) :
  getMondayOfWeek startDate = Num m ->
  getCurrentRotation startDate (Array items) w1 = Normal r1 ->
  periodEnd r1 = Num e ->
  wallClock w2 = e + 1 ->
  inRange (wallClock w2) ->
  exists r2,
    getCurrentRotation startDate (Array items) w2 = Normal r2
    /\ rotationNumber r2 = Op.add (rotationNumber r1) (Num 1)
    /\ periodStart r2 = Num (e + 1)
    /\ periodEnd r2 = Num (e + 14 * msPerDay)
    /\ currentPersonIndex r2
       = Op.rem (rotationNumber r1) (Num (Z.of_nat (List.length items))).
Proof.
  intros Hm Hrun He Hw2 Hr.
  pose proof (getMondayOfWeek_midnight _ _ Hm) as Hmid.
  assert (Hs : exists s, periodStart r1 = Num s).
  { pose proof Hrun as Hrun'. rewrite getCurrentRotation_Array in Hrun'.
    cbv zeta in Hrun'. rewrite Hm, Op_sub_Num in Hrun'.
    cbn [Op.add Op.mul Op.lift2 Op.floor_div] in Hrun'.
    rewrite addDays_Num in Hrun'. injection Hrun' as <-.
    cbn [periodStart periodEnd] in *.
    destruct (periodEnd_inv _ _ (period_start_midnight m _ Hmid) He) as (Hv & _).
    eexists. exact Hv. }
  destruct Hs as [s Hs].
  destruct (getCurrentRotation_dates_inv _ _ _ _ _ _ _ Hm Hrun Hs He)
    as (Hsv & Hev & Hlo & Hhi & Hn & _ & _).
  set (n := roundDouble (wallClock w1 - m) / msPerDay / 14) in *.
  assert (Hw2' : wallClock w2 = m + 14 * (n + 1) * msPerDay) by lia.
  destruct (period_start_exact m (wallClock w2) (n + 1)
              (inRange_time_value _ Hr) (anchor_in_range _ _ Hm) Hw2')
    as (_ & Hn2).
  unfold inRange in Hr.
  eexists. split.
  - apply (getCurrentRotation_within startDate items w2 m (n + 1) Hm);
      [unfold msPerDay, maxTime in *; lia .. | exact Hn2].
  - cbn [currentPersonIndex rotationNumber periodStart periodEnd].
    rewrite Hn. cbn [Op.add Op.lift2].
    split; [reflexivity | ].
    split; [f_equal; unfold msPerDay in *; lia | ].
    split; [f_equal; unfold msPerDay in *; lia | reflexivity].
Qed.

Lemma rotation_hands_over_after_periodEnd_witness :
  getMondayOfWeek sampleStart = Num sampleMonday
  /\ getCurrentRotation sampleStart (Array abc) sampleWorld = Normal sampleRotation
  /\ periodEnd sampleRotation = Num (utcInstant 2024 0 28 23 59 59 999)
  /\ wallClock (hostAt (utcMidnight 2024 0 29)) = utcInstant 2024 0 28 23 59 59 999 + 1
  /\ inRange (wallClock (hostAt (utcMidnight 2024 0 29)))
  /\ exists r2,
      getCurrentRotation sampleStart (Array abc) (hostAt (utcMidnight 2024 0 29))
      = Normal r2
      /\ rotationNumber r2 = Op.add (rotationNumber sampleRotation) (Num 1)
      /\ periodStart r2 = Num (utcInstant 2024 0 28 23 59 59 999 + 1)
      /\ periodEnd r2 = Num (utcInstant 2024 0 28 23 59 59 999 + 14 * msPerDay)
      /\ currentPersonIndex r2
         = Op.rem (rotationNumber sampleRotation) (Num (Z.of_nat (List.length abc))).
Proof.
  assert (Hw : wallClock (hostAt (utcMidnight 2024 0 29))
               = utcInstant 2024 0 28 23 59 59 999 + 1) by (vm_compute; reflexivity).
  assert (Hr : inRange (wallClock (hostAt (utcMidnight 2024 0 29))))
    by (unfold inRange; vm_compute; discriminate).
  exact (conj sample_anchor (conj sample_rotation (conj eq_refl (conj Hw (conj Hr
           (rotation_hands_over_after_periodEnd sampleStart abc sampleWorld
              (hostAt (utcMidnight 2024 0 29)) sampleMonday _ sampleRotation
              sample_anchor sample_rotation eq_refl Hw Hr)))))).
Defined.

(** X8.  [daysSinceStart] counts whole UTC calendar days from the anchor
    Monday, whatever the time of day, when the clock is at most 2^53
    milliseconds from the anchor Monday, so that their difference is not
    rounded; [weeksSinceStart] counts whole weeks, a rotation lasts two of
    them, and the day of the period is from 0 to 13. *)
Theorem daysSinceStart_counts_calendar_days (startDate : Date.t)
  (items : list string) (w : World) (m : Z) :
  getMondayOfWeek startDate = Num m ->
  exactDifference m (wallClock w) ->
  exists r d k,
    getCurrentRotation startDate (Array items) w = Normal r
    /\ daysSinceStart r = Num d
    /\ d = Day (wallClock w) - Day m
    /\ weeksSinceStart r = Num k
    /\ k = d / 7
    /\ rotationNumber r = Num (k / 2 + 1)
    /\ 0 <= d - 14 * (k / 2) <= 13.
Proof.
  intros Hm Hex.
  pose proof (getMondayOfWeek_midnight _ _ Hm) as Hmid.
  pose proof (midnight_multiple m Hmid) as Hmul.
  assert (Hd : (wallClock w - m) / msPerDay = Day (wallClock w) - Day m).
  { rewrite Hmul at 1. unfold Day.
    replace (wallClock w - m / msPerDay * msPerDay)
      with (wallClock w + (- (m / msPerDay)) * msPerDay) by lia.
    rewrite Z.div_add by (unfold msPerDay; lia). lia. }
  do 3 eexists. split; [apply getCurrentRotation_Array | ].
  cbn [daysSinceStart weeksSinceStart rotationNumber].
  rewrite Hm, Op_sub_Num, (roundDouble_exact _ Hex).
  cbn [Op.add Op.lift2 Op.floor_div]. rewrite Hd.
  split; [reflexivity | ]. split; [reflexivity | ].
  split; [reflexivity | ]. split; [reflexivity | ].
  split; [f_equal; Z.div_mod_to_equations; lia | Z.div_mod_to_equations; lia].
Qed.

Lemma daysSinceStart_counts_calendar_days_witness :
  getMondayOfWeek sampleStart = Num sampleMonday
  /\ exactDifference sampleMonday (wallClock sampleWorld)
  /\ exists r d k,
      getCurrentRotation sampleStart (Array abc) sampleWorld = Normal r
      /\ daysSinceStart r = Num d
      /\ d = Day (wallClock sampleWorld) - Day sampleMonday
      /\ weeksSinceStart r = Num k
      /\ k = d / 7
      /\ rotationNumber r = Num (k / 2 + 1)
      /\ 0 <= d - 14 * (k / 2) <= 13.
Proof.
  exact (conj sample_anchor
           (conj sample_exactDifference
              (daysSinceStart_counts_calendar_days sampleStart abc sampleWorld
                 sampleMonday sample_anchor sample_exactDifference))).
Defined.

End Periods.

(** ** Who is selected *)

Section Participants.

Import Time TimeFacts.

Lemma period_index_nonneg (m now : Z) :
  m <= now -> 0 <= roundDouble (now - m) / msPerDay / 14.
Proof.
  intros H. destruct (roundDouble_sign (now - m)) as (Hpos & _ & Hz).
  assert (0 <= roundDouble (now - m)).
  { destruct (Z.eq_dec (now - m) 0) as [E | E]; [rewrite E; vm_compute; discriminate | ].
    assert (0 < now - m) by lia. specialize (Hpos ltac:(assumption)). lia. }
  apply Z.div_pos; [ | lia].
  apply Z.div_pos; [lia | unfold msPerDay; lia].
Qed.

Lemma period_index_negative (m now : Z) :
  now < m -> roundDouble (now - m) / msPerDay / 14 < 0.
Proof.
  intros H. destruct (roundDouble_sign (now - m)) as (_ & Hneg & _).
  assert (Hx : now - m < 0) by lia. specialize (Hneg Hx).
  unfold msPerDay. Z.div_mod_to_equations. lia.
Qed.

Lemma element_In (items : list string) (z : Z) (who : string) :
  element items (Num z) = Some who -> In who items.
Proof.
  unfold element. destruct (z <? 0); [discriminate | ].
  apply nth_error_In.
Qed.

(** X9.  From the anchor Monday on, with a list that is not empty, there is
    always a participant, it is a member of the list, and its index is the
    period index that the code computes (from the difference between the
    clock and the anchor Monday, rounded as a double), which is the
    rotation number minus one, modulo the length of the list. *)
Theorem currentPerson_defined_from_anchor (startDate : Date.t)
  (items : list string) (w : World) (m : Z) :
  getMondayOfWeek startDate = Num m ->
  items <> [] ->
  m <= wallClock w ->
  exists r who i n,
    getCurrentRotation startDate (Array items) w = Normal r
    /\ n = roundDouble (wallClock w - m) / msPerDay / 14
    /\ rotationNumber r = Num (n + 1)
    /\ 0 <= n
    /\ currentPersonIndex r = Num i
    /\ i = n mod Z.of_nat (List.length items)
    /\ 0 <= i < Z.of_nat (List.length items)
    /\ currentPerson r = Some who
    /\ nth_error items (Z.to_nat i) = Some who
    /\ In who items.
Proof.
  intros Hm Hne Hnow.
  pose proof (period_index_nonneg m (wallClock w) Hnow) as Hn.
  destruct (personIndex_nonneg items _ Hne Hn) as (Hrem & Hb & who & Hwho).
  cbv zeta in Hrem, Hb, Hwho.
  eexists. exists who. do 2 eexists. split; [apply getCurrentRotation_Array | ].
  cbn [currentPersonIndex currentPerson rotationNumber]. rewrite Hm, Op_sub_Num.
  cbn [Op.add Op.lift2 Op.floor_div]. rewrite Hrem.
  split; [reflexivity | ]. split; [reflexivity | ]. split; [exact Hn | ].
  split; [reflexivity | ]. split; [reflexivity | ]. split; [exact Hb | ].
  split; [exact Hwho | ].
  split; [ | exact (element_In _ _ _ Hwho)].
  unfold element in Hwho.
  destruct (Z.ltb_spec (roundDouble (wallClock w - m) / msPerDay / 14
                        mod Z.of_nat (List.length items)) 0); [lia | exact Hwho].
Qed.

Lemma currentPerson_defined_from_anchor_witness :
  getMondayOfWeek sampleStart = Num sampleMonday
  /\ abc <> []
  /\ sampleMonday <= wallClock sampleWorld
  /\ exists r who i n,
      getCurrentRotation sampleStart (Array abc) sampleWorld = Normal r
      /\ n = roundDouble (wallClock sampleWorld - sampleMonday) / msPerDay / 14
      /\ rotationNumber r = Num (n + 1)
      /\ 0 <= n
      /\ currentPersonIndex r = Num i
      /\ i = n mod Z.of_nat (List.length abc)
      /\ 0 <= i < Z.of_nat (List.length abc)
      /\ currentPerson r = Some who
      /\ nth_error abc (Z.to_nat i) = Some who
      /\ In who abc.
Proof.
  assert (Hne : abc <> []) by discriminate.
  assert (Hnow : sampleMonday <= wallClock sampleWorld) by (vm_compute; discriminate).
  exact (conj sample_anchor (conj Hne (conj Hnow
           (currentPerson_defined_from_anchor sampleStart abc sampleWorld sampleMonday
              sample_anchor Hne Hnow)))).
Defined.

(** X10.  Before the anchor Monday the period index that the code computes
    (from the difference between the clock and the anchor Monday, rounded
    as a double) is negative, and a participant is selected only in the
    periods whose index is a multiple of the number of participants: there
    it is the first of the list, and everywhere else the index is negative
    and the participant [undefined]. *)
Theorem currentPerson_before_anchor (startDate : Date.t)
  (items : list string) (w : World) (m : Z) :
  getMondayOfWeek startDate = Num m ->
  items <> [] ->
  wallClock w < m ->
  exists r n,
    getCurrentRotation startDate (Array items) w = Normal r
    /\ n = roundDouble (wallClock w - m) / msPerDay / 14
    /\ n < 0
    /\ rotationNumber r = Num (n + 1)
    /\ ((n mod Z.of_nat (List.length items) = 0
         /\ currentPersonIndex r = Num 0
         /\ currentPerson r = nth_error items 0)
        \/ (n mod Z.of_nat (List.length items) <> 0
            /\ currentPersonIndex r
               = Num (n mod Z.of_nat (List.length items) - Z.of_nat (List.length items))
            /\ currentPerson r = None)).
Proof.
  intros Hm Hne Hnow.
  pose proof (period_index_negative m (wallClock w) Hnow) as Hn.
  set (n := roundDouble (wallClock w - m) / msPerDay / 14) in *.
  set (len := Z.of_nat (List.length items)).
  assert (Hlen : 0 < len) by (unfold len; destruct items; [congruence | cbn; lia]).
  exists {| currentPerson := element items (Op.rem (Num n) (Num len));
            currentPersonIndex := Op.rem (Num n) (Num len);
            rotationNumber := Num (n + 1);
            periodStart := addDays (Num m) (Num (n * 14));
            periodEnd := Date.setUTCHours (addDays (addDays (Num m) (Num (n * 14))) (Num 13))
                                          23 59 59 999;
            weeksSinceStart := Num (roundDouble (wallClock w - m) / msPerDay / 7);
            daysSinceStart := Num (roundDouble (wallClock w - m) / msPerDay);
            isActive := Op.ge (Num (wallClock w)) (addDays (Num m) (Num (n * 14)))
                        && Op.le (Num (wallClock w))
                             (Date.setUTCHours
                                (addDays (addDays (Num m) (Num (n * 14))) (Num 13))
                                23 59 59 999) |}.
  exists n. split.
  { rewrite getCurrentRotation_Array. cbv zeta. rewrite Hm. reflexivity. }
  cbn [currentPersonIndex currentPerson rotationNumber].
  split; [reflexivity | ]. split; [exact Hn | ]. split; [reflexivity | ].
  destruct (Z.eq_dec (n mod len) 0) as [Hz | Hnz].
  - left. split; [exact Hz | ].
    assert (Hrem : Op.rem (Num n) (Num len) = Num 0).
    { unfold Op.rem. destruct (Z.eqb_spec len 0); [lia | ]. f_equal.
      apply Z.rem_divide; [lia | ]. apply Z.mod_divide; [lia | exact Hz]. }
    rewrite Hrem. split; reflexivity.
  - right. split; [exact Hnz | ].
    destruct (personIndex_negative items n Hne Hn Hnz) as (Hrem & _ & Hnone).
    fold len in Hrem, Hnone. rewrite Hnone, Hrem. split; reflexivity.
Qed.

Lemma currentPerson_before_anchor_witness :
  getMondayOfWeek sampleStart = Num sampleMonday
  /\ abc <> []
  /\ wallClock (hostAt (utcMidnight 2023 11 31)) < sampleMonday
  /\ exists r n,
      getCurrentRotation sampleStart (Array abc) (hostAt (utcMidnight 2023 11 31))
      = Normal r
      /\ n = roundDouble (wallClock (hostAt (utcMidnight 2023 11 31)) - sampleMonday)
             / msPerDay / 14
      /\ n < 0
      /\ rotationNumber r = Num (n + 1)
      /\ ((n mod Z.of_nat (List.length abc) = 0
           /\ currentPersonIndex r = Num 0
           /\ currentPerson r = nth_error abc 0)
          \/ (n mod Z.of_nat (List.length abc) <> 0
              /\ currentPersonIndex r
                 = Num (n mod Z.of_nat (List.length abc) - Z.of_nat (List.length abc))
              /\ currentPerson r = None)).
Proof.
  assert (Hne : abc <> []) by discriminate.
  assert (Hnow : wallClock (hostAt (utcMidnight 2023 11 31)) < sampleMonday)
    by (vm_compute; reflexivity).
  exact (conj sample_anchor (conj Hne (conj Hnow
           (currentPerson_before_anchor sampleStart abc (hostAt (utcMidnight 2023 11 31))
              sampleMonday sample_anchor Hne Hnow)))).
Defined.

End Participants.

(** ** The forecast, entry by entry *)

Section ForecastEntries.

Import Time TimeFacts.

(** The entry the loop builds at counter [i], when the bounds of its period
    are dates. *)
Lemma upcomingEntry_within (items : list string) (m n i : Z) :
  TimeWithinDay m = 0 ->
  - maxTime <= m + (n + i) * 14 * msPerDay ->
  m + (n + i) * 14 * msPerDay + 14 * msPerDay - 1 <= maxTime ->
  upcomingEntry (Num m) (Num n) (Array items) i =
  Normal {| Upcoming.person :=
              element items (Op.rem (Num (n + i)) (Num (Z.of_nat (List.length items))));
            Upcoming.rotationNumber := Num (n + i + 1);
            Upcoming.periodStart := Num (m + (n + i) * 14 * msPerDay);
            Upcoming.periodEnd := Num (m + (n + i) * 14 * msPerDay + 14 * msPerDay - 1);
            Upcoming.isCurrent := false |}.
Proof.
  intros Hmid Hlo Hhi.
  rewrite upcomingEntry_Array. cbv zeta.
  unfold Op.add, Op.mul, Op.lift2.
  rewrite addDays_Num, TimeClip_valid by (unfold msPerDay, maxTime in *; lia).
  rewrite (periodEnd_eval _ (period_start_midnight m (n + i) Hmid) Hlo Hhi).
  reflexivity.
Qed.

(** The entries of a forecast, read off the anchor Monday [m]. *)
Lemma getUpcomingRotations_entries (startDate : Date.t) (items : list string)
  (count : option Z) (w : World) (m : Z) :
  getMondayOfWeek startDate = Num m ->
  exists ups,
    getUpcomingRotations startDate (Array items) count w = Normal ups
    /\ List.length ups = Z.to_nat (match count with Some c => c | None => 5 end)
    /\ forall k e, nth_error ups k = Some e ->
                   upcomingEntry (Num m)
                                 (Num (roundDouble (wallClock w - m) / msPerDay / 14))
                                 (Array items) (1 + Z.of_nat k) = Normal e.
Proof.
  intros Hm.
  destruct (getUpcomingRotations_Array startDate items count w)
    as (ups & Hups & Hlen & Hnth).
  cbv zeta in Hups, Hlen, Hnth. rewrite Hm, Op_sub_Num in Hnth.
  cbn [Op.lift2 Op.floor_div] in Hnth.
  exists ups. split; [exact Hups | split; [exact Hlen | exact Hnth]].
Qed.

(** X11.  The periods of the forecast follow one another without a gap or an
    overlap: the entry of rank [k] starts [k] periods and one millisecond
    after the end of the current period and ends fourteen days, less that
    millisecond, later. *)
Theorem forecast_periods_contiguous (startDate : Date.t) (items : list string)
  (count : option Z) (w : World) (m : Z) (k : nat) :
  getMondayOfWeek startDate = Num m ->
  inRange (wallClock w) ->
  inRange (wallClock w + (1 + Z.of_nat k) * 14 * msPerDay) ->
  exists cur ups ce,
    getCurrentRotation startDate (Array items) w = Normal cur
    /\ getUpcomingRotations startDate (Array items) count w = Normal ups
    /\ periodEnd cur = Num ce
    /\ forall e, nth_error ups k = Some e ->
                 Upcoming.periodStart e = Num (ce + 1 + Z.of_nat k * 14 * msPerDay)
                 /\ Upcoming.periodEnd e = Num (ce + (1 + Z.of_nat k) * 14 * msPerDay).
Proof.
  intros Hm Hr Hr'.
  pose proof (getMondayOfWeek_midnight _ _ Hm) as Hmid.
  pose proof (getCurrentRotation_eval startDate items w m Hm Hr) as Hcur.
  cbv zeta in Hcur.
  destruct (getUpcomingRotations_entries startDate items count w m Hm)
    as (ups & Hups & _ & Hnth).
  assert (Hx : Z.abs (wallClock w - m) < 2 ^ 54)
    by (apply difference_below_2_54;
        [apply inRange_time_value, Hr | apply (anchor_in_range _ _ Hm)]).
  pose proof (rounded_period m (wallClock w) Hx) as Hp. cbv zeta in Hp.
  set (n := roundDouble (wallClock w - m) / msPerDay / 14) in *.
  clearbody n. clear Hx.
  unfold inRange in Hr, Hr'.
  do 3 eexists. split; [exact Hcur | ]. split; [exact Hups | ].
  cbn [periodEnd]. split; [reflexivity | ].
  intros e He. apply Hnth in He.
  remember (1 + Z.of_nat k) as i eqn:Hi.
  rewrite upcomingEntry_within in He
    by (try exact Hmid; unfold msPerDay, maxTime in *; lia).
  injection He as <-. unfold Upcoming.periodStart, Upcoming.periodEnd.
  unfold MakeTime, msPerHour, msPerMinute, msPerSecond, msPerDay in *.
  split; f_equal; lia.
Qed.

Lemma forecast_periods_contiguous_witness :
  getMondayOfWeek sampleStart = Num sampleMonday
  /\ inRange (wallClock sampleWorld)
  /\ inRange (wallClock sampleWorld + (1 + Z.of_nat 2) * 14 * msPerDay)
  /\ exists cur ups ce,
      getCurrentRotation sampleStart (Array abc) sampleWorld = Normal cur
      /\ getUpcomingRotations sampleStart (Array abc) None sampleWorld = Normal ups
      /\ periodEnd cur = Num ce
      /\ forall e, nth_error ups 2 = Some e ->
                   Upcoming.periodStart e = Num (ce + 1 + Z.of_nat 2 * 14 * msPerDay)
                   /\ Upcoming.periodEnd e = Num (ce + (1 + Z.of_nat 2) * 14 * msPerDay).
Proof.
  assert (Hr' : inRange (wallClock sampleWorld + (1 + Z.of_nat 2) * 14 * msPerDay))
    by (unfold inRange; vm_compute; discriminate).
  exact (conj sample_anchor (conj sample_inRange (conj Hr'
           (forecast_periods_contiguous sampleStart abc None sampleWorld sampleMonday 2
              sample_anchor sample_inRange Hr')))).
Defined.

(** X12.  From the anchor Monday on, the forecast goes round the list: the
    entry of rank [k] names the participant of index [(n + 1 + k) mod len],
    [n] being the current period index as the code computes it (from the
    difference between the clock and the anchor Monday, rounded as a
    double), so every entry names a member of the list and the names
    repeat with the length of the list.  The forecast has [max 0 count]
    entries. *)
Theorem forecast_participants_cycle (startDate : Date.t) (items : list string)
  (count : option Z) (w : World) (m : Z) :
  getMondayOfWeek startDate = Num m ->
  items <> [] ->
  m <= wallClock w ->
  exists ups n,
    getUpcomingRotations startDate (Array items) count w = Normal ups
    /\ List.length ups = Z.to_nat (match count with Some c => c | None => 5 end)
    /\ n = roundDouble (wallClock w - m) / msPerDay / 14
    /\ (forall k e, nth_error ups k = Some e ->
          exists who,
            Upcoming.person e = Some who
            /\ nth_error items
                 (Z.to_nat ((n + 1 + Z.of_nat k) mod Z.of_nat (List.length items)))
               = Some who
            /\ In who items)
    /\ (forall k e e', nth_error ups k = Some e ->
          nth_error ups (k + List.length items) = Some e' ->
          Upcoming.person e' = Upcoming.person e).
Proof.
  intros Hm Hne Hnow.
  pose proof (period_index_nonneg m (wallClock w) Hnow) as Hn.
  destruct (getUpcomingRotations_entries startDate items count w m Hm)
    as (ups & Hups & Hcount & Hnth).
  set (n := roundDouble (wallClock w - m) / msPerDay / 14) in *.
  set (len := Z.of_nat (List.length items)).
  assert (Hlen : 0 < len) by (unfold len; destruct items; [congruence | cbn; lia]).
  assert (Hperson : forall k e, nth_error ups k = Some e ->
            Upcoming.person e = element items (Num ((n + 1 + Z.of_nat k) mod len))).
  { intros k e He. apply Hnth in He.
    remember (1 + Z.of_nat k) as i eqn:Hi.
    rewrite upcomingEntry_Array in He. cbv zeta in He. injection He as <-.
    unfold Upcoming.person, Op.add, Op.lift2. fold len.
    destruct (personIndex_nonneg items (n + i) Hne ltac:(lia)) as (Hrem & _).
    cbv zeta in Hrem. fold len in Hrem. unfold Op.rem in Hrem.
    rewrite Hrem. do 3 f_equal. lia. }
  exists ups, n. split; [exact Hups | ]. split; [exact Hcount | ].
  split; [reflexivity | ]. split.
  - intros k e He. rewrite (Hperson k e He).
    destruct (personIndex_nonneg items (n + 1 + Z.of_nat k) Hne ltac:(lia))
      as (_ & Hb & who & Hwho).
    cbv zeta in Hb, Hwho. fold len in Hb, Hwho.
    exists who. split; [exact Hwho | ]. split; [ | exact (element_In _ _ _ Hwho)].
    unfold element in Hwho.
    destruct (Z.ltb_spec ((n + 1 + Z.of_nat k) mod len) 0); [lia | exact Hwho].
  - intros k e e' He He'.
    rewrite (Hperson _ _ He), (Hperson _ _ He'). do 2 f_equal.
    rewrite Nat2Z.inj_add. fold len.
    replace (n + 1 + (Z.of_nat k + len)) with (n + 1 + Z.of_nat k + 1 * len) by lia.
    apply Z.mod_add. lia.
Qed.

Lemma forecast_participants_cycle_witness :
  getMondayOfWeek sampleStart = Num sampleMonday
  /\ abc <> []
  /\ sampleMonday <= wallClock sampleWorld
  /\ exists ups n,
      getUpcomingRotations sampleStart (Array abc) None sampleWorld = Normal ups
      /\ List.length ups = Z.to_nat 5
      /\ n = roundDouble (wallClock sampleWorld - sampleMonday) / msPerDay / 14
      /\ (forall k e, nth_error ups k = Some e ->
            exists who,
              Upcoming.person e = Some who
              /\ nth_error abc
                   (Z.to_nat ((n + 1 + Z.of_nat k) mod Z.of_nat (List.length abc)))
                 = Some who
              /\ In who abc)
      /\ (forall k e e', nth_error ups k = Some e ->
            nth_error ups (k + List.length abc) = Some e' ->
            Upcoming.person e' = Upcoming.person e).
Proof.
  assert (Hne : abc <> []) by discriminate.
  assert (Hnow : sampleMonday <= wallClock sampleWorld) by (vm_compute; discriminate).
  exact (conj sample_anchor (conj Hne (conj Hnow
           (forecast_participants_cycle sampleStart abc None sampleWorld sampleMonday
              sample_anchor Hne Hnow)))).
Defined.

(** X13.  A shorter forecast is the beginning of a longer one made at the same
    instant: asking for more entries never changes the first ones. *)
Theorem forecast_prefix (startDate : Date.t) (items : list string)
  (c1 c2 : Z) (w : World) :
  c1 <= c2 ->
  exists l1 l2,
    getUpcomingRotations startDate (Array items) (Some c1) w = Normal l1
    /\ getUpcomingRotations startDate (Array items) (Some c2) w = Normal l2
    /\ l1 = firstn (Z.to_nat c1) l2.
Proof.
  intros Hle.
  destruct (getUpcomingRotations_Array startDate items (Some c1) w)
    as (l1 & Hrun1 & Hlen1 & Hnth1).
  destruct (getUpcomingRotations_Array startDate items (Some c2) w)
    as (l2 & Hrun2 & Hlen2 & Hnth2).
  cbv zeta in *.
  exists l1, l2. split; [exact Hrun1 | ]. split; [exact Hrun2 | ].
  apply nth_error_ext. intros k. rewrite nth_error_firstn.
  destruct (Nat.ltb_spec k (Z.to_nat c1)) as [Hlt | Hge].
  - destruct (nth_error l1 k) as [e1 | ] eqn:E1;
      [ | apply nth_error_None in E1; lia].
    destruct (nth_error l2 k) as [e2 | ] eqn:E2;
      [ | apply nth_error_None in E2; lia].
    apply Hnth1 in E1. apply Hnth2 in E2. congruence.
  - apply nth_error_None. lia.
Qed.

Lemma forecast_prefix_witness :
  3 <= 5
  /\ exists l1 l2,
      getUpcomingRotations sampleStart (Array abc) (Some 3) sampleWorld = Normal l1
      /\ getUpcomingRotations sampleStart (Array abc) (Some 5) sampleWorld = Normal l2
      /\ l1 = firstn (Z.to_nat 3) l2.
Proof.
  assert (Hle : 3 <= 5) by discriminate.
  exact (conj Hle (forecast_prefix sampleStart abc 3 5 sampleWorld Hle)).
Defined.

(** X14.  The forecast comes true: the entry of rank [k] announces, for the
    period that is [k + 1] periods ahead, exactly the participant, the
    rotation number and the bounds that the current rotation has when the
    clock is [k + 1] periods later, both clocks being at most 2^53
    milliseconds from the anchor Monday, so that neither difference is
    rounded.  The forecast has [max 0 count] entries. *)
Theorem forecast_comes_true (startDate : Date.t) (items : list string)
  (count : option Z) (w w' : World) (m : Z) (k : nat) :
  getMondayOfWeek startDate = Num m ->
  inRange (wallClock w) ->
  inRange (wallClock w') ->
  wallClock w' = wallClock w + (1 + Z.of_nat k) * 14 * msPerDay ->
  exactDifference m (wallClock w) ->
  exactDifference m (wallClock w') ->
  exists ups later,
    getUpcomingRotations startDate (Array items) count w = Normal ups
    /\ List.length ups = Z.to_nat (match count with Some c => c | None => 5 end)
    /\ getCurrentRotation startDate (Array items) w' = Normal later
    /\ forall e, nth_error ups k = Some e ->
                 Upcoming.person e = currentPerson later
                 /\ Upcoming.rotationNumber e = rotationNumber later
                 /\ Upcoming.periodStart e = periodStart later
                 /\ Upcoming.periodEnd e = periodEnd later.
Proof.
  intros Hm Hr Hr' Hw' Hex Hex'.
  pose proof (getMondayOfWeek_midnight _ _ Hm) as Hmid.
  destruct (getUpcomingRotations_entries startDate items count w m Hm)
    as (ups & Hups & Hcount & Hnth).
  rewrite (roundDouble_exact _ Hex) in Hnth.
  pose proof (period_contains m (wallClock w)) as Hp. cbv zeta in Hp.
  set (n := (wallClock w - m) / msPerDay / 14) in *.
  remember (1 + Z.of_nat k) as i eqn:Hi.
  unfold inRange in Hr, Hr'.
  assert (Hin : m + (n + i) * 14 * msPerDay <= wallClock w'
                < m + (n + i) * 14 * msPerDay + 14 * msPerDay)
    by (unfold msPerDay in *; lia).
  assert (Hn' : roundDouble (wallClock w' - m) / msPerDay / 14 = n + i)
    by (rewrite (roundDouble_exact _ Hex'); apply period_index_unique; exact Hin).
  exists ups. eexists. split; [exact Hups | ]. split; [exact Hcount | ]. split.
  - apply (getCurrentRotation_within startDate items w' m (n + i) Hm);
      [unfold msPerDay, maxTime in *; lia | unfold msPerDay, maxTime in *; lia
       | exact Hin | exact Hn'].
  - intros e He. apply Hnth in He. rewrite <- Hi in He.
    rewrite upcomingEntry_within in He
      by (try exact Hmid; unfold msPerDay, maxTime in *; lia).
    injection He as <-.
    unfold Upcoming.person, Upcoming.rotationNumber, Upcoming.periodStart,
      Upcoming.periodEnd, currentPerson, rotationNumber, periodStart, periodEnd.
    repeat split; reflexivity.
Qed.

Lemma forecast_comes_true_witness :
  getMondayOfWeek sampleStart = Num sampleMonday
  /\ inRange (wallClock sampleWorld)
  /\ inRange (wallClock (hostAt (utcInstant 2024 2 2 12 0 0 0)))
  /\ wallClock (hostAt (utcInstant 2024 2 2 12 0 0 0))
     = wallClock sampleWorld + (1 + Z.of_nat 2) * 14 * msPerDay
  /\ exactDifference sampleMonday (wallClock sampleWorld)
  /\ exactDifference sampleMonday (wallClock (hostAt (utcInstant 2024 2 2 12 0 0 0)))
  /\ exists ups later,
      getUpcomingRotations sampleStart (Array abc) None sampleWorld = Normal ups
      /\ List.length ups = Z.to_nat 5
      /\ getCurrentRotation sampleStart (Array abc)
                            (hostAt (utcInstant 2024 2 2 12 0 0 0)) = Normal later
      /\ forall e, nth_error ups 2 = Some e ->
                   Upcoming.person e = currentPerson later
                   /\ Upcoming.rotationNumber e = rotationNumber later
                   /\ Upcoming.periodStart e = periodStart later
                   /\ Upcoming.periodEnd e = periodEnd later.
Proof.
  assert (Hr' : inRange (wallClock (hostAt (utcInstant 2024 2 2 12 0 0 0))))
    by (unfold inRange; vm_compute; discriminate).
  assert (Hw' : wallClock (hostAt (utcInstant 2024 2 2 12 0 0 0))
                = wallClock sampleWorld + (1 + Z.of_nat 2) * 14 * msPerDay)
    by (vm_compute; reflexivity).
  assert (Hex' : exactDifference sampleMonday
                   (wallClock (hostAt (utcInstant 2024 2 2 12 0 0 0))))
    by (unfold exactDifference; vm_compute; discriminate).
  exact (conj sample_anchor (conj sample_inRange (conj Hr' (conj Hw'
          (conj sample_exactDifference (conj Hex'
           (forecast_comes_true sampleStart abc None sampleWorld
              (hostAt (utcInstant 2024 2 2 12 0 0 0)) sampleMonday 2
              sample_anchor sample_inRange Hr' Hw'
              sample_exactDifference Hex'))))))).
Defined.

End ForecastEntries.

(** ** Anchors and participants outside the contract *)

Section OutsideContract.

Import Time TimeFacts.

(** X15.  When the anchor has no Monday that is a date (an invalid date, or one
    of the first days of the range of time values), nothing throws: the
    current rotation has an [undefined] participant, [NaN] numbers, invalid
    dates and [isActive] false, and so has every entry of the forecast. *)
Theorem invalid_anchor_gives_NaN (startDate : Date.t) (items : list string)
  (count : option Z) (w : World) :
  getMondayOfWeek startDate = NaN ->
  getCurrentRotation startDate (Array items) w
  = Normal {| currentPerson := None;
              currentPersonIndex := NaN;
              rotationNumber := NaN;
              periodStart := NaN;
              periodEnd := NaN;
              weeksSinceStart := NaN;
              daysSinceStart := NaN;
              isActive := false |}
  /\ exists ups,
      getUpcomingRotations startDate (Array items) count w = Normal ups
      /\ Forall (fun e => e = {| Upcoming.person := None;
                                 Upcoming.rotationNumber := NaN;
                                 Upcoming.periodStart := NaN;
                                 Upcoming.periodEnd := NaN;
                                 Upcoming.isCurrent := false |}) ups.
Proof.
  intros Hm. split.
  - rewrite getCurrentRotation_Array. cbv zeta. rewrite Hm. reflexivity.
  - destruct (getUpcomingRotations_Array startDate items count w)
      as (ups & Hups & _ & Hnth).
    cbv zeta in Hups, Hnth. rewrite Hm in Hnth.
    exists ups. split; [exact Hups | ].
    apply Forall_forall. intros e Hin.
    apply In_nth_error in Hin as [k Hk]. apply Hnth in Hk.
    rewrite upcomingEntry_Array in Hk. cbv zeta in Hk.
    injection Hk as <-. reflexivity.
Qed.

Lemma invalid_anchor_gives_NaN_witness :
  getMondayOfWeek (Num (- maxTime)) = NaN
  /\ getCurrentRotation (Num (- maxTime)) (Array abc) sampleWorld
     = Normal {| currentPerson := None;
                 currentPersonIndex := NaN;
                 rotationNumber := NaN;
                 periodStart := NaN;
                 periodEnd := NaN;
                 weeksSinceStart := NaN;
                 daysSinceStart := NaN;
                 isActive := false |}
  /\ exists ups,
      getUpcomingRotations (Num (- maxTime)) (Array abc) None sampleWorld = Normal ups
      /\ Forall (fun e => e = {| Upcoming.person := None;
                                 Upcoming.rotationNumber := NaN;
                                 Upcoming.periodStart := NaN;
                                 Upcoming.periodEnd := NaN;
                                 Upcoming.isCurrent := false |}) ups.
Proof.
  assert (Hm : getMondayOfWeek (Num (- maxTime)) = NaN) by (vm_compute; reflexivity).
  exact (conj Hm (invalid_anchor_gives_NaN (Num (- maxTime)) abc None sampleWorld Hm)).
Defined.

(** X16.  When [people] is [undefined], reading [people.length] throws: the
    current rotation always does, and the forecast does as soon as its loop
    runs once, that is for every positive count and for the default one. *)
Theorem undefined_people_throw (startDate : Date.t) (p : positive) (w : World) :
  getCurrentRotation startDate Undefined w = Throw TypeError
  /\ getUpcomingRotations startDate Undefined (Some (Z.pos p)) w = Throw TypeError
  /\ getUpcomingRotations startDate Undefined None w = Throw TypeError.
Proof.
  split; [reflexivity | ].
  assert (Hloop : forall sm cur c, 1 <= c ->
            upcomingLoop sm cur Undefined c 1 [] = Throw TypeError).
  { intros sm cur c Hc. rewrite upcomingLoop_equation_1.
    destruct (Z_le_dec 1 c) as [Hle | Hgt]; [ | lia].
    rewrite upcomingLoop_clause_1_equation_1.
    change (upcomingEntry sm cur Undefined 1) with (@Throw Upcoming.t TypeError).
    apply upcomingLoop_clause_1_clause_2_equation_2. }
  split; unfold getUpcomingRotations, bind, newDate, liftC; apply Hloop; lia.
Qed.

End OutsideContract.

(** * The HTTP layer *)

Section HttpLayer.

Variable newDateOf : Json -> Date.t.
Variable trim : string -> string.

Open Scope string_scope.

(** ** The API key *)

(** X17.  The middleware lets a request through exactly when its [X-API-Key]
    header is a non-empty string equal to the configured key; when no key
    or an empty key is configured, no request gets through. *)
Theorem requireApiKey_next_iff (req : Request) (env : Env) :
  (requireApiKey req env = Next
   <-> exists key, key <> "" /\ header_X_API_Key req = Some key
                   /\ API_KEY env = Some key)
  /\ requireApiKey req (mkEnv None) <> Next
  /\ requireApiKey req (mkEnv (Some "")) <> Next.
Proof.
  assert (Hiff : forall e, requireApiKey req e = Next
            <-> exists key, key <> "" /\ header_X_API_Key req = Some key
                            /\ API_KEY e = Some key).
  { intros e. unfold requireApiKey. cbv zeta.
    destruct (header_X_API_Key req) as [key | ].
    - destruct (String.eqb_spec key "") as [He | Hne].
      + split; [discriminate | ]. intros (k & Hk & [= ->] & _). congruence.
      + destruct (API_KEY e) as [expected | ].
        * destruct (String.eqb_spec key expected) as [Heq | Hneq].
          -- split; [ | reflexivity]. intros _. exists key. subst. auto.
          -- split; [discriminate | ]. intros (k & _ & [= ->] & [= ->]). congruence.
        * split; [discriminate | ]. intros (k & _ & _ & H). discriminate.
    - split; [discriminate | ]. intros (k & _ & H & _). discriminate. }
  split; [apply Hiff | ]. split.
  - intros H. apply Hiff in H as (k & _ & _ & H). discriminate.
  - intros H. apply Hiff in H as (k & Hk & _ & [= <-]). congruence.
Qed.

(** X18.  A request that the middleware turns away is answered by each of
    the three writing routes (POST, PUT and DELETE /api/schedule) before
    any database call: the three give the same answer, 401 when the
    [X-API-Key] header is missing or empty and 403 otherwise. *)
Theorem unauthorized_request_touches_nothing (req : Request) (env : Env)
  (db : Db) (wU wC wR : World) :
  requireApiKey req env <> Next ->
  exists r,
    postScheduleRoute newDateOf trim req env db wU wC wR = ([], r)
    /\ putScheduleRoute newDateOf trim req env db wU wR = ([], r)
    /\ deleteScheduleRoute req env db = ([], r)
    /\ (status r = 401 \/ status r = 403)
    /\ (status r = 401
        <-> header_X_API_Key req = None \/ header_X_API_Key req = Some "").
Proof.
  intros Hno.
  unfold postScheduleRoute, putScheduleRoute, deleteScheduleRoute, protected.
  revert Hno. unfold requireApiKey. cbv zeta.
  destruct (header_X_API_Key req) as [key | ].
  - destruct (String.eqb_spec key "") as [He | Hne].
    + intros _. eexists. repeat (split; [reflexivity | ]).
      split; [left; reflexivity | ]. split; [intros _; right; congruence | reflexivity].
    + assert (Hcase : (status (mkResponse 403 (ErrorBody "Invalid API key")) = 401
                       <-> Some key = None \/ Some key = Some ""))
        by (cbn [status]; split; [discriminate | intros [H | H]; congruence]).
      destruct (API_KEY env) as [expected | ].
      * destruct (String.eqb key expected); [intros H; contradiction | ].
        intros _. eexists. repeat (split; [reflexivity | ]).
        split; [right; reflexivity | exact Hcase].
      * intros _. eexists. repeat (split; [reflexivity | ]).
        split; [right; reflexivity | exact Hcase].
  - intros _. eexists. repeat (split; [reflexivity | ]).
    split; [left; reflexivity | ]. split; [intros _; left; reflexivity | reflexivity].
Qed.

(** ** Creating a schedule *)

Lemma mapTrim_Normal (items : list Json) (trimmed : list string) :
  mapTrim trim items = Normal trimmed ->
  exists raw, items = map JString raw /\ trimmed = map trim raw.
Proof.
  revert trimmed. induction items as [ | v rest IH]; intros trimmed H.
  - injection H as <-. exists []. split; reflexivity.
  - cbn [mapTrim] in H. destruct v; cbn [callTrim] in H; try discriminate.
    destruct (mapTrim trim rest) as [ss | e] eqn:E; [ | discriminate].
    injection H as <-. destruct (IH ss eq_refl) as (raw & -> & ->).
    exists (s :: raw). split; reflexivity.
Qed.

Lemma mapTrim_Throw (items : list Json) :
  Exists (fun v => forall s, v <> JString s) items ->
  mapTrim trim items = Throw TypeError.
Proof.
  induction 1 as [v rest Hv | v rest _ IH].
  - cbn [mapTrim]. destruct v; cbn [callTrim]; try reflexivity.
    exfalso. exact (Hv s eq_refl).
  - cbn [mapTrim]. destruct (callTrim trim v) as [s | e] eqn:E.
    + rewrite IH. reflexivity.
    + destruct v; cbn [callTrim] in E; congruence.
Qed.

Lemma postSchedule_valid (req : Request) (db : Db) (wU wC wR : World) :
  isArray (body_people req) = true ->
  elements (body_people req) <> [] ->
  truthy (body_startDate req) = true ->
  isInvalidDate (parseStartDate newDateOf (body_startDate req)) = false ->
  postSchedule newDateOf trim req db wU wC wR =
  match deleteMany db with
  | Rejected msg => ([DeleteMany], mkResponse 500 (ExceptionBody (DbError msg)))
  | Resolved _ =>
      match mapTrim trim (elements (body_people req)) with
      | Throw e => ([DeleteMany], mkResponse 500 (ExceptionBody (JsError e)))
      | Normal trimmed =>
          let schedule :=
            {| Schedule.people := trimmed;
               Schedule.startDate := parseStartDate newDateOf (body_startDate req);
               Schedule.createdAt := Num (wallClock wC);
               Schedule.updatedAt := Num (wallClock wU) |} in
          match save db schedule with
          | Rejected msg =>
              ([DeleteMany; Save schedule], mkResponse 500 (ExceptionBody (DbError msg)))
          | Resolved _ =>
              match getCurrentRotation (Schedule.startDate schedule)
                                       (Array (Schedule.people schedule)) wR with
              | Throw e =>
                  ([DeleteMany; Save schedule],
                   mkResponse 500 (ExceptionBody (JsError e)))
              | Normal currentRotation =>
                  ([DeleteMany; Save schedule],
                   mkResponse 201 (SavedBody "Schedule created successfully"
                                             schedule currentRotation))
              end
          end
      end
  end.
Proof.
  intros Harr Hne Hsd Hdate. unfold postSchedule. cbv zeta.
  assert (Htruthy : truthy (body_people req) = true).
  { destruct (body_people req) as [[ | | | | | ] | ]; try discriminate; reflexivity. }
  assert (Hlen : Z.eqb (Z.of_nat (List.length (elements (body_people req)))) 0 = false).
  { apply Z.eqb_neq. destruct (elements (body_people req)); [congruence | cbn; lia]. }
  rewrite Htruthy, Harr, Hlen, Hsd, Hdate. reflexivity.
Qed.

Lemma postSchedule_invalid (req : Request) (db : Db) (wU wC wR : World) :
  isArray (body_people req) = false
  \/ elements (body_people req) = []
  \/ truthy (body_startDate req) = false
  \/ parseStartDate newDateOf (body_startDate req) = NaN ->
  exists msg,
    postSchedule newDateOf trim req db wU wC wR = ([], mkResponse 400 (ErrorBody msg)).
Proof.
  intros Hcases. unfold postSchedule. cbv zeta.
  destruct (isArray (body_people req)) eqn:Harr;
    [ | rewrite orb_true_r; eexists; reflexivity].
  destruct (elements (body_people req)) as [ | v rest] eqn:Hel;
    [cbn [List.length Z.of_nat Z.eqb]; rewrite orb_true_r; eexists; reflexivity | ].
  assert (Htruthy : truthy (body_people req) = true).
  { destruct (body_people req) as [[ | | | | | ] | ]; try discriminate; reflexivity. }
  rewrite Htruthy. cbn [negb orb List.length].
  replace (Z.eqb (Z.of_nat (S (List.length rest))) 0) with false
    by (symmetry; apply Z.eqb_neq; lia).
  destruct (truthy (body_startDate req)) eqn:Hsd; [ | eexists; reflexivity].
  cbn [negb].
  destruct Hcases as [H | [H | [H | H]]]; try discriminate.
  rewrite H. eexists. reflexivity.
Qed.

Lemma postSchedule_cases (req : Request) :
  (isArray (body_people req) = false
   \/ elements (body_people req) = []
   \/ truthy (body_startDate req) = false
   \/ parseStartDate newDateOf (body_startDate req) = NaN)
  \/ (isArray (body_people req) = true
      /\ elements (body_people req) <> []
      /\ truthy (body_startDate req) = true
      /\ exists tv, parseStartDate newDateOf (body_startDate req) = Num tv).
Proof.
  destruct (isArray (body_people req)); [ | auto].
  destruct (elements (body_people req)); [auto | ].
  destruct (truthy (body_startDate req)); [ | auto].
  destruct (parseStartDate newDateOf (body_startDate req)) as [ | tv]; [auto | ].
  right. repeat split; try discriminate. exists tv. reflexivity.
Qed.

Lemma postSchedule_valid_not_400 (req : Request) (db : Db) (wU wC wR : World) :
  isArray (body_people req) = true ->
  elements (body_people req) <> [] ->
  truthy (body_startDate req) = true ->
  isInvalidDate (parseStartDate newDateOf (body_startDate req)) = false ->
  status (snd (postSchedule newDateOf trim req db wU wC wR)) <> 400.
Proof.
  intros Harr Hne Hsd Hdate.
  rewrite (postSchedule_valid req db wU wC wR Harr Hne Hsd Hdate). cbv zeta.
  destruct (deleteMany db); [ | cbn; discriminate].
  destruct (mapTrim trim _); [ | cbn; discriminate].
  destruct (save db _); [ | cbn; discriminate].
  destruct (getCurrentRotation _ _ _); cbn; discriminate.
Qed.

(** X19.  A POST is answered 400 exactly when [people] is not an array with at
    least one element, or [startDate] is falsy or does not make a date; and
    a POST answered 400 has made no database call. *)
Theorem postSchedule_400_iff (req : Request) (db : Db) (wU wC wR : World) :
  (status (snd (postSchedule newDateOf trim req db wU wC wR)) = 400
   <-> (isArray (body_people req) = false
        \/ elements (body_people req) = []
        \/ truthy (body_startDate req) = false
        \/ parseStartDate newDateOf (body_startDate req) = NaN))
  /\ (status (snd (postSchedule newDateOf trim req db wU wC wR)) = 400 ->
      fst (postSchedule newDateOf trim req db wU wC wR) = []).
Proof.
  destruct (postSchedule_cases req) as [Hbad | (Harr & Hne & Hsd & tv & Hdate)].
  - destruct (postSchedule_invalid req db wU wC wR Hbad) as [msg ->]. cbn.
    split; [split; auto | reflexivity].
  - assert (Hno := postSchedule_valid_not_400 req db wU wC wR Harr Hne Hsd
                     ltac:(rewrite Hdate; reflexivity)).
    split; [ | intros H; contradiction].
    split; [intros H; contradiction | ].
    rewrite Harr, Hsd, Hdate. intros [H | [H | [H | H]]]; congruence.
Qed.

(** X20.  A POST whose [people] array holds an element that is not a string
    deletes every stored schedule and then fails: the only database call is
    [deleteMany], nothing is saved, and the answer is 500. *)
Theorem postSchedule_not_a_string_deletes_all (req : Request) (db : Db)
  (wU wC wR : World) (items : list Json) (deleted : Z) :
  body_people req = Some (JArray items) ->
  Exists (fun v => forall s, v <> JString s) items ->
  truthy (body_startDate req) = true ->
  isInvalidDate (parseStartDate newDateOf (body_startDate req)) = false ->
  deleteMany db = Resolved deleted ->
  postSchedule newDateOf trim req db wU wC wR
  = ([DeleteMany], mkResponse 500 (ExceptionBody (JsError TypeError))).
Proof.
  intros Hp Hex Hsd Hdate Hdel.
  assert (Hel : elements (body_people req) = items) by (rewrite Hp; reflexivity).
  rewrite postSchedule_valid;
    [ | rewrite Hp; reflexivity
      | rewrite Hel; intros ->; inversion Hex
      | exact Hsd | exact Hdate].
  rewrite Hdel, Hel, (mapTrim_Throw items Hex). reflexivity.
Qed.

(** X21.  A POST answered 201 has deleted the stored schedules and then saved
    exactly one: it holds the strings of the request, each trimmed, in
    their order, at least one of them, and a start date that is a date;
    the response carries that schedule and its current rotation. *)
Theorem postSchedule_201 (req : Request) (db : Db) (wU wC wR : World) :
  status (snd (postSchedule newDateOf trim req db wU wC wR)) = 201 ->
  exists raw tv doc currentRotation,
    body_people req = Some (JArray (map JString raw))
    /\ raw <> []
    /\ parseStartDate newDateOf (body_startDate req) = Num tv
    /\ doc = {| Schedule.people := map trim raw;
                Schedule.startDate := Num tv;
                Schedule.createdAt := Num (wallClock wC);
                Schedule.updatedAt := Num (wallClock wU) |}
    /\ getCurrentRotation (Num tv) (Array (map trim raw)) wR = Normal currentRotation
    /\ postSchedule newDateOf trim req db wU wC wR
       = ([DeleteMany; Save doc],
          mkResponse 201 (SavedBody "Schedule created successfully" doc currentRotation)).
Proof.
  intros H201.
  destruct (postSchedule_cases req) as [Hbad | (Harr & Hne & Hsd & tv & Hdate)].
  { destruct (postSchedule_invalid req db wU wC wR Hbad) as [msg Hres].
    rewrite Hres in H201. cbn in H201. discriminate. }
  assert (Hvalid := postSchedule_valid req db wU wC wR Harr Hne Hsd
                      ltac:(rewrite Hdate; reflexivity)).
  cbv zeta in Hvalid. rewrite Hvalid in H201 |- *. clear Hvalid.
  rewrite Hdate in *.
  destruct (deleteMany db); [ | cbn in H201; discriminate].
  destruct (mapTrim trim (elements (body_people req))) as [trimmed | e] eqn:Hmap;
    [ | cbn in H201; discriminate].
  destruct (mapTrim_Normal _ _ Hmap) as (raw & Hraw & ->).
  destruct (save db _); [ | cbn in H201; discriminate].
  cbn [Schedule.startDate Schedule.people] in *.
  destruct (getCurrentRotation (Num tv) (Array (map trim raw)) wR)
    as [currentRotation | e] eqn:Hcur; [ | cbn in H201; discriminate].
  exists raw, tv. eexists. exists currentRotation.
  split.
  { destruct (body_people req) as [[ | b | n | s | items | fields] | ];
      try discriminate.
    cbn [elements] in Hraw. rewrite Hraw. reflexivity. }
  split; [intros ->; apply Hne; rewrite Hraw; reflexivity | ].
  split; [reflexivity | ]. split; [reflexivity | ].
  split; [exact Hcur | reflexivity].
Qed.

(** ** Updating a schedule *)

Lemma save_in_trace (doc saved : Schedule.t) :
  In (Save doc) [FindOne; Save saved] -> doc = saved.
Proof.
  intros [H | [H | []]]; [discriminate | ]. injection H as <-. reflexivity.
Qed.

Lemma mapTrim_strings (raw : list string) :
  mapTrim trim (map JString raw) = Normal (map trim raw).
Proof.
  induction raw as [ | x rest IH]; [reflexivity | ].
  cbn [map mapTrim callTrim]. rewrite IH. reflexivity.
Qed.

(** The participants a PUT keeps or sets. *)
Lemma putSchedule_people (req : Request) (old : Schedule.t) :
  (forall newPeople,
     (if truthy (body_people req) && isArray (body_people req)
         && (0 <? Z.of_nat (List.length (elements (body_people req))))%Z
      then mapTrim trim (elements (body_people req))
      else Normal (Schedule.people old)) = Normal newPeople ->
     (elements (body_people req) = [] -> newPeople = Schedule.people old)
     /\ (elements (body_people req) <> [] ->
         exists raw, body_people req = Some (JArray (map JString raw))
                     /\ newPeople = map trim raw))
  /\ (elements (body_people req) = []
      \/ (exists raw, body_people req = Some (JArray (map JString raw))) ->
      exists newPeople,
        (if truthy (body_people req) && isArray (body_people req)
            && (0 <? Z.of_nat (List.length (elements (body_people req))))%Z
         then mapTrim trim (elements (body_people req))
         else Normal (Schedule.people old)) = Normal newPeople).
Proof.
  split.
  - intros newPeople Hnew.
    destruct (isArray (body_people req)) eqn:Harr.
    2:{ rewrite andb_false_r in Hnew. cbn [andb] in Hnew. injection Hnew as <-.
        split; [reflexivity | ]. intros Hne. exfalso. apply Hne.
        destruct (body_people req) as [[ | b | n | s | items | fields] | ];
          try reflexivity; discriminate. }
    destruct (body_people req) as [[ | b | n | s | items | fields] | ];
      try discriminate.
    cbn [truthy isArray elements andb] in *.
    destruct items as [ | v rest].
    + cbn in Hnew. injection Hnew as <-. split; [reflexivity | congruence].
    + replace (0 <? Z.of_nat (List.length (v :: rest)))%Z with true in Hnew
        by (symmetry; apply Z.ltb_lt; cbn [List.length]; lia).
      destruct (mapTrim_Normal _ _ Hnew) as (raw & Hraw & ->).
      split; [discriminate | ]. intros _. exists raw. rewrite Hraw. auto.
  - intros [Hnil | (raw & Hraw)].
    + rewrite Hnil. cbn [List.length Z.of_nat]. rewrite andb_false_r. eauto.
    + rewrite Hraw. cbn [elements]. rewrite mapTrim_strings.
      destruct (_ && _ && _); eauto.
Qed.

(** The update that changes nothing saves the stored schedule with a new
    [updatedAt]. *)
Lemma putSchedule_updates_nothing :
  fst (putSchedule dateOfNumber noTrim sampleUpdateNothing sampleDb
                   sampleWorld sampleWorld)
  = [FindOne; Save sampleUpdated].
Proof. vm_compute. reflexivity. Qed.

(** X22.  A PUT never deletes: its database calls are the query alone, or
    the query and one save.  It saves, and then answers 200 or the error of
    the save, exactly when a schedule was found, the participants of the
    request are no array, an empty array or an array of strings, and its
    [startDate] is falsy or a valid date; only then can it answer 200.  The
    document saved is the stored schedule with its [createdAt], with its
    participants unless the request carries an array of at least one
    string (then these, trimmed), and with its start date unless the
    request carries a truthy [startDate] (then that date, which is a valid
    one). *)
Theorem putSchedule_saved_document (req : Request) (db : Db) (wU wR : World) :
  ~ In DeleteMany (fst (putSchedule newDateOf trim req db wU wR))
  /\ (fst (putSchedule newDateOf trim req db wU wR) = [FindOne]
      \/ exists doc, fst (putSchedule newDateOf trim req db wU wR)
                     = [FindOne; Save doc])
  /\ (status (snd (putSchedule newDateOf trim req db wU wR)) = 200 ->
      exists doc, fst (putSchedule newDateOf trim req db wU wR)
                  = [FindOne; Save doc])
  /\ (forall old,
        findOne db = Resolved (Some old) ->
        elements (body_people req) = []
        \/ (exists raw, body_people req = Some (JArray (map JString raw))) ->
        truthy (body_startDate req) = false
        \/ (exists tv, parseStartDate newDateOf (body_startDate req) = Num tv) ->
        exists doc, fst (putSchedule newDateOf trim req db wU wR)
                    = [FindOne; Save doc])
  /\ (forall doc,
        In (Save doc) (fst (putSchedule newDateOf trim req db wU wR)) ->
        exists old,
          findOne db = Resolved (Some old)
          /\ Schedule.createdAt doc = Schedule.createdAt old
          /\ Schedule.updatedAt doc = Num (wallClock wU)
          /\ (elements (body_people req) = [] ->
              Schedule.people doc = Schedule.people old)
          /\ (elements (body_people req) <> [] ->
              exists raw, body_people req = Some (JArray (map JString raw))
                          /\ Schedule.people doc = map trim raw)
          /\ (truthy (body_startDate req) = false ->
              Schedule.startDate doc = Schedule.startDate old)
          /\ (truthy (body_startDate req) = true ->
              exists tv, parseStartDate newDateOf (body_startDate req) = Num tv
                         /\ Schedule.startDate doc = Num tv)).
Proof.
  unfold putSchedule. cbv zeta.
  destruct (findOne db) as [[old | ] | msg].
  2:{ cbn [fst snd status].
      split; [intros [H | []]; discriminate | ].
      split; [left; reflexivity | ]. split; [discriminate | ].
      split; [intros old H; discriminate | intros doc [H | []]; discriminate]. }
  2:{ cbn [fst snd status].
      split; [intros [H | []]; discriminate | ].
      split; [left; reflexivity | ]. split; [discriminate | ].
      split; [intros old H; discriminate | intros doc [H | []]; discriminate]. }
  destruct (putSchedule_people req old) as [Hpeople Hpeople'].
  destruct (if truthy (body_people req) && isArray (body_people req)
               && (0 <? Z.of_nat (List.length (elements (body_people req))))%Z
            then mapTrim trim (elements (body_people req))
            else Normal (Schedule.people old)) as [newPeople | e] eqn:Hnew.
  2:{ cbn [fst snd status].
      split; [intros [H | []]; discriminate | ].
      split; [left; reflexivity | ]. split; [discriminate | ].
      split; [ | intros doc [H | []]; discriminate].
      intros old' _ Hp _. destruct (Hpeople' Hp) as (np & Hnp). discriminate. }
  destruct (Hpeople newPeople eq_refl) as [Hkeep Hset].
  destruct (truthy (body_startDate req)) eqn:Hsd; cbn [andb].
  - destruct (parseStartDate newDateOf (body_startDate req)) as [ | tv] eqn:Hdate;
      cbn [isInvalidDate].
    { cbn [fst snd status].
      split; [intros [H | []]; discriminate | ].
      split; [left; reflexivity | ]. split; [discriminate | ].
      split; [ | intros doc [H | []]; discriminate].
      intros old' _ _ [H | (tv & H)]; discriminate. }
    destruct (save db _) as [u | msg];
      [destruct (getCurrentRotation _ _ _) | ];
      cbn [fst snd status];
      (split; [intros [H | [H | []]]; discriminate | ]);
      (split; [right; eexists; reflexivity | ]);
      (split; [intros _; eexists; reflexivity | ]);
      (split; [intros old' _ _ _; eexists; reflexivity | ]);
      intros doc Hin; apply save_in_trace in Hin as ->; exists old;
      cbn [Schedule.people Schedule.startDate Schedule.createdAt Schedule.updatedAt];
      (split; [reflexivity | ]); (split; [reflexivity | ]); (split; [reflexivity | ]);
      (split; [exact Hkeep | ]); (split; [exact Hset | ]);
      (split; [discriminate | intros _; exists tv; auto]).
  - destruct (save db _) as [u | msg];
      [destruct (getCurrentRotation _ _ _) | ];
      cbn [fst snd status];
      (split; [intros [H | [H | []]]; discriminate | ]);
      (split; [right; eexists; reflexivity | ]);
      (split; [intros _; eexists; reflexivity | ]);
      (split; [intros old' _ _ _; eexists; reflexivity | ]);
      intros doc Hin; apply save_in_trace in Hin as ->; exists old;
      cbn [Schedule.people Schedule.startDate Schedule.createdAt Schedule.updatedAt];
      (split; [reflexivity | ]); (split; [reflexivity | ]); (split; [reflexivity | ]);
      (split; [exact Hkeep | ]); (split; [exact Hset | ]);
      (split; [intros _; reflexivity | discriminate]).
Qed.

(** ** Reading a schedule *)

(** X23.  The two GET routes only read: their one database call is the query.
    When the query is answered they answer 404 if there is no schedule and
    200 if there is one, whatever it holds; they never answer 500 then. *)
Theorem get_routes_status (found : option Schedule.t) (answerDelete : DbResult Z)
  (answerSave : Schedule.t -> DbResult unit) (w w' : World) :
  let db := mkDb (Resolved found) answerDelete answerSave in
  fst (getCurrent db w) = [FindOne]
  /\ fst (getSchedule db w w') = [FindOne]
  /\ status (snd (getCurrent db w)) = match found with Some _ => 200 | None => 404 end
  /\ status (snd (getSchedule db w w'))
     = match found with Some _ => 200 | None => 404 end.
Proof.
  cbv zeta. unfold getCurrent, getSchedule. cbn [findOne].
  destruct found as [schedule | ]; [ | repeat split; reflexivity].
  rewrite getCurrentRotation_Array. cbv zeta.
  destruct (getUpcomingRotations_Array (Schedule.startDate schedule)
              (Schedule.people schedule) None w') as (ups & Hups & _).
  rewrite Hups. repeat split; reflexivity.
Qed.

End HttpLayer.

(** ** Instances on the sample requests *)

Lemma postSchedule_not_a_string_deletes_all_witness :
  body_people sampleCreateNumber = Some (JArray [JString "A"; JNumber 7])
  /\ Exists (fun v => forall s, v <> JString s) [JString "A"; JNumber 7]
  /\ truthy (body_startDate sampleCreateNumber) = true
  /\ isInvalidDate (parseStartDate dateOfNumber (body_startDate sampleCreateNumber))
     = false
  /\ deleteMany sampleDb = Resolved 1
  /\ postSchedule dateOfNumber noTrim sampleCreateNumber sampleDb
                  sampleWorld sampleWorld sampleWorld
     = ([DeleteMany], mkResponse 500 (ExceptionBody (JsError TypeError))).
Proof.
  assert (Hex : Exists (fun v => forall s, v <> JString s) [JString "A"; JNumber 7])
    by (right; left; intros s; discriminate).
  assert (Hdate : isInvalidDate
                    (parseStartDate dateOfNumber (body_startDate sampleCreateNumber))
                  = false) by (vm_compute; reflexivity).
  exact (conj eq_refl (conj Hex (conj eq_refl (conj Hdate (conj eq_refl
           (postSchedule_not_a_string_deletes_all dateOfNumber noTrim
              sampleCreateNumber sampleDb sampleWorld sampleWorld sampleWorld
              _ 1 eq_refl Hex eq_refl Hdate eq_refl)))))).
Defined.

Lemma postSchedule_201_witness :
  status (snd (postSchedule dateOfNumber noTrim sampleCreate sampleDb
                            sampleWorld sampleWorld sampleWorld)) = 201
  /\ exists raw tv doc currentRotation,
      body_people sampleCreate = Some (JArray (map JString raw))
      /\ raw <> []
      /\ parseStartDate dateOfNumber (body_startDate sampleCreate) = Num tv
      /\ doc = {| Schedule.people := map noTrim raw;
                  Schedule.startDate := Num tv;
                  Schedule.createdAt := Num (wallClock sampleWorld);
                  Schedule.updatedAt := Num (wallClock sampleWorld) |}
      /\ getCurrentRotation (Num tv) (Array (map noTrim raw)) sampleWorld
         = Normal currentRotation
      /\ postSchedule dateOfNumber noTrim sampleCreate sampleDb
                      sampleWorld sampleWorld sampleWorld
         = ([DeleteMany; Save doc],
            mkResponse 201 (SavedBody "Schedule created successfully" doc
                                      currentRotation)).
Proof.
  assert (H201 : status (snd (postSchedule dateOfNumber noTrim sampleCreate sampleDb
                                           sampleWorld sampleWorld sampleWorld)) = 201)
    by (vm_compute; reflexivity).
  exact (conj H201
           (postSchedule_201 dateOfNumber noTrim sampleCreate sampleDb
              sampleWorld sampleWorld sampleWorld H201)).
Defined.

Lemma unauthorized_request_touches_nothing_witness :
  requireApiKey sampleGuess sampleEnv <> Next
  /\ exists r,
      postScheduleRoute dateOfNumber noTrim sampleGuess sampleEnv sampleDb
                        sampleWorld sampleWorld sampleWorld = ([], r)
      /\ putScheduleRoute dateOfNumber noTrim sampleGuess sampleEnv sampleDb
                          sampleWorld sampleWorld = ([], r)
      /\ deleteScheduleRoute sampleGuess sampleEnv sampleDb = ([], r)
      /\ (status r = 401 \/ status r = 403)
      /\ (status r = 401
          <-> header_X_API_Key sampleGuess = None
              \/ header_X_API_Key sampleGuess = Some ""%string).
Proof.
  assert (Hno : requireApiKey sampleGuess sampleEnv <> Next)
    by (vm_compute; discriminate).
  exact (conj Hno
           (unauthorized_request_touches_nothing dateOfNumber noTrim sampleGuess
              sampleEnv sampleDb sampleWorld sampleWorld sampleWorld Hno)).
Defined.

(** [sampleCreate] sent as an update replaces both the participants and the
    start date of the stored schedule. *)
Lemma putSchedule_saved_document_witness :
  fst (putSchedule dateOfNumber noTrim sampleCreate sampleDb sampleWorld sampleWorld)
  = [FindOne; Save sampleReplaced]
  /\ ~ In DeleteMany
         (fst (putSchedule dateOfNumber noTrim sampleCreate sampleDb
                           sampleWorld sampleWorld))
  /\ exists old,
      findOne sampleDb = Resolved (Some old)
      /\ Schedule.createdAt sampleReplaced = Schedule.createdAt old
      /\ Schedule.updatedAt sampleReplaced = Num (wallClock sampleWorld)
      /\ (elements (body_people sampleCreate) = [] ->
          Schedule.people sampleReplaced = Schedule.people old)
      /\ (elements (body_people sampleCreate) <> [] ->
          exists raw, body_people sampleCreate = Some (JArray (map JString raw))
                      /\ Schedule.people sampleReplaced = map noTrim raw)
      /\ (truthy (body_startDate sampleCreate) = false ->
          Schedule.startDate sampleReplaced = Schedule.startDate old)
      /\ (truthy (body_startDate sampleCreate) = true ->
          exists tv, parseStartDate dateOfNumber (body_startDate sampleCreate)
                     = Num tv
                     /\ Schedule.startDate sampleReplaced = Num tv).
Proof.
  assert (Htrace : fst (putSchedule dateOfNumber noTrim sampleCreate sampleDb
                                    sampleWorld sampleWorld)
                   = [FindOne; Save sampleReplaced]) by (vm_compute; reflexivity).
  assert (Hin : In (Save sampleReplaced)
                   (fst (putSchedule dateOfNumber noTrim sampleCreate sampleDb
                                     sampleWorld sampleWorld)))
    by (right; left; reflexivity).
  exact (conj Htrace
           (conj (proj1 (putSchedule_saved_document dateOfNumber noTrim sampleCreate
                           sampleDb sampleWorld sampleWorld))
                 (proj2 (proj2 (proj2 (proj2
                    (putSchedule_saved_document dateOfNumber noTrim sampleCreate
                       sampleDb sampleWorld sampleWorld)))) sampleReplaced Hin))).
Defined.
